(** * Synaptic: metadata records on Maya scene nodes

    A shallow embedding of [synaptic/pointer.py] and [synaptic/meta.py].

    The Python code talks to three collaborators that are not part of the
    repository: [maya.cmds] (imported as [mc]), [maya.api.OpenMaya] (imported
    as [om]) and the [json] module.  The scene graph and the commands of the
    first two are modelled in [Module Maya]; [json] is an interface
    ([JsonCodec]) with its round-trip contract, and one executable instance.

    Python exceptions are values of [exn]; every command runs in the monad
    [M], which threads the scene and keeps the scene reached when an
    exception is raised (Maya does not roll back). *)

From Stdlib Require Import Ascii.
From stdpp Require Import base option list strings gmap sorting pretty.

Set Default Proof Using "Type".

(** ** Python strings *)

Module PyStr.

(** [s.endswith(suffix)] *)
Fixpoint endswith (s suf : string) : bool :=
  if decide (s = suf) then true
  else match s with
       | EmptyString => false
       | String _ s' => endswith s' suf
       end.

(** The text before the last occurrence of [sep], if [sep] occurs. *)
Fixpoint before_last (sep : ascii) (s : string) : option string :=
  match s with
  | EmptyString => None
  | String a s' =>
      match before_last sep s' with
      | Some p => Some (String a p)
      | None => if decide (a = sep) then Some EmptyString else None
      end
  end.

(** [s.rsplit(sep, 1)[0]]: with no separator in [s] the split has the single
    element [s]. *)
Definition rsplit1_head (sep : ascii) (s : string) : string :=
  default s (before_last sep s).

(** Iterating a [str] yields its characters as strings of length one. *)
Fixpoint iter (s : string) : list string :=
  match s with
  | EmptyString => []
  | String c s' => String c EmptyString :: iter s'
  end.

End PyStr.

(** ** Exceptions and the command monad *)

Inductive exn :=
  | RuntimeError (msg : string)
  | ValueError
  | JSONDecodeError
  | TypeError
  | AttributeError
  | IndexError.

(** [json.JSONDecodeError] is a subclass of [ValueError]. *)
Definition is_ValueError (e : exn) : bool :=
  match e with ValueError | JSONDecodeError => true | _ => false end.

Definition is_JSONDecodeError (e : exn) : bool :=
  match e with JSONDecodeError => true | _ => false end.

Inductive result (A : Type) :=
  | Ok (a : A)
  | Raise (e : exn).
Arguments Ok {A} a.
Arguments Raise {A} e.

(** ** The Maya scene *)

(** The kinds of attribute the code adds with [mc.addAttr]: [at="bool"],
    [dt="string"] and [at="message"], the last possibly [multi=True].  A
    message attribute carries no data, only connections. *)
Inductive attr :=
  | BoolAttr (b : bool)
  | StringAttr (text : string)
  | MessageAttr (multi : bool).

Record node := Node {
  node_name : string;
  node_type : string;
  node_referenced : bool;
  node_attrs : gmap string attr
}.

(** An [MObject]: the position of the node in the scene.  Nodes are never
    deleted by the code, so a handle stays valid and keeps denoting the same
    node whatever its name becomes. *)
Abbreviation MObject := nat.

(** A connection from the built-in [message] plug of node [conn_src] to the
    plug [conn_attr] (element [conn_index] of it, for a multi attribute) of
    node [conn_dst].  The code makes no other kind of connection. *)
Record connection := Connection {
  conn_src : MObject;
  conn_dst : MObject;
  conn_attr : string;
  conn_index : option nat
}.

(** Connections are kept in the order they were made. *)
Record scene := Scene {
  nodes : list node;
  connections : list connection
}.

(** A plug as the code names it, in text: ["node.attr"] or ["node.attr[i]"].
    The f-strings that build such a name and Maya's reading of it are kept
    apart as the three components; [plug_str] is the text, on which the code
    runs [endswith] and [rsplit]. *)
Record plug := Plug {
  plug_node : string;
  plug_attr : string;
  plug_index : option nat
}.

Definition plug_str (p : plug) : string :=
  plug_node p +:+ "." +:+ plug_attr p +:+
  match plug_index p with
  | Some i => "[" +:+ pretty i +:+ "]"
  | None => ""
  end.

#[global] Instance attr_eq_dec : EqDecision attr.
Proof. solve_decision. Defined.
#[global] Instance connection_eq_dec : EqDecision connection.
Proof. solve_decision. Defined.
#[global] Instance plug_eq_dec : EqDecision plug.
Proof. solve_decision. Defined.

(** The state-and-exception monad of the commands. *)
Definition M (A : Type) : Type := scene → result A * scene.

#[global] Instance M_ret : MRet M := λ A a s, (Ok a, s).
#[global] Instance M_bind : MBind M := λ A B f m s,
  match m s with
  | (Ok a, s') => f a s'
  | (Raise e, s') => (Raise e, s')
  end.

#[global] Instance M_fmap : FMap M := λ A B f m s,
  match m s with
  | (Ok a, s') => (Ok (f a), s')
  | (Raise e, s') => (Raise e, s')
  end.

Definition raise {A} (e : exn) : M A := λ s, (Raise e, s).
Definition gets {A} (f : scene → A) : M A := λ s, (Ok (f s), s).
Definition lift {A} (f : scene → result A) : M A := λ s, (f s, s).

(** [try: body except <handles>: handler] *)
Definition try_except {A} (body : M A) (handles : exn → bool) (handler : M A)
    : M A := λ s,
  match body s with
  | (Raise e, s') => if handles e then handler s' else (Raise e, s')
  | r => r
  end.

(** ** The host commands: [maya.api.OpenMaya] and [maya.cmds] *)

(** The commands the code calls, each with the flags it is called with.  A
    node has one name (no DAG path, no namespace); a command that is given a
    plug receives it as a [plug].  Queries raise [ValueError] for a name that
    matches nothing, edits raise [RuntimeError]. *)
Module Maya.

Definition lookup_node (s : scene) (name : string) : option (MObject * node) :=
  list_find (λ n, node_name n = name) (nodes s).

Definition node_names (s : scene) : list string := node_name <$> nodes s.

(** The current name of the node behind a handle. *)
Definition name_of (s : scene) (h : MObject) : string :=
  from_option node_name "" (nodes s !! h).

(** Every node has the built-in [message] attribute. *)
Definition has_attr (n : node) (a : string) : bool :=
  bool_decide (a = "message") || bool_decide (is_Some (node_attrs n !! a)).

(** What [mc.getAttr] hands to Python. *)
Inductive pyattr :=
  | PStr (text : string)
  | PBool (b : bool)
  | PNone.

(** [om.MSelectionList().add(name)] followed by [getDependNode(0)]; the
    [RuntimeError] of a name that matches no node. *)
Definition MSelectionList_getDependNode (name : string) : M MObject :=
  lift (λ s,
    match lookup_node s name with
    | Some (h, _) => Ok h
    | None => Raise (RuntimeError "(kInvalidParameter): Object does not exist")
    end).

(** [om.MFnDependencyNode(pointer).name()] *)
Definition MFnDependencyNode_name (pointer : MObject) : M string :=
  lift (λ s,
    match nodes s !! pointer with
    | Some n => Ok (node_name n)
    | None => Raise (RuntimeError "(kInvalidParameter): Object is incompatible with this method")
    end).

(** [mc.objExists("node.attr")] *)
Definition objExists (p : plug) : M bool :=
  gets (λ s,
    match lookup_node s (plug_node p) with
    | Some (_, n) => has_attr n (plug_attr p)
    | None => false
    end).

(** The name Maya substitutes for ["base#"]: [base] followed by the first
    number from 1 on that makes the name unused. *)
Definition unique_name (s : scene) (base : string) : string :=
  let candidates :=
    (λ i : nat, base +:+ pretty i) <$> seq 1 (S (length (nodes s))) in
  match list_find (λ c, c ∉ node_names s) candidates with
  | Some (_, c) => c
  | None => base
  end.

(** [mc.createNode(type, name=base + "#", skipSelect=True)]: the new node is
    not referenced and has no user attribute; the command returns its name. *)
Definition createNode (type base : string) : M string := λ s,
  let name := unique_name s base in
  (Ok name, Scene (nodes s ++ [Node name type false ∅]) (connections s)).

Definition set_attrs (n : node) (attrs : gmap string attr) : node :=
  Node (node_name n) (node_type n) (node_referenced n) attrs.

Definition set_name (n : node) (name : string) : node :=
  Node name (node_type n) (node_referenced n) (node_attrs n).

(** [mc.addAttr(node, shortName=a, ...)] with the initial content [init]. *)
Definition addAttr (name a : string) (init : attr) : M unit := λ s,
  match lookup_node s name with
  | None => (Raise (RuntimeError "No object matches name"), s)
  | Some (h, n) =>
      if has_attr n a
      then (Raise (RuntimeError "Found an attribute of the same name"), s)
      else (Ok (),
            Scene (<[h := set_attrs n (<[a := init]> (node_attrs n))]> (nodes s))
                  (connections s))
  end.

(** [mc.setAttr("node.attr", text, type="string")] *)
Definition setAttr (p : plug) (text : string) : M unit := λ s,
  match lookup_node s (plug_node p) with
  | None => (Raise (RuntimeError "No object matches name"), s)
  | Some (h, n) =>
      match node_attrs n !! plug_attr p with
      | Some (StringAttr _) =>
          (Ok (),
           Scene (<[h := set_attrs n (<[plug_attr p := StringAttr text]>
                                        (node_attrs n))]> (nodes s))
                 (connections s))
      | _ => (Raise (RuntimeError "setAttr: not a string attribute"), s)
      end
  end.

(** [mc.getAttr("node.attr")]; a name that matches nothing is a
    [ValueError]. *)
Definition getAttr (p : plug) : M pyattr :=
  lift (λ s,
    match lookup_node s (plug_node p) with
    | None => Raise ValueError
    | Some (_, n) =>
        match node_attrs n !! plug_attr p with
        | Some (StringAttr text) => Ok (PStr text)
        | Some (BoolAttr b) => Ok (PBool b)
        | Some (MessageAttr _) => Ok PNone
        | None => if bool_decide (plug_attr p = "message") then Ok PNone
                  else Raise ValueError
        end
    end).

(** The connections that arrive at plug [a] of node [h]: at any element when
    [i] is [None], at element [i] otherwise. *)
Definition arrives_at (h : MObject) (a : string) (i : option nat)
    (c : connection) : Prop :=
  conn_dst c = h ∧ conn_attr c = a ∧ (i = None ∨ conn_index c = i).

#[global] Instance arrives_at_dec h a i c : Decision (arrives_at h a i c).
Proof. unfold arrives_at. apply _. Defined.

Definition incoming (s : scene) (h : MObject) (a : string) (i : option nat)
    : list connection :=
  filter (arrives_at h a i) (connections s).

Definition outgoing (s : scene) (h : MObject) : list connection :=
  filter (λ c, conn_src c = h) (connections s).

(** [mc.getAttr("node.attr", multiIndices=True)]: the indices in use, in
    ascending order, and Python's [None] when there is none. *)
Definition getAttr_multiIndices (p : plug) : M (option (list nat)) :=
  lift (λ s,
    match lookup_node s (plug_node p) with
    | None => Raise ValueError
    | Some (h, n) =>
        if has_attr n (plug_attr p) then
          match merge_sort (≤) (omap conn_index (incoming s h (plug_attr p) None)) with
          | [] => Ok None
          | l => Ok (Some l)
          end
        else Raise ValueError
    end).

Definition src_plug (s : scene) (c : connection) : plug :=
  Plug (name_of s (conn_src c)) "message" None.

Definition dst_plug (s : scene) (c : connection) : plug :=
  Plug (name_of s (conn_dst c)) (conn_attr c) (conn_index c).

Definition none_if_empty {A} (l : list A) : option (list A) :=
  match l with [] => None | _ => Some l end.

(** [mc.listConnections(plug, source=False, destination=True,
    connections=True, plugs=True)]: a flat list, the queried plug followed
    by the plug it feeds, for each connection leaving it. *)
Definition listConnections_destination_plugs (p : plug) : M (option (list plug)) :=
  lift (λ s,
    match lookup_node s (plug_node p) with
    | None => Raise ValueError
    | Some (h, n) =>
        if has_attr n (plug_attr p) then
          if bool_decide (plug_attr p = "message") then
            Ok (none_if_empty
                  (flat_map (λ c, [src_plug s c; dst_plug s c]) (outgoing s h)))
          else Ok None
        else Raise ValueError
    end).

(** [mc.listConnections(plug, source=True, destination=False,
    connections=True, plugs=True)]: a flat list, the plug on the queried
    side followed by the plug that feeds it, for each connection arriving. *)
Definition listConnections_source_plugs (p : plug) : M (option (list plug)) :=
  lift (λ s,
    match lookup_node s (plug_node p) with
    | None => Raise ValueError
    | Some (h, n) =>
        if has_attr n (plug_attr p) then
          Ok (none_if_empty
                (flat_map (λ c, [dst_plug s c; src_plug s c])
                          (incoming s h (plug_attr p) (plug_index p))))
        else Raise ValueError
    end).

(** [mc.listConnections(plug, source=True, destination=False)]: the names of
    the nodes that feed the plug, one per connection. *)
Definition listConnections_source (p : plug) : M (option (list string)) :=
  lift (λ s,
    match lookup_node s (plug_node p) with
    | None => Raise ValueError
    | Some (h, n) =>
        if has_attr n (plug_attr p) then
          Ok (none_if_empty
                ((λ c, name_of s (conn_src c)) <$>
                 incoming s h (plug_attr p) (plug_index p)))
        else Raise ValueError
    end).

(** The destination of a connection must be a message attribute, addressed
    with an index exactly when it is a multi. *)
Definition accepts (n : node) (a : string) (i : option nat) : bool :=
  match node_attrs n !! a, i with
  | Some (MessageAttr true), Some _ => true
  | Some (MessageAttr false), None => true
  | _, _ => false
  end.

(** [mc.connectAttr(src, dst, force=force)]: with [force] an existing
    connection into [dst] is broken first, without it that is an error. *)
Definition connectAttr (src dst : plug) (force : bool) : M unit := λ s,
  match lookup_node s (plug_node src), lookup_node s (plug_node dst) with
  | Some (hs, _), Some (hd, nd) =>
      if bool_decide (plug_attr src = "message" ∧ plug_index src = None)
         && accepts nd (plug_attr dst) (plug_index dst)
      then
        let c := Connection hs hd (plug_attr dst) (plug_index dst) in
        let taken := arrives_at hd (plug_attr dst) (plug_index dst) in
        if force then
          (Ok (), Scene (nodes s)
                        (filter (λ c', ¬ taken c') (connections s) ++ [c]))
        else if decide (filter taken (connections s) = []) then
          (Ok (), Scene (nodes s) (connections s ++ [c]))
        else
          (Raise (RuntimeError "The destination already has an incoming connection"), s)
      else (Raise (RuntimeError "The attributes cannot be connected"), s)
  | _, _ => (Raise (RuntimeError "No object matches name"), s)
  end.

(** [mc.disconnectAttr(src, dst)]: an error when the two are not connected. *)
Definition disconnectAttr (src dst : plug) : M unit := λ s,
  match lookup_node s (plug_node src), lookup_node s (plug_node dst) with
  | Some (hs, _), Some (hd, _) =>
      let c := Connection hs hd (plug_attr dst) (plug_index dst) in
      if bool_decide (plug_attr src = "message" ∧ plug_index src = None)
         && bool_decide (c ∈ connections s)
      then (Ok (), Scene (nodes s) (filter (λ c', c' ≠ c) (connections s)))
      else (Raise (RuntimeError "There is no connection to disconnect"), s)
  | _, _ => (Raise (RuntimeError "No object matches name"), s)
  end.

(** [mc.referenceQuery(node, isNodeReferenced=True)] *)
Definition referenceQuery_isNodeReferenced (name : string) : M bool :=
  lift (λ s,
    match lookup_node s name with
    | Some (_, n) => Ok (node_referenced n)
    | None => Raise (RuntimeError "No object matches name")
    end).

(** [mc.rename(old, new)], the command a user renames a node with; a name
    that is in use is completed with a number.  The command returns the name
    the node has got. *)
Definition rename (old new : string) : M string := λ s,
  match lookup_node s old with
  | None => (Raise (RuntimeError "No object matches name"), s)
  | Some (h, n) =>
      if bool_decide (new = "") then
        (Raise (RuntimeError "New name has no legal characters"), s)
      else
        let name := if bool_decide (new ∈ node_names s)
                    then unique_name s new else new in
        (Ok name, Scene (<[h := set_name n name]> (nodes s)) (connections s))
  end.

End Maya.

(** ** Python values and the [json] module *)

(** The values [json.loads] produces and [json.dumps] accepts (numbers are
    the integers).  A Python [dict] keeps its keys in insertion order, which
    is the order [json.dumps] writes them in. *)
#[warnings="-register-all"]
Inductive json :=
  | JNull
  | JBool (b : bool)
  | JInt (z : Z)
  | JStr (s : string)
  | JList (l : list json)
  | JDict (d : list (string * json)).

Abbreviation dict := (list (string * json)).

(** The keys of a Python dict are distinct, at every depth. *)
Fixpoint json_wf (v : json) : bool :=
  match v with
  | JList l => forallb json_wf l
  | JDict d =>
      bool_decide (NoDup (d.*1)) &&
      forallb (λ kv, let '(_, x) := kv in json_wf x) d
  | _ => true
  end.

Module PyDict.

(** [d.get(k)] *)
Fixpoint get (d : dict) (k : string) : option json :=
  match d with
  | [] => None
  | (k', v) :: d' => if decide (k' = k) then Some v else get d' k
  end.

(** [d[k] = v]: a key already present keeps its place. *)
Fixpoint setitem (d : dict) (k : string) (v : json) : dict :=
  match d with
  | [] => [(k, v)]
  | (k', v') :: d' =>
      if decide (k' = k) then (k, v) :: d' else (k', v') :: setitem d' k v
  end.

(** [d.update(items)] for an iterable of strings: each item must be a
    sequence of length two, its key and its value.  The dict is changed in
    place, so the items before a bad one have been stored when the
    [ValueError] is raised. *)
Fixpoint update_items (d : dict) (items : list string) : dict * result unit :=
  match items with
  | [] => (d, Ok ())
  | String k (String v EmptyString) :: rest =>
      update_items (setitem d (String k EmptyString) (JStr (String v EmptyString))) rest
  | _ :: _ => (d, Raise ValueError)
  end.

(** [d.update(x)] for what [mc.getAttr] returned: a [str] is iterated
    character by character, a [bool] and [None] are not iterable. *)
Definition update (d : dict) (x : Maya.pyattr) : dict * result unit :=
  match x with
  | Maya.PStr text => update_items d (PyStr.iter text)
  | _ => (d, Raise TypeError)
  end.

End PyDict.

(** [json.loads] and [json.dumps], with the contract the code relies on:
    what was dumped loads back, what loads is a Python value, and the text
    the records are initialised with is the empty dict. *)
Class JsonCodec := {
  json_loads : string → option json;
  json_dumps : json → string;
  json_loads_dumps v : json_wf v = true → json_loads (json_dumps v) = Some v;
  json_loads_wf text v : json_loads text = Some v → json_wf v = true;
  json_loads_empty_dict : json_loads "{}" = Some (JDict [])
}.

(** [json.loads(x)]: a [TypeError] for anything but text, a
    [JSONDecodeError] for text that is not JSON. *)
Definition json_load_attr `{JsonCodec} (x : Maya.pyattr) : M json :=
  match x with
  | Maya.PStr text =>
      match json_loads text with
      | Some v => mret v
      | None => raise JSONDecodeError
      end
  | _ => raise TypeError
  end.

(** ** [synaptic/pointer.py] *)

Module pointer.

Definition is_RuntimeError (e : exn) : bool :=
  match e with RuntimeError _ => true | _ => false end.

Definition get_pointer (node_name : string) : M MObject :=
  try_except (Maya.MSelectionList_getDependNode node_name)
    is_RuntimeError
    (raise (RuntimeError ("Could not find node " +:+ node_name))).

Definition get_name (pointer : MObject) : M string :=
  Maya.MFnDependencyNode_name pointer.

End pointer.

(** ** [synaptic/meta.py] *)

Module meta.

Module _Attributes.
Definition SYNAPTIC : string := "SYNAPTIC".
Definition HOST : string := "host".
Definition PERSISTENT_DATA : string := "persistentData".
Definition TRANSIENT_DATA : string := "transientData".
End _Attributes.

(** [list(set(xs))]: the elements of [xs] once each, in no stated order. *)
Definition list_of_set (xs : list string) : list string :=
  elements (list_to_set xs : gset string).

(** [xs[1::2]] *)
Fixpoint slice_1_2 {A} (xs : list A) : list A :=
  match xs with
  | _ :: x :: xs' => x :: slice_1_2 xs'
  | _ => []
  end.

(** [m], with its exception, if any, returned as a value. *)
Definition attempt {A} (m : M A) : M (result A) := λ s,
  let '(r, s') := m s in (Ok r, s').

Module Metadata.

(** An instance of the class: its two pointers. *)
Record t := Build {
  _host_pointer : MObject;
  _meta_pointer : MObject
}.

Definition _NODE_NAME : string := "SYNAPTIC_METANODE".
Definition _TAG_PREFIX : string := "usertag".

Section methods.
Context `{JsonCodec}.

(** The loop of [get_metanode] over [all_plugs[1::2]]. *)
Fixpoint first_host (plugs : list plug) : string :=
  match plugs with
  | [] => ""
  | target_attr :: plugs' =>
      if PyStr.endswith (plug_str target_attr) ".host"
      then PyStr.rsplit1_head "." (plug_str target_attr)
      else first_host plugs'
  end.

Definition get_metanode (host : string) : M string :=
  all_plugs ← Maya.listConnections_destination_plugs (Plug host "message" None);
  match all_plugs with
  | None | Some [] => mret ""
  | Some all_plugs => mret (first_host (slice_1_2 all_plugs))
  end.

(** [Metadata(node)] *)
Definition __init__ (node : string) : M t :=
  host_pointer ← pointer.get_pointer node;
  meta_name ← get_metanode node;
  meta_pointer ← pointer.get_pointer meta_name;
  mret (Build host_pointer meta_pointer).

Definition create (host_node : string) : M t :=
  meta_node ← Maya.createNode "network" _NODE_NAME;
  Maya.addAttr meta_node _Attributes.SYNAPTIC (BoolAttr false);;
  Maya.addAttr meta_node _Attributes.HOST (MessageAttr false);;
  Maya.connectAttr (Plug host_node "message" None)
                   (Plug meta_node _Attributes.HOST None) false;;
  Maya.addAttr meta_node _Attributes.PERSISTENT_DATA (StringAttr "");;
  Maya.setAttr (Plug meta_node _Attributes.PERSISTENT_DATA None) "{}";;
  Maya.addAttr meta_node _Attributes.TRANSIENT_DATA (StringAttr "");;
  Maya.setAttr (Plug meta_node _Attributes.TRANSIENT_DATA None) "{}";;
  __init__ host_node.

(** [current_data[label] = value]: only a dict takes a string subscript. *)
Definition setitem (current_data : json) (label : string) (value : json)
    : M json :=
  match current_data with
  | JDict d => mret (JDict (PyDict.setitem d label value))
  | _ => raise TypeError
  end.

Definition set (self : t) (label : string) (value : json) : M unit :=
  meta_name ← pointer.get_name (_meta_pointer self);
  is_referenced ← Maya.referenceQuery_isNodeReferenced meta_name;
  let attr := if is_referenced : bool
              then _Attributes.TRANSIENT_DATA
              else _Attributes.PERSISTENT_DATA in
  current_data ←
    try_except (Maya.getAttr (Plug meta_name attr None) ≫= json_load_attr)
      is_JSONDecodeError
      (mret (JDict []));
  current_data ← setitem current_data label value;
  Maya.setAttr (Plug meta_name attr None) (json_dumps current_data).

(** [all_data.update(mc.getAttr(...))] inside its [try]: the method is
    looked up first (only a dict has it), then the attribute is read, then
    the dict is updated in place; a [ValueError] of the last two is
    swallowed and leaves [all_data] as far as the update got. *)
Definition update_from_transient (all_data : json) (meta_name : string)
    : M dict :=
  match all_data with
  | JDict d =>
      r ← attempt (Maya.getAttr (Plug meta_name _Attributes.TRANSIENT_DATA None));
      match r with
      | Ok x =>
          let '(d', r') := PyDict.update d x in
          match r' with
          | Ok _ => mret d'
          | Raise e => if is_ValueError e then mret d' else raise e
          end
      | Raise e => if is_ValueError e then mret d else raise e
      end
  | _ => raise AttributeError
  end.

(** Python's [None] is [JNull]. *)
Definition get (self : t) (label : string) : M json :=
  meta_name ← pointer.get_name (_meta_pointer self);
  all_data ←
    try_except
      (Maya.getAttr (Plug meta_name _Attributes.PERSISTENT_DATA None) ≫= json_load_attr)
      is_JSONDecodeError
      (mret (JDict []));
  all_data ← update_from_transient all_data meta_name;
  mret (default JNull (PyDict.get all_data label)).

Definition is_TypeError_or_IndexError (e : exn) : bool :=
  match e with TypeError | IndexError => true | _ => false end.

(** [mc.getAttr(path, multiIndices=True)[-1] + 1] *)
Definition after_last_index (attribute_fullpath : plug) : M nat :=
  indices ← Maya.getAttr_multiIndices attribute_fullpath;
  match indices with
  | None => raise TypeError
  | Some l =>
      match last l with
      | Some i => mret (i + 1)
      | None => raise IndexError
      end
  end.

Definition tag (self : t) (tag_name target : string) : M unit :=
  let tag_name := _TAG_PREFIX +:+ tag_name in
  meta_name ← pointer.get_name (_meta_pointer self);
  let attribute_fullpath := Plug meta_name tag_name None in
  present ← Maya.objExists attribute_fullpath;
  (if present : bool then mret ()
   else Maya.addAttr meta_name tag_name (MessageAttr true));;
  next_index ←
    try_except (after_last_index attribute_fullpath)
      is_TypeError_or_IndexError
      (mret 0);
  Maya.connectAttr (Plug target "message" None)
                   (Plug meta_name tag_name (Some next_index)) true.

(** The loop of [untag] over the pairs of [connection_info]. *)
Fixpoint untag_loop (connection_info : list plug) (target : string) : M unit :=
  match connection_info with
  | [] => mret ()
  | meta_attr :: target_attr :: rest =>
      (if decide (PyStr.rsplit1_head "." (plug_str target_attr) = target)
       then Maya.disconnectAttr target_attr meta_attr
       else mret ());;
      untag_loop rest target
  | [_] => raise IndexError
  end.

Definition untag (self : t) (tag_name target : string) : M unit :=
  let tag_name := _TAG_PREFIX +:+ tag_name in
  meta_name ← pointer.get_name (_meta_pointer self);
  let attribute_fullpath := Plug meta_name tag_name None in
  present ← Maya.objExists attribute_fullpath;
  if present : bool then
    connection_info ← Maya.listConnections_source_plugs attribute_fullpath;
    match connection_info with
    | None | Some [] => mret ()
    | Some connection_info => untag_loop connection_info target
    end
  else mret ().

Definition find (self : t) (tag_name : string) : M (list string) :=
  let tag_name := _TAG_PREFIX +:+ tag_name in
  meta_name ← pointer.get_name (_meta_pointer self);
  let attribute_fullpath := Plug meta_name tag_name None in
  present ← Maya.objExists attribute_fullpath;
  if present : bool then
    found ← Maya.listConnections_source attribute_fullpath;
    mret (list_of_set (default [] found))
  else mret [].

Definition find_first (self : t) (tag_name : string) : M (option string) :=
  results ← find self tag_name;
  mret (head results).

Definition node (self : t) : M string :=
  pointer.get_name (_meta_pointer self).

Definition host (self : t) : M string :=
  pointer.get_name (_host_pointer self).

End methods.
End Metadata.

Section functions.
Context `{JsonCodec}.

Definition has_meta (node : string) : M bool :=
  metanode ← Metadata.get_metanode node;
  mret (if decide (metanode = "") then false else true).

(** Python's [None] is Rocq's. *)
Definition get (node : string) : M (option Metadata.t) :=
  found ← has_meta node;
  if found : bool then Some <$> Metadata.__init__ node else mret None.

Definition create (node : string) : M (option Metadata.t) :=
  pre_meta ← Metadata.get_metanode node;
  if decide (pre_meta = "") then Some <$> Metadata.create node
  else get pre_meta.

End functions.
End meta.

(** ** A reference codec

    An executable [JsonCodec] for the JSON texts [json.dumps] writes with its
    default separators: [null], [true], [false], integers, strings with the
    quote and the backslash escaped, arrays and objects.  A text that repeats
    a key in an object is outside this fragment. *)

Module RefJson.

Definition dquote : ascii := Eval cbv in ascii_of_nat 34.
Definition backslash : ascii := "\"%char.

(** The text between the quotes of a JSON string. *)
Fixpoint escape (s : string) : string :=
  match s with
  | EmptyString => EmptyString
  | String c s' =>
      if decide (c = dquote ∨ c = backslash)
      then String backslash (String c (escape s'))
      else String c (escape s')
  end.

Definition quote (s : string) : string :=
  String dquote (escape s +:+ String dquote EmptyString).

Definition dumps_items (dumps : json → string) : list json → string :=
  fix items l :=
    match l with
    | [] => "]"
    | x :: l' => dumps x +:+ match l' with [] => "]" | _ => ", " +:+ items l' end
    end.

Definition dumps_members (dumps : json → string) : dict → string :=
  fix members d :=
    match d with
    | [] => "}"
    | (k, x) :: d' =>
        quote k +:+ ": " +:+ dumps x +:+
        match d' with [] => "}" | _ => ", " +:+ members d' end
    end.

Fixpoint dumps (v : json) : string :=
  match v with
  | JNull => "null"
  | JBool true => "true"
  | JBool false => "false"
  | JInt z => pretty z
  | JStr s => quote s
  | JList l => String "[" (dumps_items dumps l)
  | JDict d => String "{" (dumps_members dumps d)
  end.

Fixpoint skip_ws (s : string) : string :=
  match s with
  | String c s' => if decide (c = " "%char) then skip_ws s' else s
  | EmptyString => s
  end.

(** [s] without the prefix [lit]. *)
Fixpoint expect (lit s : string) : option string :=
  match lit, s with
  | EmptyString, _ => Some s
  | String a lit', String b s' => if decide (a = b) then expect lit' s' else None
  | _, _ => None
  end.

(** The string that ends at the first unescaped quote, and what follows. *)
Fixpoint unquote (s : string) : option (string * string) :=
  match s with
  | EmptyString => None
  | String c s' =>
      if decide (c = dquote) then Some (EmptyString, s')
      else if decide (c = backslash) then
        match s' with
        | String c' s'' =>
            if decide (c' = dquote ∨ c' = backslash)
            then prod_map (String c') id <$> unquote s''
            else None
        | EmptyString => None
        end
      else prod_map (String c) id <$> unquote s'
  end.

Fixpoint parse_digits (acc : N) (s : string) : N * string :=
  match s with
  | String c s' =>
      match Ascii.is_nat c with
      | Some d => parse_digits (acc * 10 + N.of_nat d) s'
      | None => (acc, s)
      end
  | EmptyString => (acc, s)
  end.

Definition parse_nat (s : string) : option (N * string) :=
  match s with
  | String c _ =>
      if decide (is_Some (Ascii.is_nat c)) then Some (parse_digits 0 s) else None
  | EmptyString => None
  end.

Definition parse_int (s : string) : option (Z * string) :=
  match s with
  | String c s' =>
      if decide (c = "-"%char)
      then prod_map (λ n, (- Z.of_N n)%Z) id <$> parse_nat s'
      else prod_map Z.of_N id <$> parse_nat s
  | EmptyString => None
  end.

Fixpoint parse_value (fuel : nat) (s : string) : option (json * string) :=
  match fuel with
  | 0 => None
  | S fuel =>
      match parse_int s with
      | Some (z, r) => Some (JInt z, r)
      | None =>
          match s with
          | EmptyString => None
          | String c s' =>
              if decide (c = "n"%char) then pair JNull <$> expect "ull" s'
              else if decide (c = "t"%char) then pair (JBool true) <$> expect "rue" s'
              else if decide (c = "f"%char) then pair (JBool false) <$> expect "alse" s'
              else if decide (c = dquote) then prod_map JStr id <$> unquote s'
              else if decide (c = "["%char) then
                match s' with
                | String c' r =>
                    if decide (c' = "]"%char) then Some (JList [], r)
                    else prod_map JList id <$> parse_items fuel s'
                | EmptyString => None
                end
              else if decide (c = "{"%char) then
                match s' with
                | String c' r =>
                    if decide (c' = "}"%char) then Some (JDict [], r)
                    else prod_map JDict id <$> parse_members fuel s'
                | EmptyString => None
                end
              else None
          end
      end
  end
with parse_items (fuel : nat) (s : string) : option (list json * string) :=
  match fuel with
  | 0 => None
  | S fuel =>
      match parse_value fuel s with
      | Some (x, String c r) =>
          if decide (c = "]"%char) then Some ([x], r)
          else if decide (c = ","%char)
          then prod_map (cons x) id <$> parse_items fuel (skip_ws r)
          else None
      | _ => None
      end
  end
with parse_members (fuel : nat) (s : string) : option (dict * string) :=
  match fuel with
  | 0 => None
  | S fuel =>
      match s with
      | String q s' =>
          if decide (q = dquote) then
            match unquote s' with
            | Some (k, String c r) =>
                if decide (c = ":"%char) then
                  match parse_value fuel (skip_ws r) with
                  | Some (x, String c' r') =>
                      if decide (c' = "}"%char) then Some ([(k, x)], r')
                      else if decide (c' = ","%char)
                      then prod_map (cons (k, x)) id <$> parse_members fuel (skip_ws r')
                      else None
                  | _ => None
                  end
                else None
            | _ => None
            end
          else None
      | EmptyString => None
      end
  end.

Definition loads (text : string) : option json :=
  match parse_value (S (String.length text)) text with
  | Some (v, EmptyString) => if json_wf v then Some v else None
  | _ => None
  end.

(** What follows a dumped integer is not a digit. *)
Definition not_digit_first (s : string) : Prop :=
  match s with
  | String c _ => Ascii.is_nat c = None
  | EmptyString => True
  end.

(** The first character of a dumped value. *)
Definition value_first (c : ascii) : Prop :=
  c ≠ "]"%char ∧ c ≠ "}"%char ∧ c ≠ " "%char.

(** [v] is parsed back from its dump, whatever follows it. *)
Definition loads_dumped (v : json) : Prop :=
  ∀ fuel rest,
    String.length (dumps v) ≤ fuel → not_digit_first rest →
    parse_value fuel (dumps v +:+ rest) = Some (v, rest).

End RefJson.

(** ** Well-formed scenes and the data tiers *)

(** What Maya maintains: node names are distinct and not empty; no
    connection is listed twice, and connections join existing nodes. *)
Definition scene_wf (s : scene) : Prop :=
  NoDup (Maya.node_names s) ∧
  ("" ∉ Maya.node_names s) ∧
  NoDup (connections s) ∧
  Forall (λ c, is_Some (nodes s !! conn_src c) ∧ is_Some (nodes s !! conn_dst c))
         (connections s).

#[global] Instance scene_wf_dec s : Decision (scene_wf s).
Proof. unfold scene_wf. apply _. Defined.

(** The content of attribute [a] of the node behind [h]; the two data tiers
    of a record are the attributes [persistentData] and [transientData] of
    its storage node. *)
Definition tier (s : scene) (h : MObject) (a : string) : option attr :=
  nodes s !! h ≫= λ n, node_attrs n !! a.

(** The links of a tag: the connections that arrive at the tag attribute of
    the storage node. *)
Definition links (s : scene) (self : meta.Metadata.t) (tag_name : string)
    : list connection :=
  Maya.incoming s (meta.Metadata._meta_pointer self)
    (meta.Metadata._TAG_PREFIX +:+ tag_name) None.

(** A plug [get_metanode] passes over. *)
Definition no_host_plug (p : plug) : Prop :=
  PyStr.endswith (plug_str p) ".host" = false.

(** The attributes of a storage node as [Metadata.create] leaves them. *)
Definition fresh_attrs : gmap string attr :=
  <[meta._Attributes.TRANSIENT_DATA := StringAttr "{}"]>
    (<[meta._Attributes.PERSISTENT_DATA := StringAttr "{}"]>
       (<[meta._Attributes.HOST := MessageAttr false]>
          (<[meta._Attributes.SYNAPTIC := BoolAttr false]> ∅))).

(** The scene after [Metadata.create] for the host behind [h]: one more
    node, named [name], and its [host] connection. *)
Definition created_scene (s : scene) (h : MObject) (name : string) : scene :=
  Scene (nodes s ++ [Node name "network" false fresh_attrs])
        (connections s ++ [Connection h (length (nodes s)) meta._Attributes.HOST None]).

(** The scene with the attributes of node [n], behind [h], replaced. *)
Definition with_attrs (s : scene) (h : MObject) (n : node)
    (attrs : gmap string attr) : scene :=
  Scene (<[h := Maya.set_attrs n attrs]> (nodes s)) (connections s).

(** The tier [set] writes, as the reference query decides. *)
Definition active_tier (referenced : bool) : string :=
  if referenced then meta._Attributes.TRANSIENT_DATA
  else meta._Attributes.PERSISTENT_DATA.

Definition inactive_tier (referenced : bool) : string :=
  active_tier (negb referenced).

(** The dict [get] and [set] work on for the text of a tier: the decoded
    dict, the empty dict for text that is not JSON, and none of the two for
    JSON text of another kind, on which they raise. *)
Definition decoded `{JsonCodec} (text : string) : option dict :=
  match json_loads text with
  | None => Some []
  | Some (JDict d) => Some d
  | Some _ => None
  end.

(** The index [tag] connects at: one past the last index in use at plug [a]
    of the node behind [h], or zero. *)
Definition next_index (s : scene) (h : MObject) (a : string) : nat :=
  match last (merge_sort (≤) (omap conn_index (Maya.incoming s h a None))) with
  | Some i => i + 1
  | None => 0
  end.

(** The scene after [tag]: the storage node [n], behind [h], has the multi
    message attribute [a], and one more connection arrives at it. *)
Definition tagged_scene (s : scene) (h : MObject) (n : node) (a : string)
    (target : MObject) : scene :=
  Scene (<[h := Maya.set_attrs n (<[a := MessageAttr true]> (node_attrs n))]> (nodes s))
        (connections s ++ [Connection target h a (Some (next_index s h a))]).

(** The scene after [untag]: the connections that arrive at plug [a] of the
    node behind [h] from a node named [target] are gone. *)
Definition untagged_scene (s : scene) (h : MObject) (a target : string) : scene :=
  Scene (nodes s)
        (filter (λ c, ¬ (Maya.arrives_at h a None c ∧
                         Maya.name_of s (conn_src c) = target))
                (connections s)).

(** The name [mc.rename] gives, and the scene it leaves. *)
Definition renamed_name (s : scene) (new : string) : string :=
  if bool_decide (new ∈ Maya.node_names s) then Maya.unique_name s new else new.

Definition renamed_scene (s : scene) (h : MObject) (n : node) (name : string)
    : scene :=
  Scene (<[h := Maya.set_name n name]> (nodes s)) (connections s).

(** A command that leaves the scene as it found it, whether it returns or
    raises. *)
Definition query {A} (m : M A) : Prop := ∀ s, (m s).2 = s.

(** ** Example scenes *)

(** A cube and its control, without metadata. *)
Definition cube_scene : scene :=
  Scene [Node "pCube1" "transform" false ∅;
         Node "pCube1_ctrl" "transform" false ∅] [].

(** A storage node, referenced or not, whose two tiers hold the given
    texts. *)
Definition storage_node (referenced : bool) (persistent transient : string)
    : node :=
  Node "SYNAPTIC_METANODE1" "network" referenced
    (<[meta._Attributes.TRANSIENT_DATA := StringAttr transient]>
       (<[meta._Attributes.PERSISTENT_DATA := StringAttr persistent]>
          fresh_attrs)).

(** The cube and its control, with that storage node for the cube. *)
Definition stored_scene (referenced : bool) (persistent transient : string)
    : scene :=
  Scene [Node "pCube1" "transform" false ∅;
         Node "pCube1_ctrl" "transform" false ∅;
         storage_node referenced persistent transient]
        [Connection 0 2 meta._Attributes.HOST None].

(** The scene [create] leaves for the cube. *)
Definition described_scene : scene := stored_scene false "{}" "{}".

(** The text of a tier in which [owner] is the one entry. *)
Definition owned_by (team : string) : string :=
  RefJson.dumps (JDict [("owner", JStr team)]).

(** The record of the cube in [stored_scene]: the cube is node 0, the
    storage node is node 2. *)
Definition cube_record : meta.Metadata.t := meta.Metadata.Build 0 2.

(** The scenario of the specification: describe the cube, store its owner,
    tag its control, rename it; the values read on the way. *)
Definition scenario `{JsonCodec} : M (json * list string * string * json) :=
  created ← meta.create "pCube1";
  match created with
  | None => raise (RuntimeError "no record")
  | Some self =>
      meta.Metadata.set self "owner" (JStr "rigTeam");;
      before ← meta.Metadata.get self "owner";
      meta.Metadata.tag self "controls" "pCube1_ctrl";;
      found ← meta.Metadata.find self "controls";
      Maya.rename "pCube1" "cube_final";;
      name ← meta.Metadata.host self;
      after ← meta.Metadata.get self "owner";
      mret (before, found, name, after)
  end.

(** The cube's record with two links under the tag [grp], at the indices 0
    and 5. *)
Definition sparse_scene : scene :=
  Scene [Node "pCube1" "transform" false ∅;
         Node "pCube1_ctrl" "transform" false ∅;
         Maya.set_attrs (storage_node false "{}" "{}")
           (<["usertaggrp" := MessageAttr true]> fresh_attrs)]
        [Connection 0 2 meta._Attributes.HOST None;
         Connection 1 2 "usertaggrp" (Some 0);
         Connection 0 2 "usertaggrp" (Some 5)].

(** The cube connected to the [host] attribute of a locator that is no
    storage node: it has neither the marker nor the data attributes. *)
Definition hosted_scene : scene :=
  Scene [Node "pCube1" "transform" false ∅;
         Node "locator1" "transform" false
           (<[meta._Attributes.HOST := MessageAttr false]> ∅)]
        [Connection 0 1 meta._Attributes.HOST None].

(** The text of a tier that holds a JSON array. *)
Definition listed : string := RefJson.dumps (JList [JInt 1]).

(** * Properties *)

(** ** Python strings *)

Module PyStrFacts.
Import PyStr.

Lemma app_cons c s t : String c s +:+ t = String c (s +:+ t).
Proof. reflexivity. Qed.

Lemma app_nil_r s : s +:+ "" = s.
Proof. induction s as [|c s IH]; [done|]. by rewrite app_cons, IH. Qed.

Lemma app_assoc s t u : (s +:+ t) +:+ u = s +:+ (t +:+ u).
Proof. induction s as [|c s IH]; [done|]. by rewrite !app_cons, IH. Qed.

Lemma app_eq_nil s t : s +:+ t = "" → s = "" ∧ t = "".
Proof. destruct s; [done|]. by rewrite app_cons. Qed.

Lemma endswith_refl s : endswith s s = true.
Proof. destruct s; simpl; [done|]. by rewrite decide_True. Qed.

Lemma endswith_cons c s suf : endswith s suf = true → endswith (String c s) suf = true.
Proof. intros Hs. simpl. by case_decide. Qed.

Lemma endswith_app s suf : endswith (s +:+ suf) suf = true.
Proof.
  induction s as [|c s IH]; [apply endswith_refl|].
  rewrite app_cons. by apply endswith_cons.
Qed.

Lemma endswith_inv s suf : endswith s suf = true → ∃ p, s = p +:+ suf.
Proof.
  induction s as [|c s IH]; simpl; intros Hs.
  - case_decide; [|done]. subst. by exists "".
  - case_decide as Heq; [by exists ""; rewrite Heq|].
    destruct (IH Hs) as [p ->]. by exists (String c p).
Qed.

(** Two texts that are equal end with the same character. *)
Lemma app_last_inj s t a b : s +:+ String a "" = t +:+ String b "" → a = b.
Proof.
  revert t. induction s as [|c s IH]; intros [|d t]; rewrite ?app_cons; simpl.
  - by intros [= ->].
  - intros [= _ Ht]. symmetry in Ht. by apply app_eq_nil in Ht as [_ ?].
  - intros [= _ Hs]. by apply app_eq_nil in Hs as [_ ?].
  - intros [= _ Hst]. by apply IH in Hst.
Qed.

Lemma before_last_app_None sep s t :
  before_last sep t = None → before_last sep (s +:+ String sep t) = Some s.
Proof.
  intros Ht. induction s as [|c s IH].
  - simpl. rewrite Ht. by rewrite decide_True.
  - rewrite app_cons. simpl. by rewrite IH.
Qed.

Lemma before_last_app_Some sep s t :
  ∃ q, before_last sep (s +:+ String sep t) = Some (s +:+ q).
Proof.
  induction s as [|c s [q IH]].
  - simpl. destruct (before_last sep t) as [p|]; [by eexists|].
    rewrite decide_True by done. by exists "".
  - exists q. rewrite app_cons. simpl. by rewrite IH.
Qed.

Lemma rsplit1_head_app sep s t :
  before_last sep t = None → rsplit1_head sep (s +:+ String sep t) = s.
Proof. intros Ht. unfold rsplit1_head. by rewrite before_last_app_None. Qed.

Lemma rsplit1_head_nonempty sep s t :
  s ≠ "" → rsplit1_head sep (s +:+ String sep t) ≠ "".
Proof.
  intros Hs. unfold rsplit1_head.
  destruct (before_last_app_Some sep s t) as [q ->]. simpl.
  intros Hq. by apply app_eq_nil in Hq as [? _].
Qed.

End PyStrFacts.

(** ** The reference codec loads what it dumps *)

Module RefJsonFacts.
Import RefJson PyStrFacts.

Lemma app_nil_l s : EmptyString +:+ s = s.
Proof. reflexivity. Qed.

Lemma length_app s t : String.length (s +:+ t) = String.length s + String.length t.
Proof. induction s as [|c s IH]; [done|]. rewrite app_cons. simpl. by rewrite IH. Qed.

Lemma length_cons c s : String.length (String c s) = S (String.length s).
Proof. reflexivity. Qed.

Ltac string_length H :=
  repeat first
    [ rewrite app_cons in H | rewrite app_nil_l in H
    | rewrite length_app in H | rewrite length_cons in H ].


Lemma unquote_escape s rest :
  unquote (escape s +:+ String dquote rest) = Some (s, rest).
Proof.
  induction s as [|c s IH]; simpl.
  - done.
  - destruct (decide (c = dquote ∨ c = backslash)) as [Hc|Hc].
    + rewrite !app_cons. simpl.
      rewrite decide_True by done. by rewrite IH.
    + rewrite app_cons. simpl.
      rewrite decide_False by tauto. rewrite decide_False by tauto.
      by rewrite IH.
Qed.

Lemma is_nat_pretty_N_char d :
  (d < 10)%N → Ascii.is_nat (pretty_N_char d) = Some (N.to_nat d).
Proof.
  intros Hd.
  assert (d = 0 ∨ d = 1 ∨ d = 2 ∨ d = 3 ∨ d = 4 ∨ d = 5 ∨ d = 6 ∨ d = 7
          ∨ d = 8 ∨ d = 9)%N as Hcases by lia.
  repeat destruct Hcases as [->|Hcases]; try done. by subst.
Qed.

Lemma pretty_N_go_app x s rest :
  pretty_N_go x s +:+ rest = pretty_N_go x (s +:+ rest).
Proof.
  revert s. induction (N.lt_wf_0 x) as [x _ IH]; intros s.
  destruct (decide (x = 0)%N) as [->|Hx]; [by rewrite !pretty_N_go_0|].
  rewrite (pretty_N_go_step x s), (pretty_N_go_step x (s +:+ rest)) by lia.
  rewrite IH by (apply N.div_lt; lia). by rewrite app_cons.
Qed.

Lemma parse_digits_pretty_N_go x s :
  ∃ m, ∀ acc, parse_digits acc (pretty_N_go x s) = parse_digits (acc * m + x) s.
Proof.
  revert s. induction (N.lt_wf_0 x) as [x _ IH]; intros s.
  destruct (decide (x = 0)%N) as [->|Hx].
  { exists 1%N. intros acc. rewrite pretty_N_go_0. f_equal. lia. }
  destruct (IH (x `div` 10)%N ltac:(apply N.div_lt; lia)
              (String (pretty_N_char (x `mod` 10)) s)) as [m Hm].
  exists (m * 10)%N. intros acc.
  rewrite pretty_N_go_step by lia. rewrite Hm. simpl.
  rewrite is_nat_pretty_N_char by (apply N.mod_lt; lia).
  f_equal. rewrite N2Nat.id.
  pose proof (N.div_mod x 10 ltac:(lia)). lia.
Qed.

Lemma pretty_N_go_head x s :
  (0 < x)%N →
  ∃ c t, pretty_N_go x s = String c t ∧ is_Some (Ascii.is_nat c).
Proof.
  revert s. induction (N.lt_wf_0 x) as [x _ IH]; intros s Hx.
  rewrite pretty_N_go_step by done.
  destruct (decide (x `div` 10 = 0)%N) as [->|Hd].
  - rewrite pretty_N_go_0. eexists _, _. split; [done|].
    rewrite is_nat_pretty_N_char by (apply N.mod_lt; lia). done.
  - apply IH; [apply N.div_lt; lia | by apply N.neq_0_lt_0].
Qed.

Lemma parse_digits_stop acc rest :
  not_digit_first rest → parse_digits acc rest = (acc, rest).
Proof. destruct rest as [|c r]; [done|]. simpl. by intros ->. Qed.

Lemma pretty_N_head (n : N) :
  ∃ c t, pretty n = String c t ∧ is_Some (Ascii.is_nat c).
Proof.
  unfold pretty, pretty_N. case_decide as Hn.
  - eexists _, _. split; [done|]. by eexists.
  - apply pretty_N_go_head. lia.
Qed.

Lemma parse_nat_pretty (n : N) rest :
  not_digit_first rest → parse_nat (pretty n +:+ rest) = Some (n, rest).
Proof.
  intros Hrest.
  destruct (pretty_N_head n) as (c & t & Hct & Hc).
  unfold parse_nat. rewrite Hct, app_cons. rewrite decide_True by done.
  rewrite <-app_cons, <-Hct. f_equal.
  unfold pretty, pretty_N. case_decide as Hn.
  - subst. simpl. rewrite app_nil_l, parse_digits_stop by done. done.
  - rewrite pretty_N_go_app, app_nil_l.
    destruct (parse_digits_pretty_N_go n rest) as [m ->].
    rewrite parse_digits_stop by done. f_equal; lia.
Qed.

Lemma parse_int_pretty_N (n : N) rest :
  not_digit_first rest → parse_int (pretty n +:+ rest) = Some (Z.of_N n, rest).
Proof.
  intros Hrest.
  destruct (pretty_N_head n) as (c & t & Hct & Hc).
  unfold parse_int. rewrite Hct, app_cons.
  rewrite decide_False by (intros ->; by destruct Hc).
  by rewrite <-app_cons, <-Hct, parse_nat_pretty.
Qed.

Lemma parse_int_pretty (z : Z) rest :
  not_digit_first rest → parse_int (pretty z +:+ rest) = Some (z, rest).
Proof.
  intros Hrest. destruct z as [|p|p].
  - by apply (parse_int_pretty_N 0).
  - by apply (parse_int_pretty_N (N.pos p)).
  - unfold pretty at 1, pretty_Z, pretty_positive.
    rewrite !app_cons, app_nil_l. unfold parse_int.
    rewrite decide_True by done.
    by rewrite (parse_nat_pretty (N.pos p)).
Qed.

Lemma json_nested_ind (P : json → Prop) :
  P JNull → (∀ b, P (JBool b)) → (∀ z, P (JInt z)) → (∀ s, P (JStr s)) →
  (∀ l, Forall P l → P (JList l)) →
  (∀ d, Forall (λ kv, P kv.2) d → P (JDict d)) →
  ∀ v, P v.
Proof.
  intros Hnull Hbool Hint Hstr Hlist Hdict. fix IH 1.
  intros [ |b|z|s|l|d].
  - exact Hnull.
  - exact (Hbool b).
  - exact (Hint z).
  - exact (Hstr s).
  - apply Hlist. induction l as [|x l IHl]; constructor; [apply IH|exact IHl].
  - apply Hdict.
    induction d as [|[k x] d IHd]; constructor; [apply IH|exact IHd].
Qed.


Lemma dumps_head v : ∃ c t, dumps v = String c t ∧ value_first c.
Proof.
  destruct v as [|[]|z|s|l|d]; try by (eexists _, _; split; [done|by repeat split]).
  destruct z as [|p|p].
  - eexists _, _; split; [done|by repeat split].
  - destruct (pretty_N_head (N.pos p)) as (c & t & Hct & Hc).
    exists c, t. split; [done|]. repeat split; intros ->; by destruct Hc.
  - eexists _, _; split; [done|by repeat split].
Qed.

Lemma skip_ws_dumps v rest : skip_ws (dumps v +:+ rest) = dumps v +:+ rest.
Proof.
  destruct (dumps_head v) as (c & t & -> & _ & _ & Hc).
  rewrite app_cons. simpl. by rewrite decide_False.
Qed.


Lemma parse_items_S fuel s :
  parse_items (S fuel) s =
  match parse_value fuel s with
  | Some (x, String c r) =>
      if decide (c = "]"%char) then Some ([x], r)
      else if decide (c = ","%char)
      then prod_map (cons x) id <$> parse_items fuel (skip_ws r)
      else None
  | _ => None
  end.
Proof. reflexivity. Qed.

Lemma parse_items_dumps l :
  Forall loads_dumped l → l ≠ [] →
  ∀ fuel rest,
    String.length (dumps_items dumps l) ≤ fuel →
    parse_items fuel (dumps_items dumps l +:+ rest) = Some (l, rest).
Proof.
  induction 1 as [|x l Hx Hl IH]; [done|]. intros _ fuel rest Hfuel.
  simpl in Hfuel. rewrite length_app in Hfuel.
  destruct l as [|x' l'].
  - simpl in Hfuel. destruct fuel as [|fuel]; [lia|].
    rewrite parse_items_S. simpl. rewrite app_assoc.
    rewrite Hx by (done || lia). done.
  - rewrite length_app in Hfuel. simpl in Hfuel.
    destruct fuel as [|fuel]; [lia|].
    rewrite parse_items_S.
    change (dumps_items dumps (x :: x' :: l'))
      with (dumps x +:+ ", " +:+ dumps_items dumps (x' :: l')).
    rewrite !app_assoc. rewrite Hx by (done || lia).
    simpl.
    change (dumps_items dumps (x' :: l'))
      with (dumps x' +:+ match l' with [] => "]" | _ => ", " +:+ dumps_items dumps l' end).
    rewrite app_nil_l, app_assoc, skip_ws_dumps, <-app_assoc.
    change (dumps x' +:+ match l' with [] => "]" | _ => ", " +:+ dumps_items dumps l' end)
      with (dumps_items dumps (x' :: l')).
    rewrite IH by (done || (simpl; lia)). done.
Qed.
Lemma parse_members_S fuel s :
  parse_members (S fuel) s =
  match s with
  | String q s' =>
      if decide (q = dquote) then
        match unquote s' with
        | Some (k, String c r) =>
            if decide (c = ":"%char) then
              match parse_value fuel (skip_ws r) with
              | Some (x, String c' r') =>
                  if decide (c' = "}"%char) then Some ([(k, x)], r')
                  else if decide (c' = ","%char)
                  then prod_map (cons (k, x)) id <$> parse_members fuel (skip_ws r')
                  else None
              | _ => None
              end
            else None
        | _ => None
        end
      else None
  | EmptyString => None
  end.
Proof. reflexivity. Qed.

Lemma dumps_members_cons k x d :
  dumps_members dumps ((k, x) :: d) =
  String dquote (escape k +:+ String dquote (": " +:+ dumps x +:+
    match d with [] => "}" | _ => ", " +:+ dumps_members dumps d end)).
Proof.
  change (dumps_members dumps ((k, x) :: d))
    with (quote k +:+ ": " +:+ dumps x +:+
          match d with [] => "}" | _ => ", " +:+ dumps_members dumps d end).
  unfold quote. by rewrite app_cons, app_assoc.
Qed.

Lemma parse_members_dumps d :
  Forall (λ kv, loads_dumped kv.2) d → d ≠ [] →
  ∀ fuel rest,
    String.length (dumps_members dumps d) ≤ fuel →
    parse_members fuel (dumps_members dumps d +:+ rest) = Some (d, rest).
Proof.
  induction 1 as [|[k x] d Hx Hd IH]; [done|]. intros _ fuel rest Hfuel.
  rewrite dumps_members_cons in Hfuel |- *. simpl in Hx.
  destruct fuel as [|fuel]; [simpl in Hfuel; lia|].
  rewrite parse_members_S, app_cons, decide_True by done.
  rewrite app_assoc, app_cons, unquote_escape.
  rewrite !app_cons, app_nil_l. cbv beta iota.
  rewrite decide_True by done.
  change (skip_ws (String " " ?s)) with (skip_ws s).
  rewrite app_assoc, skip_ws_dumps.
  destruct d as [|[k' x'] d'].
  - string_length Hfuel. rewrite Hx by (done || lia). done.
  - remember (dumps_members dumps ((k', x') :: d')) as m eqn:Hm.
    string_length Hfuel. rewrite Hx by (done || lia).
    rewrite !app_cons, app_nil_l. cbv beta iota.
    rewrite decide_False by done. rewrite decide_True by done.
    change (skip_ws (String " " ?s)) with (skip_ws s).
    assert (skip_ws (m +:+ rest) = m +:+ rest) as ->.
    { rewrite Hm, dumps_members_cons, app_cons. done. }
    subst m. rewrite IH; [done|done|lia].
Qed.

Lemma parse_value_dumps v : loads_dumped v.
Proof.
  induction v as [|[]|z|s|l IH|d IH] using json_nested_ind;
    intros fuel rest Hfuel Hrest.
  - destruct fuel; [simpl in Hfuel; lia|]. done.
  - destruct fuel; [simpl in Hfuel; lia|]. done.
  - destruct fuel; [simpl in Hfuel; lia|]. done.
  - destruct (dumps_head (JInt z)) as (c & t & Hct & _).
    destruct fuel; [rewrite Hct in Hfuel; simpl in Hfuel; lia|].
    simpl. by rewrite parse_int_pretty.
  - destruct fuel; [simpl in Hfuel; lia|].
    unfold dumps, quote. rewrite app_cons, app_assoc, app_cons, app_nil_l.
    simpl. by rewrite unquote_escape.
  - destruct fuel; [simpl in Hfuel; lia|].
    destruct l as [|x l]; [done|].
    pose proof (parse_items_dumps (x :: l) IH ltac:(done) fuel rest) as Hitems.
    simpl in Hfuel. specialize (Hitems ltac:(simpl; lia)).
    change (dumps (JList (x :: l))) with (String "[" (dumps_items dumps (x :: l))).
    rewrite app_cons.
    change (dumps_items dumps (x :: l))
      with (dumps x +:+ match l with [] => "]" | _ => ", " +:+ dumps_items dumps l end)
      in Hitems |- *.
    destruct (dumps_head x) as (c & t & Hct & Hc & _).
    rewrite Hct in Hitems |- *. rewrite !app_cons in Hitems |- *.
    simpl. rewrite decide_False by done. by rewrite Hitems.
  - destruct fuel; [simpl in Hfuel; lia|].
    destruct d as [|[k x] d]; [done|].
    pose proof (parse_members_dumps ((k, x) :: d) IH ltac:(done) fuel rest) as Hmem.
    simpl in Hfuel. specialize (Hmem ltac:(simpl; lia)).
    change (dumps (JDict ((k, x) :: d)))
      with (String "{" (dumps_members dumps ((k, x) :: d))).
    rewrite app_cons.
    assert (∃ t, dumps_members dumps ((k, x) :: d) +:+ rest = String dquote t)
      as [t Ht] by (rewrite dumps_members_cons, app_cons; eauto).
    rewrite Ht in Hmem |- *. simpl. by rewrite Hmem.
Qed.

Lemma loads_dumps v : json_wf v = true → loads (dumps v) = Some v.
Proof.
  intros Hwf. unfold loads.
  pose proof (parse_value_dumps v (S (String.length (dumps v))) EmptyString) as Hv.
  assert (dumps v +:+ EmptyString = dumps v) as Hnil.
  { generalize (dumps v). intros s. induction s as [|c s IH]; [done|].
    by rewrite app_cons, IH. }
  rewrite Hnil in Hv. rewrite Hv by (done || lia). by rewrite Hwf.
Qed.

Lemma loads_wf text v : loads text = Some v → json_wf v = true.
Proof.
  unfold loads. intros Hv. repeat case_match; by simplify_eq.
Qed.

#[export] Instance codec : JsonCodec := {|
  json_loads := loads;
  json_dumps := dumps;
  json_loads_dumps := loads_dumps;
  json_loads_wf := loads_wf;
  json_loads_empty_dict := eq_refl
|}.

End RefJsonFacts.

(** ** The text of a plug *)

Section plug_text.
Import PyStr PyStrFacts.

Lemma plug_str_node_attr name a :
  plug_str (Plug name a None) = name +:+ String "." a.
Proof. unfold plug_str. simpl. by rewrite app_nil_r. Qed.

(** The node of a [message] plug is read back from its text. *)
Lemma rsplit_message_plug name :
  rsplit1_head "." (plug_str (Plug name "message" None)) = name.
Proof. rewrite plug_str_node_attr. by apply rsplit1_head_app. Qed.

Lemma rsplit_host_plug name :
  rsplit1_head "." (plug_str (Plug name "host" None)) = name.
Proof. rewrite plug_str_node_attr. by apply rsplit1_head_app. Qed.

Lemma endswith_host_plug name :
  endswith (plug_str (Plug name "host" None)) ".host" = true.
Proof. rewrite plug_str_node_attr. apply (endswith_app name ".host"). Qed.

(** The text of an element plug ends with a bracket. *)
Lemma endswith_element_plug name a i :
  endswith (plug_str (Plug name a (Some i))) ".host" = false.
Proof.
  apply not_true_is_false. intros [p Hp]%endswith_inv.
  unfold plug_str in Hp. simpl in Hp.
  rewrite <-!app_assoc in Hp.
  change ".host" with (".hos" +:+ "t") in Hp. rewrite <-(app_assoc p) in Hp.
  by apply app_last_inj in Hp.
Qed.

Lemma rsplit_plug_nonempty p :
  plug_node p ≠ "" → rsplit1_head "." (plug_str p) ≠ "".
Proof. intros Hp. unfold plug_str. by apply rsplit1_head_nonempty. Qed.

End plug_text.

(** ** Lists *)

Section list_facts.
Context {A : Type} (P : A → Prop) `{∀ x, Decision (P x)}.

Lemma filter_all (l : list A) : Forall P l → filter P l = l.
Proof.
  induction 1 as [|x l Hx _ IH]; [done|].
  by rewrite filter_cons_True, IH.
Qed.

Lemma filter_none (l : list A) : Forall (λ x, ¬ P x) l → filter P l = [].
Proof.
  induction 1 as [|x l Hx _ IH]; [done|].
  by rewrite filter_cons_False, IH.
Qed.

Lemma filter_ext_in (Q : A → Prop) `{∀ x, Decision (Q x)} (l : list A) :
  (∀ x, x ∈ l → P x ↔ Q x) → filter P l = filter Q l.
Proof.
  induction l as [|x l IH]; [done|]. intros Hiff.
  rewrite !filter_cons, IH.
  - destruct (decide (P x)) as [HP|HP], (decide (Q x)) as [HQ|HQ]; try done.
    + by apply Hiff in HP; [|left].
    + by apply Hiff in HQ; [|left].
  - intros y Hy. apply Hiff. by right.
Qed.

End list_facts.

(** The last element of a sorted list is its greatest. *)
Lemma Sorted_last_max (l : list nat) (mx i : nat) :
  Sorted (≤) l → last l = Some mx → i ∈ l → i ≤ mx.
Proof.
  intros Hsorted%Sorted_StronglySorted; [|apply _].
  induction Hsorted as [|x l Hl IH Hx]; [done|].
  rewrite last_cons. destruct (last l) as [y|] eqn:Hlast.
  - intros [= ->] [->|Hi]%elem_of_cons; [|by apply IH].
    rewrite Forall_forall in Hx. by apply Hx, last_Some_elem_of.
  - apply last_None in Hlast as ->. intros [= ->] [->|Hi]%elem_of_cons; [done|].
    by apply elem_of_nil in Hi.
Qed.

(** ** Looking nodes up *)

Section lookup.
Import Maya.

Lemma lookup_node_Some s name h n :
  lookup_node s name = Some (h, n) → nodes s !! h = Some n ∧ node_name n = name.
Proof. unfold lookup_node. intros (? & ? & _)%list_find_Some. done. Qed.

Lemma lookup_node_None s name :
  lookup_node s name = None ↔ name ∉ node_names s.
Proof.
  unfold lookup_node, node_names. rewrite list_find_None, list_elem_of_fmap.
  rewrite Forall_forall. split.
  - intros Hall (n & -> & Hn). by apply (Hall n).
  - intros Hnot n Hn Hname. apply Hnot. by exists n.
Qed.

(** With distinct names, a node is found under its name. *)
Lemma lookup_node_unique s h n :
  NoDup (node_names s) → nodes s !! h = Some n →
  lookup_node s (node_name n) = Some (h, n).
Proof.
  intros Hnodup Hh. unfold lookup_node. apply list_find_Some.
  split; [done|]. split; [done|]. intros j y Hj Hlt Hname.
  assert (j = h); [|lia].
  apply (NoDup_lookup (node_names s) j h (node_name n) Hnodup).
  - unfold node_names. rewrite list_lookup_fmap, Hj. simpl. by rewrite Hname.
  - unfold node_names. by rewrite list_lookup_fmap, Hh.
Qed.

Lemma name_of_lookup s h n : nodes s !! h = Some n → name_of s h = node_name n.
Proof. unfold name_of. by intros ->. Qed.

End lookup.

(** ** Running commands *)

Lemma bind_Ok {A B} (m : M A) (f : A → M B) s a s' :
  m s = (Ok a, s') → (m ≫= f) s = f a s'.
Proof. unfold mbind, M_bind. by intros ->. Qed.

Lemma bind_Raise {A B} (m : M A) (f : A → M B) s e s' :
  m s = (Raise e, s') → (m ≫= f) s = (Raise e, s').
Proof. unfold mbind, M_bind. by intros ->. Qed.

Lemma get_pointer_Some s name h n :
  Maya.lookup_node s name = Some (h, n) → pointer.get_pointer name s = (Ok h, s).
Proof.
  intros Hn. unfold pointer.get_pointer, try_except,
    Maya.MSelectionList_getDependNode, lift. by rewrite Hn.
Qed.

Lemma get_pointer_None s name :
  Maya.lookup_node s name = None →
  pointer.get_pointer name s
  = (Raise (RuntimeError ("Could not find node " +:+ name)), s).
Proof.
  intros Hn. unfold pointer.get_pointer, try_except,
    Maya.MSelectionList_getDependNode, lift. by rewrite Hn.
Qed.

Lemma get_name_Some s h n :
  nodes s !! h = Some n → pointer.get_name h s = (Ok (node_name n), s).
Proof.
  intros Hn. unfold pointer.get_name, Maya.MFnDependencyNode_name, lift.
  by rewrite Hn.
Qed.

(** [get_metanode] only reads the scene. *)
Lemma get_metanode_scene host s :
  (meta.Metadata.get_metanode host s).2 = s.
Proof.
  unfold meta.Metadata.get_metanode, Maya.listConnections_destination_plugs.
  unfold mbind, M_bind, lift. repeat case_match; by simplify_eq.
Qed.

Lemma get_metanode_Ok_exists host s name :
  (meta.Metadata.get_metanode host s).1 = Ok name →
  is_Some (Maya.lookup_node s host).
Proof.
  unfold meta.Metadata.get_metanode, Maya.listConnections_destination_plugs.
  unfold mbind, M_bind, lift. simpl.
  destruct (Maya.lookup_node s host); [by eexists|done].
Qed.

(** ** Constructing a record for a host that has no storage node *)

(** C10: when [get_metanode] finds no storage node for the host (it returns
    the empty name), [Metadata(host)] raises the [RuntimeError] of
    [get_pointer] for the empty name; the scene is left as it was, no record
    is returned and none is created. *)
Theorem init_without_metanode_raises (s : scene) (host : string) :
  "" ∉ Maya.node_names s →
  (meta.Metadata.get_metanode host s).1 = Ok "" →
  meta.Metadata.__init__ host s
  = (Raise (RuntimeError ("Could not find node " +:+ "")), s).
Proof.
  intros Hnames Hmeta.
  destruct (get_metanode_Ok_exists _ _ _ Hmeta) as [[h n] Hhost].
  unfold meta.Metadata.__init__.
  rewrite (bind_Ok _ _ s h s) by (by eapply get_pointer_Some).
  rewrite (bind_Ok _ _ s "" s).
  2:{ pose proof (get_metanode_scene host s) as Hscene.
      destruct (meta.Metadata.get_metanode host s). by simplify_eq/=. }
  apply bind_Raise, get_pointer_None. by apply lookup_node_None.
Qed.

(** ** Fresh node names *)

Section unique_name.
Import Maya.

Lemma pretty_nat_nonempty (i : nat) : pretty i ≠ "".
Proof.
  unfold pretty, pretty_nat.
  destruct (RefJsonFacts.pretty_N_head (N.of_nat i)) as (c & t & -> & _). done.
Qed.

Lemma unique_name_candidate s base :
  (unique_name s base ∉ node_names s) ∧ ∃ i : nat, unique_name s base = base +:+ pretty i.
Proof.
  unfold unique_name.
  set (candidates := (λ i : nat, base +:+ pretty i) <$> seq 1 (S (length (nodes s)))).
  destruct (list_find _ candidates) as [[j c]|] eqn:Hfind.
  - apply list_find_Some in Hfind as (Hj & Hc & _). split; [done|].
    apply list_elem_of_lookup_2, list_elem_of_fmap in Hj as (i & -> & _). eauto.
  - exfalso. apply list_find_None in Hfind.
    assert (NoDup candidates) as Hnodup.
    { apply NoDup_fmap_2; [|apply NoDup_seq].
      intros i j Hij. by apply (inj (String.app base)), (inj pretty) in Hij. }
    assert (candidates ⊆+ node_names s) as Hsub.
    { apply NoDup_submseteq; [done|]. intros c Hc.
      rewrite Forall_forall in Hfind. apply dec_stable. by apply Hfind. }
    apply submseteq_length in Hsub.
    unfold candidates, node_names in Hsub. rewrite !length_fmap, length_seq in Hsub.
    lia.
Qed.

Lemma unique_name_fresh s base : unique_name s base ∉ node_names s.
Proof. apply unique_name_candidate. Qed.

Lemma unique_name_nonempty s base : unique_name s base ≠ "".
Proof.
  destruct (unique_name_candidate s base) as [_ [i ->]].
  intros [_ Hi]%PyStrFacts.app_eq_nil. by apply pretty_nat_nonempty in Hi.
Qed.

End unique_name.

(** ** Commands on the node added last *)

Section last_node.
Import Maya.

Lemma lookup_node_old s name h n new cs :
  lookup_node s name = Some (h, n) →
  lookup_node (Scene (nodes s ++ [new]) cs) name = Some (h, n).
Proof. unfold lookup_node. simpl. apply list_find_app_l. Qed.

Lemma lookup_node_new s new cs :
  node_name new ∉ node_names s →
  lookup_node (Scene (nodes s ++ [new]) cs) (node_name new)
  = Some (length (nodes s), new).
Proof.
  intros Hnew%lookup_node_None. unfold lookup_node in *. simpl.
  rewrite list_find_app_r by done. simpl. rewrite decide_True by done.
  done.
Qed.

Lemma insert_last {A} (l : list A) (x y : A) : <[length l := y]> (l ++ [x]) = l ++ [y].
Proof. rewrite insert_app_r_alt by lia. by rewrite Nat.sub_diag. Qed.

Lemma addAttr_last s new cs a init :
  node_name new ∉ node_names s → has_attr new a = false →
  addAttr (node_name new) a init (Scene (nodes s ++ [new]) cs)
  = (Ok (), Scene (nodes s ++ [set_attrs new (<[a := init]> (node_attrs new))]) cs).
Proof.
  intros Hnew Ha. unfold addAttr. rewrite lookup_node_new, Ha by done.
  simpl. by rewrite insert_last.
Qed.

Lemma setAttr_last s new cs a old text :
  node_name new ∉ node_names s → node_attrs new !! a = Some (StringAttr old) →
  setAttr (Plug (node_name new) a None) text (Scene (nodes s ++ [new]) cs)
  = (Ok (), Scene (nodes s ++ [set_attrs new (<[a := StringAttr text]> (node_attrs new))]) cs).
Proof.
  intros Hnew Ha. unfold setAttr. simpl. rewrite lookup_node_new, Ha by done.
  simpl. by rewrite insert_last.
Qed.

(** No connection of a well-formed scene arrives at a node that is not in
    it yet. *)
Lemma incoming_beyond s a i :
  scene_wf s → incoming s (length (nodes s)) a i = [].
Proof.
  intros (_ & _ & _ & Hvalid). unfold incoming.
  apply filter_none. rewrite Forall_forall in Hvalid |- *.
  intros c [_ [x Hx]]%Hvalid [Hdst _].
  apply lookup_lt_Some in Hx. lia.
Qed.

End last_node.

(** ** Finding the storage node of a host *)

Section get_metanode.
Import Maya meta meta.Metadata.

Lemma slice_1_2_pairs {A B} (f g : A → B) (l : list A) :
  slice_1_2 (flat_map (λ c, [f c; g c]) l) = g <$> l.
Proof. induction l as [|x l IH]; [done|]. simpl. by rewrite IH. Qed.

(** [get_metanode] returns the node of the first plug fed by the host's
    [message] whose text ends with [.host]. *)
Lemma get_metanode_run s host h nh :
  lookup_node s host = Some (h, nh) →
  get_metanode host s = (Ok (first_host (dst_plug s <$> outgoing s h)), s).
Proof.
  intros Hhost. unfold get_metanode, listConnections_destination_plugs.
  unfold mbind, M_bind, lift. simpl. rewrite Hhost. simpl.
  destruct (outgoing s h) as [|c l] eqn:Hout; [done|].
  simpl. by rewrite slice_1_2_pairs.
Qed.


Lemma first_host_empty plugs :
  Forall (λ p, plug_node p ≠ "") plugs → first_host plugs = "" →
  Forall no_host_plug plugs.
Proof.
  induction 1 as [|p plugs Hp _ IH]; [done|]. simpl.
  destruct (PyStr.endswith (plug_str p) ".host") eqn:Hends.
  - intros Hsplit. by apply rsplit_plug_nonempty in Hsplit.
  - intros Hrest. constructor; [done|by apply IH].
Qed.

Lemma first_host_app plugs plugs' :
  Forall no_host_plug plugs → first_host (plugs ++ plugs') = first_host plugs'.
Proof. induction 1 as [|p plugs Hp _ IH]; [done|]. simpl. by rewrite Hp. Qed.

Lemma dst_plug_node_nonempty s c :
  scene_wf s → c ∈ connections s → plug_node (dst_plug s c) ≠ "".
Proof.
  intros (_ & Hnames & _ & Hvalid) Hc.
  rewrite Forall_forall in Hvalid. destruct (Hvalid c Hc) as [_ [n Hn]].
  simpl. rewrite (name_of_lookup _ _ _ Hn). intros Hempty. apply Hnames.
  rewrite <-Hempty. unfold node_names.
  apply list_elem_of_fmap. exists n. split; [done|].
  by eapply list_elem_of_lookup_2.
Qed.

(** A host without storage node feeds no [.host] plug. *)
Lemma get_metanode_empty s host h nh :
  scene_wf s → lookup_node s host = Some (h, nh) →
  (get_metanode host s).1 = Ok "" →
  Forall no_host_plug (dst_plug s <$> outgoing s h).
Proof.
  intros Hwf Hhost. rewrite (get_metanode_run _ _ _ _ Hhost). simpl.
  intros [= Hfirst]. apply first_host_empty; [|done].
  apply Forall_fmap, Forall_forall. intros c [_ Hc]%list_elem_of_filter.
  by apply dst_plug_node_nonempty.
Qed.

End get_metanode.

(** ** Creating a record *)

Section create.
Import Maya meta meta.Metadata.

Lemma connectAttr_host s new cs host h nh :
  scene_wf s → cs = connections s →
  lookup_node s host = Some (h, nh) →
  node_name new ∉ node_names s →
  node_attrs new !! _Attributes.HOST = Some (MessageAttr false) →
  connectAttr (Plug host "message" None) (Plug (node_name new) _Attributes.HOST None)
    false (Scene (nodes s ++ [new]) cs)
  = (Ok (), Scene (nodes s ++ [new])
                  (cs ++ [Connection h (length (nodes s)) _Attributes.HOST None])).
Proof.
  intros Hwf -> Hhost Hnew Hattr. unfold connectAttr. simpl.
  rewrite (lookup_node_old _ _ _ _ _ _ Hhost), lookup_node_new by done.
  unfold accepts. simpl. rewrite Hattr. simpl.
  pose proof (incoming_beyond s _Attributes.HOST None Hwf) as Hnone.
  unfold incoming in Hnone. rewrite Hnone. by rewrite decide_True.
Qed.

Lemma name_of_old s new cs h :
  is_Some (nodes s !! h) → name_of (Scene (nodes s ++ [new]) cs) h = name_of s h.
Proof.
  intros [n Hn]. unfold name_of. simpl.
  by rewrite lookup_app_l by (by eapply lookup_lt_Some).
Qed.

Lemma outgoing_created s h name :
  outgoing (created_scene s h name) h
  = outgoing s h ++ [Connection h (length (nodes s)) _Attributes.HOST None].
Proof.
  unfold outgoing, created_scene. simpl. rewrite filter_app.
  by rewrite filter_cons_True.
Qed.

Lemma get_metanode_created s host h nh name :
  scene_wf s → lookup_node s host = Some (h, nh) → name ∉ node_names s →
  (get_metanode host s).1 = Ok "" →
  get_metanode host (created_scene s h name)
  = (Ok name, created_scene s h name).
Proof.
  intros Hwf Hhost Hname Hnone.
  pose proof (get_metanode_empty _ _ _ _ Hwf Hhost Hnone) as Hold.
  erewrite get_metanode_run by (by apply lookup_node_old).
  rewrite outgoing_created, fmap_app, first_host_app.
  - simpl. unfold dst_plug, name_of. simpl.
    rewrite lookup_app_r, Nat.sub_diag by done. simpl.
    by rewrite endswith_host_plug, rsplit_host_plug.
  - destruct Hwf as (_ & _ & _ & Hvalid). rewrite Forall_forall in Hvalid.
    rewrite Forall_fmap, Forall_forall in Hold |- *.
    intros c Hc. specialize (Hold c Hc). simpl in *.
    apply list_elem_of_filter in Hc as [_ Hc].
    destruct (Hvalid c Hc) as [_ Hdst].
    unfold no_host_plug, dst_plug, created_scene in *.
    by rewrite name_of_old.
Qed.

Lemma fresh_attrs_steps :
  <[_Attributes.TRANSIENT_DATA := StringAttr "{}"]>
    (<[_Attributes.TRANSIENT_DATA := StringAttr ""]>
       (<[_Attributes.PERSISTENT_DATA := StringAttr "{}"]>
          (<[_Attributes.PERSISTENT_DATA := StringAttr ""]>
             (<[_Attributes.HOST := MessageAttr false]>
                (<[_Attributes.SYNAPTIC := BoolAttr false]> ∅)))))
  = fresh_attrs.
Proof. reflexivity. Qed.

(** [Metadata.create] for a host without storage node: the new node is
    named by [unique_name], bound to the host, and holds the two tiers
    initialised to the text of the empty dict. *)
Lemma create_run s host h nh :
  scene_wf s → lookup_node s host = Some (h, nh) →
  (get_metanode host s).1 = Ok "" →
  Metadata.create host s
  = (Ok (Build h (length (nodes s))),
     created_scene s h (unique_name s _NODE_NAME)).
Proof.
  intros Hwf Hhost Hnone.
  pose proof (unique_name_fresh s _NODE_NAME) as Hfresh.
  set (name := unique_name s _NODE_NAME) in *.
  unfold Metadata.create.
  erewrite bind_Ok by reflexivity. fold name.
  erewrite bind_Ok by (by apply (addAttr_last s (Node name "network" false ∅))).
  erewrite bind_Ok by (by apply (addAttr_last s (Node name "network" false _))).
  erewrite bind_Ok
    by (by apply (connectAttr_host s (Node name "network" false _) _ host h nh)).
  erewrite bind_Ok by (by apply (addAttr_last s (Node name "network" false _))).
  erewrite bind_Ok
    by (by apply (setAttr_last s (Node name "network" false _) _ _ EmptyString)).
  erewrite bind_Ok by (by apply (addAttr_last s (Node name "network" false _))).
  erewrite bind_Ok
    by (by apply (setAttr_last s (Node name "network" false _) _ _ EmptyString)).
  unfold set_attrs. simpl. rewrite fresh_attrs_steps.
  change (Scene _ _) with (created_scene s h name).
  unfold __init__.
  erewrite bind_Ok by (eapply get_pointer_Some; by apply lookup_node_old).
  erewrite bind_Ok by (by eapply get_metanode_created).
  erewrite bind_Ok
    by (eapply get_pointer_Some;
        by apply (lookup_node_new s (Node name "network" false fresh_attrs))).
  done.
Qed.

End create.

(** ** Scenes stay well formed *)

Section wf.
Import Maya.

Lemma node_names_with_attrs s h n attrs :
  nodes s !! h = Some n → node_names (with_attrs s h n attrs) = node_names s.
Proof.
  intros Hn. unfold node_names, with_attrs. simpl.
  rewrite list_fmap_insert. simpl. apply list_insert_id.
  by rewrite list_lookup_fmap, Hn.
Qed.

Lemma with_attrs_wf s h n attrs :
  scene_wf s → nodes s !! h = Some n → scene_wf (with_attrs s h n attrs).
Proof.
  intros (Hnodup & Hnonempty & Hconns & Hvalid) Hn.
  unfold scene_wf. rewrite node_names_with_attrs by done.
  repeat split; try done. simpl.
  eapply Forall_impl; [exact Hvalid|]. intros c [Hsrc Hdst]. simpl.
  split; apply lookup_lt_is_Some; rewrite length_insert;
    by apply lookup_lt_is_Some.
Qed.

Lemma with_attrs_lookup s h n attrs :
  nodes s !! h = Some n →
  nodes (with_attrs s h n attrs) !! h = Some (set_attrs n attrs).
Proof.
  intros Hn. simpl. apply list_lookup_insert_eq. by eapply lookup_lt_Some.
Qed.

Lemma with_attrs_lookup_ne s h n attrs h' :
  h ≠ h' → nodes (with_attrs s h n attrs) !! h' = nodes s !! h'.
Proof. intros Hne. simpl. by apply list_lookup_insert_ne. Qed.

Lemma tier_with_attrs s h n attrs a :
  nodes s !! h = Some n → tier (with_attrs s h n attrs) h a = attrs !! a.
Proof. intros Hn. unfold tier. by rewrite (with_attrs_lookup _ _ _ _ Hn). Qed.

Lemma name_of_with_attrs s h n attrs h' :
  nodes s !! h = Some n → name_of (with_attrs s h n attrs) h' = name_of s h'.
Proof.
  intros Hn. unfold name_of. destruct (decide (h = h')) as [<-|Hne].
  - by rewrite (with_attrs_lookup _ _ _ _ Hn), Hn.
  - by rewrite with_attrs_lookup_ne.
Qed.

Lemma created_scene_wf s h name :
  scene_wf s → is_Some (nodes s !! h) → name ∉ node_names s → name ≠ "" →
  scene_wf (created_scene s h name).
Proof.
  intros (Hnodup & Hnonempty & Hconns & Hvalid) Hh Hname Hne.
  rewrite Forall_forall in Hvalid.
  unfold scene_wf, created_scene, node_names. simpl. rewrite fmap_app. simpl.
  repeat split.
  - apply NoDup_app. repeat split; [done| |apply NoDup_singleton].
    intros x Hx ->%list_elem_of_singleton. done.
  - rewrite elem_of_app, list_elem_of_singleton. intros [?|?]; by subst.
  - apply NoDup_app. repeat split; [done| |apply NoDup_singleton].
    intros c Hc ->%list_elem_of_singleton.
    destruct (Hvalid _ Hc) as [_ [x Hx]]. simpl in Hx.
    apply lookup_lt_Some in Hx. lia.
  - rewrite Forall_app, Forall_singleton. split.
    + apply Forall_forall. intros c Hc. destruct (Hvalid c Hc) as [Hsrc Hdst].
      split; apply lookup_lt_is_Some; rewrite length_app; simpl;
        apply lookup_lt_is_Some in Hsrc, Hdst; lia.
    + simpl. split; apply lookup_lt_is_Some; rewrite length_app; simpl;
        [apply lookup_lt_is_Some in Hh|]; lia.
Qed.

End wf.

(** ** Reading and writing the data tiers *)

Section data.
Context `{JsonCodec}.
Import Maya meta meta.Metadata.

(** Updating a dict from a text never stores anything: a text has no item of
    length two. *)
Lemma update_from_text d text :
  PyDict.update d (PStr text)
  = (d, if decide (text = "") then Ok () else Raise ValueError).
Proof. by destruct text. Qed.

Lemma get_name_meta s (self : t) n :
  nodes s !! _meta_pointer self = Some n →
  pointer.get_name (_meta_pointer self) s = (Ok (node_name n), s).
Proof. apply get_name_Some. Qed.

Lemma update_from_transient_run s h n d text :
  scene_wf s → nodes s !! h = Some n →
  node_attrs n !! _Attributes.TRANSIENT_DATA = Some (StringAttr text) →
  update_from_transient (JDict d) (node_name n) s = (Ok d, s).
Proof.
  intros (Hnodup & _) Hn Htext.
  unfold update_from_transient, attempt, getAttr, lift, mbind, M_bind. simpl.
  rewrite (lookup_node_unique _ _ _ Hnodup Hn), Htext.
  rewrite update_from_text. by case_decide.
Qed.

(** [get] answers from the persistent tier alone, whatever text the
    transient tier holds. *)
Lemma get_run s (self : t) n label p text d :
  scene_wf s → nodes s !! _meta_pointer self = Some n →
  node_attrs n !! _Attributes.PERSISTENT_DATA = Some (StringAttr p) →
  node_attrs n !! _Attributes.TRANSIENT_DATA = Some (StringAttr text) →
  decoded p = Some d →
  get self label s = (Ok (default JNull (PyDict.get d label)), s).
Proof.
  intros Hwf Hn Hp Htext Hd. unfold get.
  erewrite bind_Ok by (by apply get_name_meta).
  erewrite (bind_Ok _ _ s (JDict d) s).
  - erewrite bind_Ok by (by eapply update_from_transient_run). done.
  - destruct Hwf as (Hnodup & _).
    unfold try_except, getAttr, lift, mbind, M_bind, json_load_attr. simpl.
    rewrite (lookup_node_unique _ _ _ Hnodup Hn), Hp.
    unfold decoded in Hd. unfold mret, M_ret, raise.
    destruct (json_loads p) as [[]|]; by simplify_eq/=.
Qed.

(** [set] after its two queries: the name of the storage node and whether
    it is referenced. *)
Lemma set_after_queries s (self : t) n label value :
  scene_wf s → nodes s !! _meta_pointer self = Some n →
  set self label value s
  = (let attr := active_tier (node_referenced n) in
     current_data ←
       try_except (getAttr (Plug (node_name n) attr None) ≫= json_load_attr)
         is_JSONDecodeError (mret (JDict []));
     current_data ← setitem current_data label value;
     setAttr (Plug (node_name n) attr None) (json_dumps current_data)) s.
Proof.
  intros (Hnodup & _) Hn. unfold set.
  erewrite bind_Ok by (by apply get_name_meta).
  erewrite (bind_Ok _ _ s (node_referenced n) s); [done|].
  unfold referenceQuery_isNodeReferenced, lift.
  by rewrite (lookup_node_unique _ _ _ Hnodup Hn).
Qed.

(** Reading the active tier inside the [try] of [set]. *)
Lemma read_tier_run s h n a :
  scene_wf s → nodes s !! h = Some n →
  try_except (getAttr (Plug (node_name n) a None) ≫= json_load_attr)
    is_JSONDecodeError (mret (JDict [])) s
  = (match node_attrs n !! a with
     | Some (StringAttr text) =>
         match json_loads text with
         | Some v => Ok v
         | None => Ok (JDict [])
         end
     | Some _ => Raise TypeError
     | None => Raise (if bool_decide (a = "message") then TypeError else ValueError)
     end, s).
Proof.
  intros (Hnodup & _) Hn.
  unfold try_except, getAttr, lift, mbind, M_bind, json_load_attr. simpl.
  rewrite (lookup_node_unique _ _ _ Hnodup Hn).
  destruct (node_attrs n !! a) as [[b|text|multi]|] eqn:Ha; try done.
  - by destruct (json_loads text).
  - by case_bool_decide.
Qed.

(** [set] on a tier whose text decodes: the active tier is rewritten with
    the dumped dict, nothing else changes. *)
Lemma set_run s (self : t) n label value text d :
  scene_wf s → nodes s !! _meta_pointer self = Some n →
  node_attrs n !! active_tier (node_referenced n) = Some (StringAttr text) →
  decoded text = Some d →
  set self label value s
  = (Ok (),
     with_attrs s (_meta_pointer self) n
       (<[active_tier (node_referenced n) :=
            StringAttr (json_dumps (JDict (PyDict.setitem d label value)))]>
          (node_attrs n))).
Proof.
  intros Hwf Hn Htext Hd. rewrite (set_after_queries s self n) by done.
  pose proof Hwf as (Hnodup & _).
  cbv zeta. erewrite (bind_Ok _ _ s (JDict d) s).
  - erewrite bind_Ok by reflexivity.
    unfold setAttr. simpl.
    by rewrite (lookup_node_unique _ _ _ Hnodup Hn), Htext.
  - rewrite (read_tier_run s _ n) by done. rewrite Htext.
    unfold decoded in Hd. destruct (json_loads text) as [[]|]; by simplify_eq.
Qed.

(** Whatever [set] does, it raises and leaves the scene as it is, or it
    returns and has rewritten the active tier of the storage node. *)
Lemma set_cases s (self : t) n label value :
  scene_wf s → nodes s !! _meta_pointer self = Some n →
  (∃ e, set self label value s = (Raise e, s)) ∨
  ∃ d, set self label value s
       = (Ok (),
          with_attrs s (_meta_pointer self) n
            (<[active_tier (node_referenced n) :=
                 StringAttr (json_dumps (JDict (PyDict.setitem d label value)))]>
               (node_attrs n))).
Proof.
  intros Hwf Hn.
  destruct (node_attrs n !! active_tier (node_referenced n))
    as [[b|text|multi]|] eqn:Ha.
  2:{ destruct (decoded text) as [d|] eqn:Hd; [right; eexists; by eapply set_run|].
      left. rewrite (set_after_queries s self n) by done. cbv zeta.
      unfold decoded in Hd. destruct (json_loads text) as [v|] eqn:Hv; [|done].
      eexists. erewrite (bind_Ok _ _ s v s).
      - erewrite bind_Raise; [done|]. by destruct v.
      - rewrite (read_tier_run s _ n) by done. by rewrite Ha, Hv. }
  all: left; eexists; rewrite (set_after_queries s self n) by done; cbv zeta.
  all: erewrite bind_Raise; [done|].
  all: rewrite (read_tier_run s _ n) by done; by rewrite Ha.
Qed.

(** [find] lists, once each, the names of the nodes linked under the tag. *)
Lemma find_run s (self : t) n tag_name :
  scene_wf s → nodes s !! _meta_pointer self = Some n →
  find self tag_name s
  = (Ok (if has_attr n (_TAG_PREFIX +:+ tag_name)
         then list_of_set ((λ c, name_of s (conn_src c)) <$> links s self tag_name)
         else []), s).
Proof.
  intros (Hnodup & _) Hn. unfold find.
  erewrite bind_Ok by (by apply get_name_meta).
  pose proof (lookup_node_unique _ _ _ Hnodup Hn) as Hlook.
  erewrite (bind_Ok _ _ s (has_attr n (_TAG_PREFIX +:+ tag_name)) s)
    by (unfold objExists, gets; simpl; by rewrite Hlook).
  destruct (has_attr n (_TAG_PREFIX +:+ tag_name)) eqn:Hattr; [|done].
  erewrite bind_Ok.
  2:{ unfold listConnections_source, lift. simpl. by rewrite Hlook, Hattr. }
  unfold links, mret, M_ret. simpl.
  by destruct (incoming s _ _ _).
Qed.

End data.

(** ** Python dicts *)

Section pydict.

Lemma dict_get_setitem d k v : PyDict.get (PyDict.setitem d k v) k = Some v.
Proof.
  induction d as [|[k' v'] d IH]; simpl.
  - by rewrite decide_True.
  - case_decide; simpl.
    + by rewrite decide_True.
    + by rewrite decide_False.
Qed.


Lemma dict_keys_setitem d k v :
  (PyDict.setitem d k v).*1 = d.*1 ∨ (PyDict.setitem d k v).*1 = d.*1 ++ [k] ∧ k ∉ d.*1.
Proof.
  induction d as [|[k' v'] d IH]; csimpl.
  - right. split; [done|]. apply not_elem_of_nil.
  - case_decide; csimpl; subst; [by left|].
    destruct IH as [->|[-> Hk]]; [by left|right].
    split; [done|]. rewrite not_elem_of_cons. done.
Qed.

(** Storing a Python value in a Python dict gives a Python dict. *)
Lemma json_wf_setitem d k v :
  json_wf (JDict d) = true → json_wf v = true →
  json_wf (JDict (PyDict.setitem d k v)) = true.
Proof.
  csimpl. intros [Hkeys Hvalues]%andb_prop Hv.
  apply bool_decide_eq_true in Hkeys.
  apply andb_true_intro. split.
  - apply bool_decide_eq_true.
    destruct (dict_keys_setitem d k v) as [->|[-> Hk]]; [done|].
    apply NoDup_app. repeat split; [done| |apply NoDup_singleton].
    intros x Hx ->%list_elem_of_singleton. done.
  - clear Hkeys. induction d as [|[k' v'] d IH]; csimpl.
    + by rewrite Hv.
    + csimpl in Hvalues. apply andb_prop in Hvalues as [Hv' Hd].
      case_decide; csimpl.
      * by rewrite Hv, Hd.
      * by rewrite Hv', IH.
Qed.

End pydict.

(** ** The data tiers: what [set] writes and what [get] reads *)

Section tiers.
Context `{JsonCodec}.
Import Maya meta.

Lemma active_tier_ne_inactive b : active_tier b ≠ inactive_tier b.
Proof. by destruct b. Qed.

(** C3: [set] asks the scene, at each call, whether the storage node is
    referenced.  On an unreferenced node it leaves the transient tier as it
    was, on a referenced node it leaves the persistent tier as it was,
    whether it returns or raises; when it returns, the other tier, the one
    the query selects, holds the dumped dict with the value under the
    label. *)
Theorem set_tier_isolation (s : scene) (self : Metadata.t) (n : node)
    (label : string) (value : json) :
  scene_wf s →
  nodes s !! Metadata._meta_pointer self = Some n →
  let s' := (Metadata.set self label value s).2 in
  (node_referenced n = false →
     tier s' (Metadata._meta_pointer self) _Attributes.TRANSIENT_DATA
     = tier s (Metadata._meta_pointer self) _Attributes.TRANSIENT_DATA) ∧
  (node_referenced n = true →
     tier s' (Metadata._meta_pointer self) _Attributes.PERSISTENT_DATA
     = tier s (Metadata._meta_pointer self) _Attributes.PERSISTENT_DATA) ∧
  ((Metadata.set self label value s).1 = Ok () →
     ∃ d, tier s' (Metadata._meta_pointer self) (active_tier (node_referenced n))
          = Some (StringAttr (json_dumps (JDict d)))
          ∧ PyDict.get d label = Some value).
Proof.
  intros Hwf Hn s'.
  assert (tier s' (Metadata._meta_pointer self) (inactive_tier (node_referenced n))
          = tier s (Metadata._meta_pointer self) (inactive_tier (node_referenced n)))
    as Hframe.
  { subst s'. destruct (set_cases s self n label value Hwf Hn) as [[e ->]|[d ->]];
      [done|]. simpl.
    rewrite tier_with_attrs by done.
    rewrite lookup_insert_ne by apply active_tier_ne_inactive.
    unfold tier. by rewrite Hn. }
  split; [|split].
  - intros Href. by rewrite Href in Hframe.
  - intros Href. by rewrite Href in Hframe.
  - subst s'. destruct (set_cases s self n label value Hwf Hn) as [[e ->]|[d ->]];
      [done|]. intros _. simpl.
    exists (PyDict.setitem d label value).
    rewrite tier_with_attrs by done.
    by rewrite lookup_insert_eq, dict_get_setitem.
Qed.

Lemma decoded_wf text d : decoded text = Some d → json_wf (JDict d) = true.
Proof.
  unfold decoded. destruct (json_loads text) as [v|] eqn:Hv.
  - apply json_loads_wf in Hv. destruct v; intros [= <-]; done.
  - by intros [= <-].
Qed.

Lemma decoded_dict text d : json_loads text = Some (JDict d) → decoded text = Some d.
Proof. unfold decoded. by intros ->. Qed.

Lemma decoded_malformed text : json_loads text = None → decoded text = Some [].
Proof. unfold decoded. by intros ->. Qed.

(** C2, as the code has it: the persistent tier maps the label to [A]; a
    [set] on the referenced storage node stores [B] under the label in the
    transient tier and leaves the persistent tier alone; [get] then returns
    [A], the persistent value, and not [B]: it reads the transient attribute
    but hands its text, undecoded, to [dict.update], which stores nothing. *)
Theorem get_after_referenced_set (s : scene) (self : Metadata.t) (n : node)
    (label p text : string) (A B : json) (dp dt : dict) :
  scene_wf s →
  nodes s !! Metadata._meta_pointer self = Some n →
  node_referenced n = true →
  node_attrs n !! _Attributes.PERSISTENT_DATA = Some (StringAttr p) →
  json_loads p = Some (JDict dp) →
  PyDict.get dp label = Some A →
  node_attrs n !! _Attributes.TRANSIENT_DATA = Some (StringAttr text) →
  decoded text = Some dt →
  json_wf B = true →
  ∃ s' text' dt',
    Metadata.set self label B s = (Ok (), s') ∧
    tier s' (Metadata._meta_pointer self) _Attributes.TRANSIENT_DATA
    = Some (StringAttr text') ∧
    json_loads text' = Some (JDict dt') ∧
    PyDict.get dt' label = Some B ∧
    tier s' (Metadata._meta_pointer self) _Attributes.PERSISTENT_DATA
    = Some (StringAttr p) ∧
    Metadata.get self label s' = (Ok A, s').
Proof.
  intros Hwf Hn Href Hp Hdp HA Htext Hdt HB.
  pose proof (set_run s self n label B text dt Hwf Hn) as Hset.
  rewrite Href in Hset. specialize (Hset Htext Hdt). simpl in Hset.
  eexists _, _, (PyDict.setitem dt label B). split; [exact Hset|].
  rewrite !tier_with_attrs by done.
  rewrite lookup_insert_eq, lookup_insert_ne by done.
  split; [done|]. split.
  { apply json_loads_dumps, json_wf_setitem; [by eapply decoded_wf|done]. }
  split; [apply dict_get_setitem|]. split; [done|].
  erewrite get_run.
  - by rewrite HA.
  - by apply with_attrs_wf.
  - by apply with_attrs_lookup.
  - simpl. by rewrite lookup_insert_ne.
  - simpl. by rewrite lookup_insert_eq.
  - by apply decoded_dict.
Qed.

(** With a transient tier that is not JSON, [get] answers from the
    persistent tier. *)
Lemma get_with_malformed_transient (s : scene) (self : Metadata.t) (n : node)
    (label p text : string) (d : dict) :
  scene_wf s →
  nodes s !! Metadata._meta_pointer self = Some n →
  node_attrs n !! _Attributes.PERSISTENT_DATA = Some (StringAttr p) →
  json_loads p = Some (JDict d) →
  node_attrs n !! _Attributes.TRANSIENT_DATA = Some (StringAttr text) →
  json_loads text = None →
  Metadata.get self label s = (Ok (default JNull (PyDict.get d label)), s).
Proof. intros ?? Hp Hd ??. eapply get_run; eauto using decoded_dict. Qed.

(** On an active tier that is not JSON, [set] starts from the empty dict and
    overwrites the text. *)
Lemma set_overwrites_malformed (s : scene) (self : Metadata.t) (n : node)
    (label text : string) (value : json) :
  scene_wf s →
  nodes s !! Metadata._meta_pointer self = Some n →
  node_attrs n !! active_tier (node_referenced n) = Some (StringAttr text) →
  json_loads text = None →
  ∃ s', Metadata.set self label value s = (Ok (), s') ∧
        tier s' (Metadata._meta_pointer self) (active_tier (node_referenced n))
        = Some (StringAttr (json_dumps (JDict [(label, value)]))).
Proof.
  intros Hwf Hn Htext Hbad. eexists. split.
  - eapply set_run; eauto using decoded_malformed.
  - rewrite tier_with_attrs by done. by rewrite lookup_insert_eq.
Qed.

(** C7, as the code has it: with a persistent tier that is not JSON, [get]
    does not raise, but it returns [None] even for a label the transient
    tier maps to a value: the transient text is never decoded. *)
Theorem get_with_malformed_persistent (s : scene) (self : Metadata.t) (n : node)
    (label p text : string) (dt : dict) (v : json) :
  scene_wf s →
  nodes s !! Metadata._meta_pointer self = Some n →
  node_attrs n !! _Attributes.PERSISTENT_DATA = Some (StringAttr p) →
  json_loads p = None →
  node_attrs n !! _Attributes.TRANSIENT_DATA = Some (StringAttr text) →
  json_loads text = Some (JDict dt) →
  PyDict.get dt label = Some v →
  Metadata.get self label s = (Ok JNull, s).
Proof.
  intros Hwf Hn Hp Hbad Htext _ _.
  by rewrite (get_run s self n label p text [] Hwf Hn Hp Htext (decoded_malformed _ Hbad)).
Qed.

End tiers.

(** ** Records and their creation *)

Section creation.
Import Maya meta.

Lemma get_metanode_eq host s name :
  (Metadata.get_metanode host s).1 = Ok name →
  Metadata.get_metanode host s = (Ok name, s).
Proof.
  intros Hname. pose proof (get_metanode_scene host s) as Hscene.
  destruct (Metadata.get_metanode host s). by simplify_eq/=.
Qed.

Lemma fmap_Ok {A B} (f : A → B) (m : M A) s a s' :
  m s = (Ok a, s') → (f <$> m) s = (Ok (f a), s').
Proof. unfold fmap, M_fmap. by intros ->. Qed.

(** The module-level [create] for a host without storage node. *)
Lemma module_create_run s host h nh :
  scene_wf s → lookup_node s host = Some (h, nh) →
  (Metadata.get_metanode host s).1 = Ok "" →
  create host s
  = (Ok (Some (Metadata.Build h (length (nodes s)))),
     created_scene s h (unique_name s Metadata._NODE_NAME)).
Proof.
  intros Hwf Hhost Hnone. unfold create.
  erewrite bind_Ok by (by apply get_metanode_eq).
  rewrite decide_True by done.
  by apply fmap_Ok, (create_run s host h nh).
Qed.

(** C1, as the code has it: for a host that has a storage node, [create]
    looks for the record of the storage node instead of the host's
    ([get(pre_meta)]); the storage node having no record of its own, the
    call returns [None] and not the existing record.  It creates no node
    and changes nothing. *)
Theorem create_again_returns_None (s : scene) (host pre_meta : string) :
  (Metadata.get_metanode host s).1 = Ok pre_meta →
  pre_meta ≠ "" →
  (Metadata.get_metanode pre_meta s).1 = Ok "" →
  create host s = (Ok None, s).
Proof.
  intros Hpre Hne Hnone. unfold create.
  erewrite bind_Ok by (by apply get_metanode_eq).
  rewrite decide_False by done.
  unfold get, has_meta.
  erewrite bind_Ok.
  2:{ erewrite bind_Ok by (by apply get_metanode_eq). reflexivity. }
  by rewrite decide_True.
Qed.

End creation.

Section fresh_record.
Context `{JsonCodec}.
Import Maya meta.

Lemma tag_attr_first tag_name :
  Metadata._TAG_PREFIX +:+ tag_name = String "u" ("sertag" +:+ tag_name).
Proof. reflexivity. Qed.

Lemma has_attr_fresh tag_name name :
  has_attr (Node name "network" false fresh_attrs)
           (Metadata._TAG_PREFIX +:+ tag_name) = false.
Proof.
  unfold has_attr. rewrite tag_attr_first. simpl.
  rewrite bool_decide_eq_false_2 by done. done.
Qed.

(** [find] on a tag without links, whether the tag attribute exists or
    not. *)
Lemma find_without_links s (self : Metadata.t) n tag_name :
  scene_wf s → nodes s !! Metadata._meta_pointer self = Some n →
  links s self tag_name = [] →
  Metadata.find self tag_name s = (Ok [], s).
Proof.
  intros Hwf Hn Hlinks. rewrite (find_run s self n tag_name Hwf Hn), Hlinks.
  by destruct (has_attr n _).
Qed.

(** C9: the record [create] makes for a host that had none holds the text
    of the empty dict in both tiers; on it [get] returns [None] for every
    label and [find] the empty list for every tag, neither raises.  [find]
    also returns the empty list, on any record, for a tag that has no link. *)
Theorem fresh_record_is_empty (s : scene) (host : string) (h : MObject)
    (nh : node) :
  scene_wf s →
  lookup_node s host = Some (h, nh) →
  (Metadata.get_metanode host s).1 = Ok "" →
  ∃ self s',
    create host s = (Ok (Some self), s') ∧
    tier s' (Metadata._meta_pointer self) _Attributes.PERSISTENT_DATA
    = Some (StringAttr "{}") ∧
    tier s' (Metadata._meta_pointer self) _Attributes.TRANSIENT_DATA
    = Some (StringAttr "{}") ∧
    (∀ label, Metadata.get self label s' = (Ok JNull, s')) ∧
    (∀ tag_name, Metadata.find self tag_name s' = (Ok [], s')) ∧
    (∀ s'' n tag_name,
       scene_wf s'' → nodes s'' !! Metadata._meta_pointer self = Some n →
       links s'' self tag_name = [] →
       Metadata.find self tag_name s'' = (Ok [], s'')).
Proof.
  intros Hwf Hhost Hnone.
  set (name := unique_name s Metadata._NODE_NAME).
  set (new := Node name "network" false fresh_attrs).
  assert (scene_wf (created_scene s h name)) as Hwf'.
  { apply created_scene_wf; [done| |apply unique_name_fresh|apply unique_name_nonempty].
    apply lookup_node_Some in Hhost as [Hh _]. by eexists. }
  assert (nodes (created_scene s h name) !! length (nodes s) = Some new) as Hnew.
  { simpl. rewrite lookup_app_r, Nat.sub_diag by done. done. }
  exists (Metadata.Build h (length (nodes s))), (created_scene s h name).
  split; [by eapply module_create_run|].
  unfold tier. simpl Metadata._meta_pointer. rewrite Hnew.
  split; [done|]. split; [done|]. split; [|split].
  - intros label.
    erewrite (get_run _ (Metadata.Build h (length (nodes s))) new label "{}" "{}" []);
      try done.
    unfold decoded. by rewrite json_loads_empty_dict.
  - intros tag_name.
    rewrite (find_run _ (Metadata.Build h (length (nodes s))) new tag_name Hwf' Hnew).
    unfold new. by rewrite has_attr_fresh.
  - intros s'' n tag_name.
    apply (find_without_links s'' (Metadata.Build h (length (nodes s)))).
Qed.

End fresh_record.

(** ** Tagging *)

Section tagging.
Import Maya meta.

Implicit Types (s : scene) (self : Metadata.t) (n : node) (c : connection).

Lemma scene_eta s : Scene (nodes s) (connections s) = s.
Proof. by destruct s. Qed.

Lemma set_attrs_id n : set_attrs n (node_attrs n) = n.
Proof. by destruct n. Qed.

Lemma has_attr_tag n tag_name :
  has_attr n (Metadata._TAG_PREFIX +:+ tag_name)
  = bool_decide (is_Some (node_attrs n !! (Metadata._TAG_PREFIX +:+ tag_name))).
Proof.
  unfold has_attr. rewrite tag_attr_first.
  by rewrite bool_decide_eq_false_2.
Qed.

(** Every index in use at the plug is below [next_index]. *)
Lemma next_index_above s h a c i :
  c ∈ incoming s h a None → conn_index c = Some i → i < next_index s h a.
Proof.
  intros Hc Hi. unfold next_index.
  set (l := omap conn_index (incoming s h a None)).
  assert (i ∈ merge_sort (≤) l) as Hin.
  { rewrite merge_sort_Permutation. apply list_elem_of_omap. eauto. }
  destruct (last (merge_sort (≤) l)) as [mx|] eqn:Hlast.
  - assert (i ≤ mx); [|lia].
    eapply Sorted_last_max; [|done..]. apply Sorted_merge_sort. apply _.
  - apply last_None in Hlast. rewrite Hlast in Hin. by apply elem_of_nil in Hin.
Qed.

(** [next_index] is zero or follows an index in use. *)
Lemma next_index_tight s h a :
  next_index s h a = 0 ∨
  ∃ c, c ∈ incoming s h a None ∧ conn_index c = Some (next_index s h a - 1).
Proof.
  unfold next_index.
  set (l := omap conn_index (incoming s h a None)).
  destruct (last (merge_sort (≤) l)) as [mx|] eqn:Hlast; [right|by left].
  apply last_Some_elem_of in Hlast. rewrite merge_sort_Permutation in Hlast.
  apply list_elem_of_omap in Hlast as (c & Hc & Hmx).
  exists c. split; [done|]. rewrite Hmx. f_equal. lia.
Qed.

Lemma after_last_index_run s h n a :
  NoDup (node_names s) → nodes s !! h = Some n → has_attr n a = true →
  try_except (Metadata.after_last_index (Plug (node_name n) a None))
    Metadata.is_TypeError_or_IndexError (mret 0) s
  = (Ok (next_index s h a), s).
Proof.
  intros Hnodup Hn Hattr.
  unfold try_except, Metadata.after_last_index, getAttr_multiIndices.
  unfold mbind, M_bind, lift. simpl.
  rewrite (lookup_node_unique _ _ _ Hnodup Hn), Hattr.
  unfold next_index.
  destruct (merge_sort (≤) (omap conn_index (incoming s h a None)))
    as [|i l] eqn:Hsorted; [done|].
  destruct (last (i :: l)) as [mx|] eqn:Hlast; [done|].
  by apply last_None in Hlast.
Qed.

Lemma with_attrs_id s h n a x :
  nodes s !! h = Some n → node_attrs n !! a = Some x →
  with_attrs s h n (<[a := x]> (node_attrs n)) = s.
Proof.
  intros Hn Ha. unfold with_attrs.
  rewrite insert_id, set_attrs_id, list_insert_id by done. apply scene_eta.
Qed.

Lemma lookup_node_with_attrs s h n attrs name h' n' :
  scene_wf s → nodes s !! h = Some n →
  lookup_node s name = Some (h', n') →
  ∃ n'', lookup_node (with_attrs s h n attrs) name = Some (h', n'')
         ∧ node_name n'' = name.
Proof.
  intros Hwf Hn [Hh' Hname]%lookup_node_Some.
  pose proof (with_attrs_wf s h n attrs Hwf Hn) as (Hnodup & _).
  destruct (decide (h = h')) as [<-|Hne].
  - exists (set_attrs n attrs). simplify_eq. split; [|done].
    apply (lookup_node_unique _ _ (set_attrs n attrs) Hnodup).
    by apply with_attrs_lookup.
  - exists n'. split; [|done]. rewrite <-Hname.
    apply (lookup_node_unique _ _ n' Hnodup).
    by rewrite with_attrs_lookup_ne.
Qed.

Lemma next_index_free s h a c :
  c ∈ connections s → ¬ arrives_at h a (Some (next_index s h a)) c.
Proof.
  intros Hc (Hdst & Hattr & [?|Hindex]); [done|].
  assert (c ∈ incoming s h a None) as Hin.
  { apply list_elem_of_filter. split; [|done]. repeat split; auto. }
  pose proof (next_index_above _ _ _ _ _ Hin Hindex). lia.
Qed.

(** [tag] on a storage node whose tag attribute is missing or is a multi
    message attribute, for a target that exists. *)
Lemma tag_run s self n tag_name target ht nt :
  scene_wf s →
  nodes s !! Metadata._meta_pointer self = Some n →
  lookup_node s target = Some (ht, nt) →
  node_attrs n !! (Metadata._TAG_PREFIX +:+ tag_name) = None ∨
  node_attrs n !! (Metadata._TAG_PREFIX +:+ tag_name) = Some (MessageAttr true) →
  Metadata.tag self tag_name target s
  = (Ok (), tagged_scene s (Metadata._meta_pointer self) n
              (Metadata._TAG_PREFIX +:+ tag_name) ht).
Proof.
  intros Hwf Hn Htarget Hattr.
  set (h := Metadata._meta_pointer self) in *.
  set (a := Metadata._TAG_PREFIX +:+ tag_name) in *.
  set (attrs := <[a := MessageAttr true]> (node_attrs n)).
  pose proof Hwf as (Hnodup & _).
  pose proof (lookup_node_unique _ _ _ Hnodup Hn) as Hlook.
  unfold Metadata.tag. fold a.
  erewrite bind_Ok by (by apply get_name_Some).
  erewrite (bind_Ok _ _ s (has_attr n a) s)
    by (unfold objExists, gets; simpl; by rewrite Hlook).
  erewrite (bind_Ok _ _ s () (with_attrs s h n attrs)).
  2:{ unfold a. rewrite has_attr_tag. fold a.
      destruct Hattr as [Hnone|Hsome].
      - rewrite Hnone. rewrite bool_decide_eq_false_2 by (by intros [? ?]).
        unfold addAttr. rewrite Hlook.
        unfold a. rewrite has_attr_tag. fold a. rewrite Hnone.
        by rewrite bool_decide_eq_false_2 by (by intros [? ?]).
      - rewrite Hsome. rewrite bool_decide_eq_true_2 by by eexists.
        unfold attrs. by rewrite with_attrs_id. }
  pose proof (with_attrs_wf s h n attrs Hwf Hn) as Hwf1.
  pose proof Hwf1 as (Hnodup1 & _).
  pose proof (with_attrs_lookup s h n attrs Hn) as Hn1.
  pose proof (lookup_node_unique _ _ _ Hnodup1 Hn1) as Hlook1.
  assert (has_attr (set_attrs n attrs) a = true) as Hhas.
  { unfold a. rewrite has_attr_tag. fold a. apply bool_decide_eq_true_2.
    unfold attrs. simpl. rewrite lookup_insert_eq. by eexists. }
  erewrite bind_Ok
    by (by apply (after_last_index_run (with_attrs s h n attrs) h (set_attrs n attrs) a)).
  destruct (lookup_node_with_attrs s h n attrs target ht nt Hwf Hn Htarget)
    as (nt' & Htarget1 & _).
  unfold connectAttr. simpl plug_node. simpl plug_attr. simpl plug_index.
  rewrite Htarget1. simpl node_name in Hlook1. rewrite Hlook1.
  rewrite bool_decide_eq_true_2 by done. unfold accepts. simpl node_attrs.
  unfold attrs at 1. rewrite lookup_insert_eq. simpl.
  rewrite filter_all; [done|].
  apply Forall_forall. intros c Hc. by apply (next_index_free s h a c).
Qed.

Lemma add_connection_wf s c :
  scene_wf s → c ∉ connections s →
  is_Some (nodes s !! conn_src c) → is_Some (nodes s !! conn_dst c) →
  scene_wf (Scene (nodes s) (connections s ++ [c])).
Proof.
  intros (Hnodup & Hnonempty & Hconns & Hvalid) Hc Hsrc Hdst.
  repeat split; try done; simpl.
  - apply NoDup_app. repeat split; [done| |apply NoDup_singleton].
    intros c' Hc' ->%list_elem_of_singleton. done.
  - rewrite Forall_app, Forall_singleton. done.
Qed.

Lemma tagged_scene_wf s h n a ht :
  scene_wf s → nodes s !! h = Some n → is_Some (nodes s !! ht) →
  scene_wf (tagged_scene s h n a ht).
Proof.
  intros Hwf Hn Hht.
  set (attrs := <[a := MessageAttr true]> (node_attrs n)).
  apply (add_connection_wf (with_attrs s h n attrs)).
  - by apply with_attrs_wf.
  - simpl. intros Hc. apply (next_index_free s h a) in Hc.
    apply Hc. repeat split; auto.
  - simpl. apply lookup_lt_is_Some. rewrite length_insert.
    by apply lookup_lt_is_Some.
  - simpl. apply lookup_lt_is_Some. rewrite length_insert.
    apply lookup_lt_is_Some. by eexists.
Qed.

Lemma tagged_scene_lookup s h n a ht :
  nodes s !! h = Some n →
  nodes (tagged_scene s h n a ht) !! h
  = Some (set_attrs n (<[a := MessageAttr true]> (node_attrs n))).
Proof. intros Hn. by apply (with_attrs_lookup s h n). Qed.

Lemma name_of_tagged s h n a ht h' :
  nodes s !! h = Some n → name_of (tagged_scene s h n a ht) h' = name_of s h'.
Proof. intros Hn. by apply (name_of_with_attrs s h n). Qed.

Lemma node_names_tagged s h n a ht :
  nodes s !! h = Some n → node_names (tagged_scene s h n a ht) = node_names s.
Proof.
  intros Hn.
  exact (node_names_with_attrs s h n (<[a := MessageAttr true]> (node_attrs n)) Hn).
Qed.

Lemma incoming_tagged s h n a ht :
  incoming (tagged_scene s h n a ht) h a None
  = incoming s h a None ++ [Connection ht h a (Some (next_index s h a))].
Proof.
  unfold incoming, tagged_scene. simpl. rewrite filter_app. f_equal.
  rewrite filter_cons_True; [done|]. repeat split; auto.
Qed.

(** The names of the nodes linked under a tag. *)
Lemma find_linked s self n tag_name name :
  scene_wf s → nodes s !! Metadata._meta_pointer self = Some n →
  has_attr n (Metadata._TAG_PREFIX +:+ tag_name) = true →
  ∃ found, Metadata.find self tag_name s = (Ok found, s) ∧ NoDup found ∧
    (name ∈ found ↔ ∃ c, c ∈ links s self tag_name ∧ name_of s (conn_src c) = name).
Proof.
  intros Hwf Hn Hattr.
  exists (list_of_set ((λ c, name_of s (conn_src c)) <$> links s self tag_name)).
  split; [|split].
  - rewrite (find_run s self n tag_name Hwf Hn), Hattr. done.
  - unfold list_of_set. apply NoDup_elements.
  - unfold list_of_set. rewrite elem_of_elements, elem_of_list_to_set.
    rewrite list_elem_of_fmap. split.
    + intros (c & -> & Hc). eauto.
    + intros (c & Hc & <-). eauto.
Qed.

End tagging.

(** ** Removing tags *)

Section untagging.
Import Maya meta.

Implicit Types (s : scene) (self : Metadata.t) (n : node) (c : connection).

Lemma lookup_node_nodes s cs name :
  lookup_node (Scene (nodes s) cs) name = lookup_node s name.
Proof. reflexivity. Qed.

Lemma untag_loop_cons meta_attr target_attr rest target :
  Metadata.untag_loop (meta_attr :: target_attr :: rest) target
  = ((if decide (PyStr.rsplit1_head "." (plug_str target_attr) = target)
      then disconnectAttr target_attr meta_attr
      else mret ());; Metadata.untag_loop rest target).
Proof. reflexivity. Qed.

Lemma rsplit_src_plug s c :
  PyStr.rsplit1_head "." (plug_str (src_plug s c)) = name_of s (conn_src c).
Proof. apply rsplit_message_plug. Qed.

Lemma disconnectAttr_run s cs c nsrc ndst :
  NoDup (node_names s) →
  nodes s !! conn_src c = Some nsrc → nodes s !! conn_dst c = Some ndst →
  c ∈ cs →
  disconnectAttr (src_plug s c) (dst_plug s c) (Scene (nodes s) cs)
  = (Ok (), Scene (nodes s) (filter (λ c', c' ≠ c) cs)).
Proof.
  intros Hnodup Hsrc Hdst Hc. unfold disconnectAttr, src_plug, dst_plug. simpl.
  rewrite !lookup_node_nodes.
  rewrite (name_of_lookup _ _ _ Hsrc), (name_of_lookup _ _ _ Hdst).
  rewrite (lookup_node_unique _ _ _ Hnodup Hsrc).
  rewrite (lookup_node_unique _ _ _ Hnodup Hdst).
  destruct c as [src dst a i]. simpl.
  by rewrite bool_decide_eq_true_2.
Qed.

(** The loop of [untag] over the connections [inc] it listed, all of which
    are still made: those from a node named [target] are broken. *)
Lemma untag_loop_run s target inc cs :
  NoDup (node_names s) → NoDup inc →
  (∀ c, c ∈ inc →
     c ∈ cs ∧ is_Some (nodes s !! conn_src c) ∧ is_Some (nodes s !! conn_dst c)) →
  Metadata.untag_loop (flat_map (λ c, [dst_plug s c; src_plug s c]) inc) target
    (Scene (nodes s) cs)
  = (Ok (), Scene (nodes s)
              (filter (λ c, ¬ (c ∈ inc ∧ name_of s (conn_src c) = target)) cs)).
Proof.
  intros Hnodup Hinc. revert cs.
  induction Hinc as [|c inc Hc _ IH]; intros cs Hvalid.
  - simpl. unfold mret, M_ret. f_equal. f_equal. symmetry.
    apply filter_all, Forall_forall. intros c _ [Hc _]. by apply elem_of_nil in Hc.
  - destruct (Hvalid c ltac:(left)) as (Hccs & [nsrc Hsrc] & [ndst Hdst]).
    change (flat_map _ (c :: inc))
      with (dst_plug s c :: src_plug s c ::
            flat_map (λ c, [dst_plug s c; src_plug s c]) inc).
    rewrite untag_loop_cons.
    rewrite rsplit_src_plug.
    destruct (decide (name_of s (conn_src c) = target)) as [Hname|Hname].
    + erewrite bind_Ok by (by eapply disconnectAttr_run).
      rewrite IH.
      * f_equal. f_equal. rewrite list_filter_filter.
        apply list_filter_iff. intros c'. rewrite elem_of_cons.
        split; [intros [Hnot Hne] [[->|Hin] Hn]; auto|].
        intros Hnot. split; [intros [Hin Hn]; auto|].
        intros ->. auto.
      * intros c' Hc'. destruct (Hvalid c' ltac:(by right)) as (Hin & Hs & Hd).
        split; [|done]. apply list_elem_of_filter. split; [|done].
        intros ->. done.
    + erewrite bind_Ok by reflexivity.
      rewrite IH.
      * f_equal. f_equal. apply list_filter_iff. intros c'. rewrite elem_of_cons.
        split; [intros Hnot [[->|Hin] Hn]; auto|].
        intros Hnot [Hin Hn]. auto.
      * intros c' Hc'. apply Hvalid. by right.
Qed.

(** [untag] breaks every connection that arrives at the tag attribute from
    a node named [target]; without the tag attribute it does nothing. *)
Lemma untag_run s self n tag_name target :
  scene_wf s → nodes s !! Metadata._meta_pointer self = Some n →
  Metadata.untag self tag_name target s
  = (Ok (),
     if has_attr n (Metadata._TAG_PREFIX +:+ tag_name)
     then untagged_scene s (Metadata._meta_pointer self)
            (Metadata._TAG_PREFIX +:+ tag_name) target
     else s).
Proof.
  intros Hwf Hn. pose proof Hwf as (Hnodup & _ & Hconns & Hvalid).
  set (h := Metadata._meta_pointer self) in *.
  set (a := Metadata._TAG_PREFIX +:+ tag_name) in *.
  pose proof (lookup_node_unique _ _ _ Hnodup Hn) as Hlook.
  unfold Metadata.untag. fold a.
  erewrite bind_Ok by (by apply get_name_Some).
  erewrite (bind_Ok _ _ s (has_attr n a) s)
    by (unfold objExists, gets; simpl; by rewrite Hlook).
  destruct (has_attr n a) eqn:Hattr; [|done].
  erewrite bind_Ok.
  2:{ unfold listConnections_source_plugs, lift. simpl. by rewrite Hlook, Hattr. }
  assert (untagged_scene s h a target
          = Scene (nodes s)
              (filter (λ c, ¬ (c ∈ incoming s h a None ∧
                               name_of s (conn_src c) = target))
                      (connections s))) as ->.
  { unfold untagged_scene. f_equal. apply filter_ext_in. intros c Hc.
    unfold incoming. rewrite list_elem_of_filter. tauto. }
  destruct (incoming s h a None) as [|c inc] eqn:Hinc.
  - simpl. unfold mret, M_ret. f_equal. rewrite filter_all; [by rewrite scene_eta|].
    apply Forall_forall. intros c _ [Hc _]. by apply elem_of_nil in Hc.
  - rewrite <-Hinc.
    assert (none_if_empty (flat_map (λ c, [dst_plug s c; src_plug s c])
                                    (incoming s h a None))
            = Some (flat_map (λ c, [dst_plug s c; src_plug s c])
                             (incoming s h a None))) as ->
      by (by rewrite Hinc).
    assert (∃ p ps, flat_map (λ c, [dst_plug s c; src_plug s c])
                             (incoming s h a None) = p :: ps) as (p & ps & Hps)
      by (rewrite Hinc; simpl; eauto).
    rewrite Hps, <-Hps.
    rewrite <-(scene_eta s) at 2.
    apply untag_loop_run; [done|by apply NoDup_filter|].
    intros c' [_ Hc']%list_elem_of_filter. split; [done|].
    rewrite Forall_forall in Hvalid. by apply Hvalid.
Qed.

End untagging.

(** ** Tags: appending, finding, removing *)

Section tags.
Import Maya meta.

Implicit Types (s : scene) (self : Metadata.t) (n : node) (c : connection).

Lemma lookup_node_tagged s h n a ht name h' n' :
  scene_wf s → nodes s !! h = Some n →
  lookup_node s name = Some (h', n') →
  ∃ n'', lookup_node (tagged_scene s h n a ht) name = Some (h', n'').
Proof.
  intros Hwf Hn Hname.
  destruct (lookup_node_with_attrs s h n (<[a := MessageAttr true]> (node_attrs n))
              name h' n' Hwf Hn Hname) as (n'' & Hn'' & _).
  by exists n''.
Qed.

Lemma has_attr_tagged n tag_name :
  has_attr (set_attrs n (<[Metadata._TAG_PREFIX +:+ tag_name := MessageAttr true]>
                           (node_attrs n)))
           (Metadata._TAG_PREFIX +:+ tag_name) = true.
Proof.
  rewrite has_attr_tag. apply bool_decide_eq_true_2.
  simpl. rewrite lookup_insert_eq. by eexists.
Qed.

(** After [tag], [find] lists the target, once. *)
Lemma tag_then_find s self n tag_name target ht nt :
  scene_wf s →
  nodes s !! Metadata._meta_pointer self = Some n →
  lookup_node s target = Some (ht, nt) →
  let s' := tagged_scene s (Metadata._meta_pointer self) n
              (Metadata._TAG_PREFIX +:+ tag_name) ht in
  ∃ found, Metadata.find self tag_name s' = (Ok found, s') ∧
           NoDup found ∧ target ∈ found.
Proof.
  intros Hwf Hn Htarget s'.
  apply lookup_node_Some in Htarget as [Hht Hname].
  assert (scene_wf s') as Hwf' by (apply tagged_scene_wf; eauto).
  pose proof (tagged_scene_lookup s _ n (Metadata._TAG_PREFIX +:+ tag_name) ht Hn)
    as Hn'.
  destruct (find_linked s' self _ tag_name target Hwf' Hn' (has_attr_tagged n tag_name))
    as (found & Hfind & Hnodup & Hin).
  exists found. split; [done|]. split; [done|]. apply Hin.
  eexists. split.
  - unfold links, s'. rewrite incoming_tagged. apply elem_of_app. right.
    by apply list_elem_of_singleton.
  - simpl conn_src. unfold s'. rewrite (name_of_tagged _ _ _ _ _ _ Hn).
    by rewrite (name_of_lookup _ _ _ Hht).
Qed.

(** C8: [tag] makes one connection more, at the index one past the last
    index in use under the tag (zero when none is in use, which leaves gaps
    unfilled); every connection of the scene, with its index and its
    source, is still there, in the same order, and no node changes name. *)
Theorem tag_appends_after_last_index s self n (tag_name target : string)
    (ht : MObject) (nt : node) :
  scene_wf s →
  nodes s !! Metadata._meta_pointer self = Some n →
  lookup_node s target = Some (ht, nt) →
  node_attrs n !! (Metadata._TAG_PREFIX +:+ tag_name) = None ∨
  node_attrs n !! (Metadata._TAG_PREFIX +:+ tag_name) = Some (MessageAttr true) →
  ∃ s' next,
    let new := Connection ht (Metadata._meta_pointer self)
                 (Metadata._TAG_PREFIX +:+ tag_name) (Some next) in
    Metadata.tag self tag_name target s = (Ok (), s') ∧
    connections s' = connections s ++ [new] ∧
    links s' self tag_name = links s self tag_name ++ [new] ∧
    (∀ c i, c ∈ links s self tag_name → conn_index c = Some i → i < next) ∧
    (next = 0 ∨
     ∃ c, c ∈ links s self tag_name ∧ conn_index c = Some (next - 1)) ∧
    (∀ h, name_of s' h = name_of s h).
Proof.
  intros Hwf Hn Htarget Hattr.
  eexists _, (next_index s (Metadata._meta_pointer self)
                (Metadata._TAG_PREFIX +:+ tag_name)).
  split; [by eapply tag_run|]. split; [done|].
  split; [apply incoming_tagged|]. split; [|split].
  - intros c i. apply next_index_above.
  - apply next_index_tight.
  - intros h. by apply name_of_tagged.
Qed.

(** C6: tagging a target twice under one tag makes two connections, at
    different indices, and [find] lists the target once. *)
Theorem tag_twice_find_once s self n (tag_name target : string)
    (ht : MObject) (nt : node) :
  scene_wf s →
  nodes s !! Metadata._meta_pointer self = Some n →
  lookup_node s target = Some (ht, nt) →
  node_attrs n !! (Metadata._TAG_PREFIX +:+ tag_name) = None ∨
  node_attrs n !! (Metadata._TAG_PREFIX +:+ tag_name) = Some (MessageAttr true) →
  ∃ s1 s2 i j found,
    Metadata.tag self tag_name target s = (Ok (), s1) ∧
    Metadata.tag self tag_name target s1 = (Ok (), s2) ∧
    i ≠ j ∧
    links s2 self tag_name
    = links s self tag_name ++
      [Connection ht (Metadata._meta_pointer self)
         (Metadata._TAG_PREFIX +:+ tag_name) (Some i);
       Connection ht (Metadata._meta_pointer self)
         (Metadata._TAG_PREFIX +:+ tag_name) (Some j)] ∧
    Metadata.find self tag_name s2 = (Ok found, s2) ∧
    NoDup found ∧ target ∈ found.
Proof.
  intros Hwf Hn Htarget Hattr.
  set (h := Metadata._meta_pointer self) in *.
  set (a := Metadata._TAG_PREFIX +:+ tag_name) in *.
  set (s1 := tagged_scene s h n a ht).
  set (n1 := set_attrs n (<[a := MessageAttr true]> (node_attrs n))).
  assert (scene_wf s1) as Hwf1.
  { apply tagged_scene_wf; [done..|].
    apply lookup_node_Some in Htarget as [? _]. by eexists. }
  assert (nodes s1 !! h = Some n1) as Hn1 by by apply tagged_scene_lookup.
  destruct (lookup_node_tagged s h n a ht target ht nt Hwf Hn Htarget)
    as [nt1 Htarget1].
  assert (node_attrs n1 !! a = Some (MessageAttr true)) as Hattr1
    by (simpl; by rewrite lookup_insert_eq).
  destruct (tag_then_find s1 self n1 tag_name target ht nt1 Hwf1 Hn1 Htarget1)
    as (found & Hfind & Hnodup & Hin).
  exists s1, (tagged_scene s1 h n1 a ht), (next_index s h a), (next_index s1 h a), found.
  split; [by eapply tag_run|]. split; [eapply tag_run; eauto|].
  split; [|split; [|done]].
  - assert (next_index s h a < next_index s1 h a); [|lia].
    apply (next_index_above s1 h a (Connection ht h a (Some (next_index s h a))));
      [|done].
    unfold s1. rewrite incoming_tagged. apply elem_of_app. right.
    by apply list_elem_of_singleton.
  - unfold links. fold h a. rewrite incoming_tagged. unfold s1 at 1.
    rewrite incoming_tagged. by rewrite <-app_assoc.
Qed.

Lemma untagged_scene_wf s h a target :
  scene_wf s → scene_wf (untagged_scene s h a target).
Proof.
  intros (Hnodup & Hnonempty & Hconns & Hvalid).
  repeat split; try done; simpl.
  - by apply NoDup_filter.
  - rewrite Forall_forall in Hvalid |- *.
    intros c [_ Hc]%list_elem_of_filter. by apply Hvalid.
Qed.

Lemma incoming_untagged s h a target :
  incoming (untagged_scene s h a target) h a None
  = filter (λ c, name_of s (conn_src c) ≠ target) (incoming s h a None).
Proof.
  unfold incoming, untagged_scene. simpl.
  rewrite !list_filter_filter. apply list_filter_iff. intros c. tauto.
Qed.

(** After [untag], in any scene, [find] does not list the target. *)
Lemma untag_then_find s self n tag_name target :
  scene_wf s →
  nodes s !! Metadata._meta_pointer self = Some n →
  ∃ s' found,
    Metadata.untag self tag_name target s = (Ok (), s') ∧
    Metadata.find self tag_name s' = (Ok found, s') ∧
    (target ∉ found) ∧
    (has_attr n (Metadata._TAG_PREFIX +:+ tag_name) = true →
     connections s'
     = filter (λ c, ¬ (c ∈ links s self tag_name ∧
                       name_of s (conn_src c) = target)) (connections s) ∧
     links s' self tag_name
     = filter (λ c, name_of s (conn_src c) ≠ target) (links s self tag_name)) ∧
    (has_attr n (Metadata._TAG_PREFIX +:+ tag_name) = false ∨
     Forall (λ c, name_of s (conn_src c) ≠ target) (links s self tag_name) →
     s' = s).
Proof.
  intros Hwf Hn.
  set (h := Metadata._meta_pointer self) in *.
  set (a := Metadata._TAG_PREFIX +:+ tag_name) in *.
  pose proof (untag_run s self n tag_name target Hwf Hn) as Huntag.
  fold h a in Huntag.
  destruct (has_attr n a) eqn:Hattr.
  - assert (scene_wf (untagged_scene s h a target)) as Hwf'
      by by apply untagged_scene_wf.
    destruct (find_linked (untagged_scene s h a target) self n tag_name target
                Hwf' Hn Hattr) as (found & Hfind & _ & Hin).
    exists (untagged_scene s h a target), found.
    split; [done|]. split; [done|]. split; [|split].
    + rewrite Hin. intros (c & Hc & Hname).
      unfold links in Hc. fold h a in Hc. rewrite incoming_untagged in Hc.
      apply list_elem_of_filter in Hc as [Hne _]. by apply Hne.
    + intros _. split; [|apply incoming_untagged].
      simpl. apply filter_ext_in. intros c Hc. unfold links, incoming.
      rewrite list_elem_of_filter. fold h a. tauto.
    + intros [?|Hall]; [done|]. unfold untagged_scene.
      rewrite filter_all; [apply scene_eta|].
      rewrite Forall_forall in Hall |- *. intros c Hc [Harr Hname].
      apply (Hall c); [|done]. by apply list_elem_of_filter.
  - exists s, []. split; [done|]. split; [|split; [|split]].
    + rewrite (find_run s self n tag_name Hwf Hn). fold a. by rewrite Hattr.
    + apply not_elem_of_nil.
    + done.
    + done.
Qed.

(** C5: after [tag(t, X)], [find(t)] lists [X]; after [untag(t, X)] it does
    not.  In any scene [untag] breaks every connection under the tag that
    comes from the node named [X], however many there are, and only those;
    it returns without a change when the tag attribute does not exist or no
    connection under the tag comes from [X]. *)
Theorem tag_untag_round_trip s self n (tag_name target : string) :
  scene_wf s →
  nodes s !! Metadata._meta_pointer self = Some n →
  (∀ ht nt,
     lookup_node s target = Some (ht, nt) →
     node_attrs n !! (Metadata._TAG_PREFIX +:+ tag_name) = None ∨
     node_attrs n !! (Metadata._TAG_PREFIX +:+ tag_name) = Some (MessageAttr true) →
     ∃ s1 s2 found1 found2,
       Metadata.tag self tag_name target s = (Ok (), s1) ∧
       Metadata.find self tag_name s1 = (Ok found1, s1) ∧
       target ∈ found1 ∧
       Metadata.untag self tag_name target s1 = (Ok (), s2) ∧
       Metadata.find self tag_name s2 = (Ok found2, s2) ∧
       target ∉ found2) ∧
  (∃ s' found,
     Metadata.untag self tag_name target s = (Ok (), s') ∧
     Metadata.find self tag_name s' = (Ok found, s') ∧
     (target ∉ found) ∧
     (has_attr n (Metadata._TAG_PREFIX +:+ tag_name) = true →
      connections s'
      = filter (λ c, ¬ (c ∈ links s self tag_name ∧
                        name_of s (conn_src c) = target)) (connections s) ∧
      links s' self tag_name
      = filter (λ c, name_of s (conn_src c) ≠ target) (links s self tag_name)) ∧
     (has_attr n (Metadata._TAG_PREFIX +:+ tag_name) = false ∨
      Forall (λ c, name_of s (conn_src c) ≠ target) (links s self tag_name) →
      s' = s)).
Proof.
  intros Hwf Hn. split; [|by apply untag_then_find].
  intros ht nt Htarget Hattr.
  set (h := Metadata._meta_pointer self) in *.
  set (a := Metadata._TAG_PREFIX +:+ tag_name) in *.
  set (s1 := tagged_scene s h n a ht).
  assert (scene_wf s1) as Hwf1.
  { apply tagged_scene_wf; [done..|].
    apply lookup_node_Some in Htarget as [? _]. by eexists. }
  destruct (tag_then_find s self n tag_name target ht nt Hwf Hn Htarget)
    as (found1 & Hfind1 & _ & Hin1).
  destruct (untag_then_find s1 self _ tag_name target Hwf1
              (tagged_scene_lookup s h n a ht Hn))
    as (s2 & found2 & Huntag & Hfind2 & Hnotin & _).
  exists s1, s2, found1, found2.
  split; [by eapply tag_run|]. done.
Qed.

End tags.

(** ** Renaming a node *)

Section renaming.
Import Maya meta.

Implicit Types (s : scene) (self : Metadata.t) (n : node) (c : connection).

Lemma NoDup_insert_fresh {A} (l : list A) (i : nat) (x : A) :
  NoDup l → x ∉ l → NoDup (<[i := x]> l).
Proof.
  intros Hnodup Hx. apply NoDup_alt. intros j k y Hj Hk.
  apply list_lookup_insert_Some in Hj as [(<- & <- & _)|[Hji Hj]];
    apply list_lookup_insert_Some in Hk as [(<- & Hxy & _)|[Hki Hk]].
  - done.
  - exfalso. apply Hx. by eapply list_elem_of_lookup_2.
  - subst. exfalso. apply Hx. by eapply list_elem_of_lookup_2.
  - by eapply NoDup_lookup.
Qed.

Lemma renamed_name_fresh s new :
  new ≠ "" → (renamed_name s new ∉ node_names s) ∧ renamed_name s new ≠ "".
Proof.
  intros Hnew. unfold renamed_name. case_bool_decide.
  - split; [apply unique_name_fresh|apply unique_name_nonempty].
  - done.
Qed.

Lemma rename_run s old new h n :
  lookup_node s old = Some (h, n) → new ≠ "" →
  rename old new s
  = (Ok (renamed_name s new), renamed_scene s h n (renamed_name s new)).
Proof.
  intros Hold Hnew. unfold rename. rewrite Hold.
  by rewrite bool_decide_eq_false_2.
Qed.

Lemma renamed_scene_wf s h n name :
  scene_wf s → nodes s !! h = Some n → name ∉ node_names s → name ≠ "" →
  scene_wf (renamed_scene s h n name).
Proof.
  intros (Hnodup & Hnonempty & Hconns & Hvalid) Hn Hname Hne.
  unfold scene_wf, renamed_scene, node_names. simpl.
  rewrite list_fmap_insert. simpl.
  repeat split; try done.
  - by apply NoDup_insert_fresh.
  - intros [j Hj]%list_elem_of_lookup_1.
    apply list_lookup_insert_Some in Hj as [(_ & ? & _)|[_ Hj]]; [done|].
    apply Hnonempty. by eapply list_elem_of_lookup_2.
  - eapply Forall_impl; [exact Hvalid|]. intros c [Hsrc Hdst]. simpl.
    split; apply lookup_lt_is_Some; rewrite length_insert;
      by apply lookup_lt_is_Some.
Qed.

End renaming.

Section scenario.
Context `{JsonCodec}.
Import Maya meta.

Lemma fresh_attrs_tag tag_name :
  fresh_attrs !! (Metadata._TAG_PREFIX +:+ tag_name) = None.
Proof. rewrite tag_attr_first. reflexivity. Qed.

(** C4: create the record of a host that has none, [set] a value, [tag] a
    node, then rename the host.  Every step returns; [host()] gives the
    name the host now has (the name asked for when no node has it), and
    [get] still returns the value.  [set] and [tag] rename nothing, so the
    names in use when the host is renamed are those [create] left. *)
Theorem handles_survive_rename (s : scene) (host label tag_name target new : string)
    (value : json) (h ht : MObject) (nh nt : node) :
  scene_wf s →
  lookup_node s host = Some (h, nh) →
  (Metadata.get_metanode host s).1 = Ok "" →
  lookup_node s target = Some (ht, nt) →
  json_wf value = true →
  new ≠ "" →
  ∃ self s1 s2 s3 s4 found name,
    create host s = (Ok (Some self), s1) ∧
    Metadata.set self label value s1 = (Ok (), s2) ∧
    Metadata.get self label s2 = (Ok value, s2) ∧
    Metadata.tag self tag_name target s2 = (Ok (), s3) ∧
    Metadata.find self tag_name s3 = (Ok found, s3) ∧ target ∈ found ∧
    rename host new s3 = (Ok name, s4) ∧
    (new ∉ node_names s1 → name = new) ∧
    Metadata.host self s4 = (Ok name, s4) ∧
    Metadata.get self label s4 = (Ok value, s4).
Proof.
  intros Hwf Hhost Hnone Htarget Hvalue Hnew.
  pose proof (lookup_node_Some _ _ _ _ Hhost) as [Hh _].
  set (m := length (nodes s)).
  set (self := Metadata.Build h m).
  set (mname := unique_name s Metadata._NODE_NAME).
  set (n1 := Node mname "network" false fresh_attrs).
  set (s1 := created_scene s h mname).
  assert (scene_wf s1) as Hwf1.
  { apply created_scene_wf; [done|by eexists|apply unique_name_fresh
                             |apply unique_name_nonempty]. }
  assert (nodes s1 !! m = Some n1) as Hn1.
  { simpl. by rewrite lookup_app_r, Nat.sub_diag. }
  (* set *)
  set (text := json_dumps (JDict [(label, value)])).
  set (attrs2 := <[_Attributes.PERSISTENT_DATA := StringAttr text]> fresh_attrs).
  set (n2 := set_attrs n1 attrs2).
  set (s2 := with_attrs s1 m n1 attrs2).
  assert (decoded "{}" = Some []) as Hempty
    by (unfold decoded; by rewrite json_loads_empty_dict).
  assert (Metadata.set self label value s1 = (Ok (), s2)) as Hset.
  { by apply (set_run s1 self n1 label value "{}" []). }
  assert (scene_wf s2) as Hwf2 by by apply with_attrs_wf.
  assert (nodes s2 !! m = Some n2) as Hn2 by by apply with_attrs_lookup.
  assert (decoded text = Some [(label, value)]) as Htext.
  { apply decoded_dict, json_loads_dumps. simpl. by rewrite Hvalue. }
  assert (Metadata.get self label s2 = (Ok value, s2)) as Hget2.
  { rewrite (get_run s2 self n2 label text "{}" [(label, value)]); try done.
    simpl. by rewrite decide_True. }
  (* tag *)
  set (a := Metadata._TAG_PREFIX +:+ tag_name).
  set (attrs3 := <[a := MessageAttr true]> attrs2).
  set (n3 := set_attrs n2 attrs3).
  set (s3 := tagged_scene s2 m n2 a ht).
  destruct (lookup_node_with_attrs s1 m n1 attrs2 target ht nt Hwf1 Hn1
              (lookup_node_old _ _ _ _ _ _ Htarget)) as (nt2 & Htarget2 & _).
  assert (node_attrs n2 !! a = None) as Ha2.
  { simpl. unfold attrs2, a. rewrite lookup_insert_ne by (by rewrite tag_attr_first).
    apply fresh_attrs_tag. }
  assert (Metadata.tag self tag_name target s2 = (Ok (), s3)) as Htag.
  { apply (tag_run s2 self n2 tag_name target ht nt2); auto. }
  destruct (tag_then_find s2 self n2 tag_name target ht nt2 Hwf2 Hn2 Htarget2)
    as (found & Hfind & _ & Hfound).
  assert (scene_wf s3) as Hwf3.
  { apply tagged_scene_wf; [done..|].
    apply lookup_node_Some in Htarget2 as [? _]. by eexists. }
  assert (nodes s3 !! m = Some n3) as Hn3 by by apply tagged_scene_lookup.
  (* rename *)
  destruct (lookup_node_with_attrs s1 m n1 attrs2 host h nh Hwf1 Hn1
              (lookup_node_old _ _ _ _ _ _ Hhost)) as (nh2 & Hhost2 & _).
  destruct (lookup_node_tagged s2 m n2 a ht host h nh2 Hwf2 Hn2 Hhost2)
    as [nh3 Hhost3].
  pose proof (lookup_node_Some _ _ _ _ Hhost3) as [Hh3 _].
  set (name := renamed_name s3 new).
  set (s4 := renamed_scene s3 h nh3 name).
  destruct (renamed_name_fresh s3 new Hnew) as [Hfresh Hnonempty].
  assert (scene_wf s4) as Hwf4 by by apply renamed_scene_wf.
  assert (h ≠ m) as Hhm.
  { apply lookup_lt_Some in Hh. unfold m. lia. }
  assert (nodes s4 !! m = Some n3) as Hn4.
  { simpl. by rewrite list_lookup_insert_ne. }
  exists self, s1, s2, s3, s4, found, name.
  split; [by eapply module_create_run|].
  split; [done|]. split; [done|]. split; [done|]. split; [done|].
  split; [done|]. split; [by apply rename_run|]. split; [|split].
  - intros Hfree. unfold name, renamed_name.
    rewrite bool_decide_eq_false_2; [done|].
    unfold s3. rewrite (node_names_tagged s2 m n2 a ht Hn2).
    unfold s2. by rewrite (node_names_with_attrs s1 m n1 attrs2 Hn1).
  - unfold Metadata.host. simpl.
    rewrite (get_name_Some s4 h (set_name nh3 name)); [done|]. simpl.
    apply list_lookup_insert_eq. by eapply lookup_lt_Some.
  - rewrite (get_run s4 self n3 label text "{}" [(label, value)]); try done.
    simpl. by rewrite decide_True.
Qed.

End scenario.

(** ** The properties on the example scenes *)

Section examples.
Import Maya meta.
#[local] Existing Instance RefJsonFacts.codec.

Lemma cube_scene_wf : scene_wf cube_scene.
Proof. apply (bool_decide_eq_true_1 (scene_wf cube_scene)). vm_compute. reflexivity. Defined.

Lemma stored_scene_wf referenced p t : scene_wf (stored_scene referenced p t).
Proof.
  apply (bool_decide_eq_true_1 (scene_wf (stored_scene referenced p t))).
  vm_compute. reflexivity.
Defined.

Example create_cube_record :
  create "pCube1" cube_scene = (Ok (Some cube_record), described_scene).
Proof. reflexivity. Qed.

Example scenario_run :
  (scenario cube_scene).1
  = Ok (JStr "rigTeam", ["pCube1_ctrl"], "cube_final", JStr "rigTeam").
Proof. vm_compute. reflexivity. Qed.

(** The new link goes after the last index in use, not into the gap. *)
Example tag_sparse :
  connections (Metadata.tag cube_record "grp" "pCube1_ctrl" sparse_scene).2
  = connections sparse_scene ++ [Connection 1 2 "usertaggrp" (Some 6)].
Proof. vm_compute. reflexivity. Qed.

(** [untag] removes both links of a target tagged twice. *)
Example untag_duplicates :
  links ((Metadata.tag cube_record "grp" "pCube1_ctrl";;
          Metadata.tag cube_record "grp" "pCube1_ctrl";;
          Metadata.untag cube_record "grp" "pCube1_ctrl") described_scene).2
        cube_record "grp"
  = [].
Proof. vm_compute. reflexivity. Qed.

(** The second [create] for the cube. *)
Example create_twice :
  ((create "pCube1";; create "pCube1") cube_scene).1 = Ok None.
Proof. vm_compute. reflexivity. Qed.

(** A value stored on a referenced storage node is not read back. *)
Example referenced_set_get :
  ((Metadata.set cube_record "owner" (JStr "rigTeam");;
    Metadata.get cube_record "owner")
     (stored_scene true (owned_by "baseTeam") "{}")).1
  = Ok (JStr "baseTeam").
Proof. vm_compute. reflexivity. Qed.

Lemma init_without_metanode_raises_witness :
  Metadata.__init__ "pCube1" cube_scene
  = (Raise (RuntimeError ("Could not find node " +:+ "")), cube_scene).
Proof.
  apply (init_without_metanode_raises cube_scene "pCube1").
  - apply (bool_decide_eq_true_1 ("" ∉ node_names cube_scene)).
    vm_compute. reflexivity.
  - vm_compute. reflexivity.
Defined.

Lemma create_again_returns_None_witness :
  create "pCube1" described_scene = (Ok None, described_scene).
Proof.
  apply (create_again_returns_None _ "pCube1" "SYNAPTIC_METANODE1").
  - vm_compute. reflexivity.
  - discriminate.
  - vm_compute. reflexivity.
Defined.


Lemma get_after_referenced_set_witness :
  ∃ s', Metadata.set cube_record "owner" (JStr "rigTeam")
          (stored_scene true (owned_by "baseTeam") "{}") = (Ok (), s') ∧
        Metadata.get cube_record "owner" s' = (Ok (JStr "baseTeam"), s').
Proof.
  set (base := owned_by "baseTeam").
  destruct (get_after_referenced_set (stored_scene true base "{}") cube_record
              (storage_node true base "{}") "owner" base "{}"
              (JStr "baseTeam") (JStr "rigTeam")
              [("owner", JStr "baseTeam")] [])
    as (s' & text' & dt' & Hset & _ & _ & _ & _ & Hget).
  - apply stored_scene_wf.
  - reflexivity.
  - reflexivity.
  - reflexivity.
  - vm_compute. reflexivity.
  - reflexivity.
  - reflexivity.
  - vm_compute. reflexivity.
  - reflexivity.
  - exists s'. split; [exact Hset|exact Hget].
Defined.

Lemma set_tier_isolation_witness :
  tier (Metadata.set cube_record "owner" (JStr "rigTeam") described_scene).2
       2 _Attributes.TRANSIENT_DATA
  = tier described_scene 2 _Attributes.TRANSIENT_DATA ∧
  ∃ d, tier (Metadata.set cube_record "owner" (JStr "rigTeam") described_scene).2
            2 _Attributes.PERSISTENT_DATA
       = Some (StringAttr (json_dumps (JDict d)))
       ∧ PyDict.get d "owner" = Some (JStr "rigTeam").
Proof.
  set (s := described_scene).
  destruct (set_tier_isolation s cube_record (storage_node false "{}" "{}")
              "owner" (JStr "rigTeam"))
    as (Hunreferenced & _ & Hwritten).
  - apply stored_scene_wf.
  - reflexivity.
  - split.
    + apply Hunreferenced. reflexivity.
    + apply Hwritten. vm_compute. reflexivity.
Defined.

Lemma handles_survive_rename_witness :
  ∃ self s4,
    Metadata.host self s4 = (Ok "cube_final", s4) ∧
    Metadata.get self "owner" s4 = (Ok (JStr "rigTeam"), s4).
Proof.
  destruct (handles_survive_rename cube_scene "pCube1" "owner" "controls"
              "pCube1_ctrl" "cube_final" (JStr "rigTeam") 0 1
              (Node "pCube1" "transform" false ∅)
              (Node "pCube1_ctrl" "transform" false ∅))
    as (self & s1 & s2 & s3 & s4 & found & name
        & Hcreate & _ & _ & _ & _ & _ & _ & Hname & Hhost & Hget).
  - apply cube_scene_wf.
  - reflexivity.
  - vm_compute. reflexivity.
  - reflexivity.
  - reflexivity.
  - discriminate.
  - exists self, s4.
    assert (name = "cube_final") as <-; [|split; [exact Hhost|exact Hget]].
    apply Hname. rewrite create_cube_record in Hcreate.
    injection Hcreate as _ <-.
    apply (bool_decide_eq_true_1 ("cube_final" ∉ node_names described_scene)).
    vm_compute. reflexivity.
Defined.

Lemma tag_untag_round_trip_witness :
  ∃ s1 s2 found1 found2,
    Metadata.tag cube_record "grp" "pCube1_ctrl" described_scene = (Ok (), s1) ∧
    Metadata.find cube_record "grp" s1 = (Ok found1, s1) ∧
    "pCube1_ctrl" ∈ found1 ∧
    Metadata.untag cube_record "grp" "pCube1_ctrl" s1 = (Ok (), s2) ∧
    Metadata.find cube_record "grp" s2 = (Ok found2, s2) ∧
    "pCube1_ctrl" ∉ found2.
Proof.
  set (s := described_scene).
  destruct (tag_untag_round_trip s cube_record (storage_node false "{}" "{}")
              "grp" "pCube1_ctrl") as [Hround _].
  - apply stored_scene_wf.
  - reflexivity.
  - apply (Hround 1 (Node "pCube1_ctrl" "transform" false ∅)).
    + reflexivity.
    + left. reflexivity.
Defined.

Lemma tag_twice_find_once_witness :
  ∃ s1 s2 found,
    Metadata.tag cube_record "grp" "pCube1_ctrl" described_scene = (Ok (), s1) ∧
    Metadata.tag cube_record "grp" "pCube1_ctrl" s1 = (Ok (), s2) ∧
    length (links s2 cube_record "grp") = 2 ∧
    Metadata.find cube_record "grp" s2 = (Ok found, s2) ∧
    NoDup found ∧ "pCube1_ctrl" ∈ found.
Proof.
  set (s := described_scene).
  destruct (tag_twice_find_once s cube_record (storage_node false "{}" "{}")
              "grp" "pCube1_ctrl" 1 (Node "pCube1_ctrl" "transform" false ∅))
    as (s1 & s2 & i & j & found & Htag1 & Htag2 & _ & Hlinks & Hfind & Hnodup & Hin).
  - apply stored_scene_wf.
  - reflexivity.
  - reflexivity.
  - left. reflexivity.
  - exists s1, s2, found. rewrite Hlinks. done.
Defined.

Lemma tag_appends_after_last_index_witness :
  ∃ s' next,
    Metadata.tag cube_record "grp" "pCube1_ctrl" described_scene = (Ok (), s') ∧
    connections s'
    = connections described_scene
      ++ [Connection 1 2 (Metadata._TAG_PREFIX +:+ "grp") (Some next)].
Proof.
  set (s := described_scene).
  destruct (tag_appends_after_last_index s cube_record
              (storage_node false "{}" "{}") "grp" "pCube1_ctrl" 1
              (Node "pCube1_ctrl" "transform" false ∅))
    as (s' & next & Htag & Hconns & _).
  - apply stored_scene_wf.
  - reflexivity.
  - reflexivity.
  - left. reflexivity.
  - exists s', next. split; [exact Htag|exact Hconns].
Defined.

Lemma get_with_malformed_persistent_witness :
  Metadata.get cube_record "owner"
    (stored_scene false "not json" (owned_by "rigTeam"))
  = (Ok JNull, stored_scene false "not json" (owned_by "rigTeam")).
Proof.
  set (override := owned_by "rigTeam").
  apply (get_with_malformed_persistent _ cube_record
           (storage_node false "not json" override) "owner" "not json" override
           [("owner", JStr "rigTeam")] (JStr "rigTeam")).
  - apply stored_scene_wf.
  - reflexivity.
  - reflexivity.
  - vm_compute. reflexivity.
  - reflexivity.
  - vm_compute. reflexivity.
  - reflexivity.
Defined.

Lemma fresh_record_is_empty_witness :
  ∃ self s',
    create "pCube1" cube_scene = (Ok (Some self), s') ∧
    (∀ label, Metadata.get self label s' = (Ok JNull, s')) ∧
    (∀ tag_name, Metadata.find self tag_name s' = (Ok [], s')).
Proof.
  destruct (fresh_record_is_empty cube_scene "pCube1" 0
              (Node "pCube1" "transform" false ∅))
    as (self & s' & Hcreate & _ & _ & Hget & Hfind & _).
  - apply cube_scene_wf.
  - reflexivity.
  - vm_compute. reflexivity.
  - exists self, s'. split; [exact Hcreate|]. split; [exact Hget|exact Hfind].
Defined.

End examples.

(** * Further properties *)

(** ** Pointers *)

Section pointers.
Import Maya.

(** X1: A name that is in the scene resolves to a handle, and the handle gives
    the name back; neither call changes the scene. *)
Theorem pointer_name_round_trip (s : scene) (name : string) :
  name ∈ node_names s →
  ∃ h, pointer.get_pointer name s = (Ok h, s) ∧
       pointer.get_name h s = (Ok name, s).
Proof.
  intros Hname.
  destruct (lookup_node s name) as [[h n]|] eqn:Hlook.
  - exists h. split; [by eapply get_pointer_Some|].
    apply lookup_node_Some in Hlook as [Hn <-]. by apply get_name_Some.
  - by apply lookup_node_None in Hlook.
Qed.

(** X2: With distinct names, the name of a handle resolves to that handle. *)
Theorem pointer_handle_round_trip (s : scene) (h : MObject) (n : node) :
  NoDup (node_names s) →
  nodes s !! h = Some n →
  pointer.get_name h s = (Ok (node_name n), s) ∧
  pointer.get_pointer (node_name n) s = (Ok h, s).
Proof.
  intros Hnodup Hn. split; [by apply get_name_Some|].
  eapply get_pointer_Some. by apply lookup_node_unique.
Qed.

(** X3: A name that is not in the scene: [get_pointer] replaces Maya's error
    by its own, which names the node, and the constructor [Metadata(name)]
    fails with that error at its first step; the scene is unchanged. *)
Theorem get_pointer_missing (s : scene) (name : string) :
  name ∉ node_names s →
  pointer.get_pointer name s
  = (Raise (RuntimeError ("Could not find node " +:+ name)), s) ∧
  meta.Metadata.__init__ name s
  = (Raise (RuntimeError ("Could not find node " +:+ name)), s).
Proof.
  intros Hname%lookup_node_None.
  pose proof (get_pointer_None s name Hname) as Hraise.
  split; [done|].
  unfold meta.Metadata.__init__. by erewrite bind_Raise.
Qed.

End pointers.

(** ** Records of hosts that have a storage node *)

Section described.
Import Maya meta.

Implicit Types (s : scene) (self : Metadata.t) (n : node) (c : connection).

(** [Metadata(host)] for a host whose storage node is found. *)
Lemma init_run s host h nh pre hm nm :
  lookup_node s host = Some (h, nh) →
  (Metadata.get_metanode host s).1 = Ok pre →
  lookup_node s pre = Some (hm, nm) →
  Metadata.__init__ host s = (Ok (Metadata.Build h hm), s).
Proof.
  intros Hhost Hpre Hmeta. unfold Metadata.__init__.
  erewrite bind_Ok by (by eapply get_pointer_Some).
  erewrite bind_Ok by (by apply get_metanode_eq).
  erewrite bind_Ok by (by eapply get_pointer_Some). done.
Qed.

Lemma has_meta_run s host pre :
  (Metadata.get_metanode host s).1 = Ok pre →
  has_meta host s = (Ok (if decide (pre = "") then false else true), s).
Proof.
  intros Hpre. unfold has_meta.
  erewrite bind_Ok by (by apply get_metanode_eq). done.
Qed.

(** The steps of [Metadata.create] before it constructs the record. *)
Lemma create_steps s host h nh :
  scene_wf s → lookup_node s host = Some (h, nh) →
  Metadata.create host s
  = Metadata.__init__ host
      (created_scene s h (unique_name s Metadata._NODE_NAME)).
Proof.
  intros Hwf Hhost.
  pose proof (unique_name_fresh s Metadata._NODE_NAME) as Hfresh.
  set (name := unique_name s Metadata._NODE_NAME) in *.
  unfold Metadata.create.
  erewrite bind_Ok by reflexivity. fold name.
  erewrite bind_Ok by (by apply (addAttr_last s (Node name "network" false ∅))).
  erewrite bind_Ok by (by apply (addAttr_last s (Node name "network" false _))).
  erewrite bind_Ok
    by (by apply (connectAttr_host s (Node name "network" false _) _ host h nh)).
  erewrite bind_Ok by (by apply (addAttr_last s (Node name "network" false _))).
  erewrite bind_Ok
    by (by apply (setAttr_last s (Node name "network" false _) _ _ EmptyString)).
  erewrite bind_Ok by (by apply (addAttr_last s (Node name "network" false _))).
  erewrite bind_Ok
    by (by apply (setAttr_last s (Node name "network" false _) _ _ EmptyString)).
  unfold set_attrs. simpl. by rewrite fresh_attrs_steps.
Qed.

Lemma first_host_app_found plugs plugs' :
  Metadata.first_host plugs ≠ "" →
  Metadata.first_host (plugs ++ plugs') = Metadata.first_host plugs.
Proof.
  induction plugs as [|p plugs IH]; [done|]. simpl.
  destruct (PyStr.endswith (plug_str p) ".host"); [done|apply IH].
Qed.

Lemma dst_plugs_created s h name :
  scene_wf s →
  dst_plug (created_scene s h name) <$> outgoing s h
  = dst_plug s <$> outgoing s h.
Proof.
  intros (_ & _ & _ & Hvalid). rewrite Forall_forall in Hvalid.
  apply list_fmap_ext. intros i c Hc.
  apply list_elem_of_lookup_2, list_elem_of_filter in Hc as [_ Hc].
  destruct (Hvalid c Hc) as [_ Hdst].
  unfold dst_plug, created_scene. by rewrite name_of_old.
Qed.

(** A host that has a storage node keeps being reported with it when a
    second one is connected. *)
Lemma get_metanode_created_again s host h nh name pre :
  scene_wf s → lookup_node s host = Some (h, nh) →
  (Metadata.get_metanode host s).1 = Ok pre → pre ≠ "" →
  Metadata.get_metanode host (created_scene s h name)
  = (Ok pre, created_scene s h name).
Proof.
  intros Hwf Hhost Hpre Hne.
  rewrite (get_metanode_run _ _ _ _ Hhost) in Hpre. simpl in Hpre.
  injection Hpre as Hpre.
  erewrite get_metanode_run by (by apply lookup_node_old).
  rewrite outgoing_created, fmap_app, dst_plugs_created by done.
  rewrite first_host_app_found by (by rewrite Hpre). by rewrite Hpre.
Qed.

(** X4: After [create] for a host without storage node, [get] returns the record
    [create] returned where it returned [None], [has_meta] is true where it
    was false, and neither changes the scene. *)
Theorem get_after_create (s : scene) (host : string) (h : MObject) (nh : node) :
  scene_wf s →
  lookup_node s host = Some (h, nh) →
  (Metadata.get_metanode host s).1 = Ok "" →
  ∃ self s',
    create host s = (Ok (Some self), s') ∧
    get host s' = (Ok (Some self), s') ∧
    get host s = (Ok None, s) ∧
    has_meta host s = (Ok false, s) ∧
    has_meta host s' = (Ok true, s').
Proof.
  intros Hwf Hhost Hnone.
  pose proof (unique_name_fresh s Metadata._NODE_NAME) as Hfresh.
  pose proof (unique_name_nonempty s Metadata._NODE_NAME) as Hnonempty.
  set (name := unique_name s Metadata._NODE_NAME) in *.
  set (s' := created_scene s h name).
  assert (Metadata.get_metanode host s' = (Ok name, s')) as Hmeta
    by by eapply get_metanode_created.
  assert (has_meta host s' = (Ok true, s')) as Hhas.
  { rewrite (has_meta_run s' host name) by by rewrite Hmeta.
    by rewrite decide_False. }
  exists (Metadata.Build h (length (nodes s))), s'.
  assert (has_meta host s = (Ok false, s)) as Hhasnt
    by by rewrite (has_meta_run s host "").
  split; [by eapply module_create_run|]. split; [|split; [|done]].
  - unfold get. erewrite bind_Ok by exact Hhas.
    apply fmap_Ok.
    eapply init_run; [by apply lookup_node_old|by rewrite Hmeta|].
    by apply (lookup_node_new s (Node name "network" false fresh_attrs)).
  - unfold get. by erewrite bind_Ok by exact Hhasnt.
Qed.

(** X5: After [create], [node()] is the name [get_metanode] reports for the
    host, a name no node had before, and [host()] is the host's name. *)
Theorem node_after_create (s : scene) (host : string) (h : MObject) (nh : node) :
  scene_wf s →
  lookup_node s host = Some (h, nh) →
  (Metadata.get_metanode host s).1 = Ok "" →
  ∃ self s' name,
    create host s = (Ok (Some self), s') ∧
    Metadata.node self s' = (Ok name, s') ∧
    Metadata.get_metanode host s' = (Ok name, s') ∧
    (name ∉ node_names s) ∧
    Metadata.host self s' = (Ok host, s').
Proof.
  intros Hwf Hhost Hnone.
  pose proof (unique_name_fresh s Metadata._NODE_NAME) as Hfresh.
  set (name := unique_name s Metadata._NODE_NAME) in *.
  exists (Metadata.Build h (length (nodes s))), (created_scene s h name), name.
  split; [by eapply module_create_run|]. split; [|split; [|split; [done|]]].
  - unfold Metadata.node. simpl.
    rewrite (get_name_Some _ _ (Node name "network" false fresh_attrs)); [done|].
    simpl. by rewrite lookup_app_r, Nat.sub_diag.
  - by eapply get_metanode_created.
  - unfold Metadata.host. simpl.
    apply lookup_node_Some in Hhost as [Hh <-].
    apply get_name_Some. simpl. by apply lookup_app_l_Some.
Qed.

(** X6: [Metadata.create] does not look for an existing storage node: called
    for a host that has one, it adds a second storage node all the same, and
    returns a record bound to the first. *)
Theorem Metadata_create_again (s : scene) (host pre : string) (h hm : MObject)
    (nh nm : node) :
  scene_wf s →
  lookup_node s host = Some (h, nh) →
  (Metadata.get_metanode host s).1 = Ok pre →
  pre ≠ "" →
  lookup_node s pre = Some (hm, nm) →
  ∃ s',
    Metadata.create host s = (Ok (Metadata.Build h hm), s') ∧
    length (nodes s') = S (length (nodes s)) ∧
    hm < length (nodes s) ∧
    Metadata.node (Metadata.Build h hm) s' = (Ok pre, s').
Proof.
  intros Hwf Hhost Hpre Hne Hmeta.
  set (name := unique_name s Metadata._NODE_NAME).
  exists (created_scene s h name).
  assert (lookup_node (created_scene s h name) pre = Some (hm, nm)) as Hmeta'
    by by apply lookup_node_old.
  split; [|split; [|split]].
  - rewrite (create_steps s host h nh) by done. fold name.
    eapply init_run; [by apply lookup_node_old| |done].
    by erewrite get_metanode_created_again.
  - simpl. rewrite length_app. simpl. lia.
  - apply lookup_node_Some in Hmeta as [Hhm _]. by eapply lookup_lt_Some.
  - unfold Metadata.node. simpl.
    apply lookup_node_Some in Hmeta' as [Hhm <-]. by apply get_name_Some.
Qed.

(** X7: For a name that matches no node, [has_meta], [get] and [create] raise
    the [ValueError] of [mc.listConnections]; nothing is created. *)
Theorem create_missing_host (s : scene) (host : string) :
  host ∉ node_names s →
  has_meta host s = (Raise ValueError, s) ∧
  get host s = (Raise ValueError, s) ∧
  create host s = (Raise ValueError, s).
Proof.
  intros Hhost%lookup_node_None.
  assert (Metadata.get_metanode host s = (Raise ValueError, s)) as Hmeta.
  { unfold Metadata.get_metanode, listConnections_destination_plugs.
    unfold mbind, M_bind, lift. simpl. by rewrite Hhost. }
  assert (has_meta host s = (Raise ValueError, s)) as Hhas.
  { unfold has_meta. by erewrite bind_Raise. }
  split; [done|]. split.
  - unfold get. by erewrite bind_Raise.
  - unfold create. by erewrite bind_Raise.
Qed.


End described.

(** ** Queries *)

Section queries.
Import Maya meta.

Lemma query_ret {A} (a : A) : query (mret a).
Proof. done. Qed.

Lemma query_raise {A} e : query (raise (A := A) e).
Proof. done. Qed.

Lemma query_gets {A} (f : scene → A) : query (gets f).
Proof. done. Qed.

Lemma query_lift {A} (f : scene → result A) : query (lift f).
Proof. done. Qed.

Lemma query_bind {A B} (m : M A) (f : A → M B) :
  query m → (∀ a, query (f a)) → query (m ≫= f).
Proof.
  intros Hm Hf s. unfold mbind, M_bind. specialize (Hm s).
  destruct (m s) as [[a|e] s']; simpl in Hm; subst; [apply Hf|done].
Qed.

Lemma query_fmap {A B} (f : A → B) (m : M A) : query m → query (f <$> m).
Proof.
  intros Hm s. unfold fmap, M_fmap. specialize (Hm s).
  by destruct (m s) as [[a|e] s'].
Qed.

Lemma query_try_except {A} (body : M A) handles handler :
  query body → query handler → query (try_except body handles handler).
Proof.
  intros Hbody Hhandler s. unfold try_except. specialize (Hbody s).
  destruct (body s) as [[a|e] s']; simpl in Hbody; subst; [done|].
  destruct (handles e); [apply Hhandler|done].
Qed.

Lemma query_attempt {A} (m : M A) : query m → query (attempt m).
Proof.
  intros Hm s. unfold attempt. specialize (Hm s). by destruct (m s).
Qed.

Ltac solve_query :=
  repeat first
    [ assumption
    | apply query_ret | apply query_raise | apply query_gets | apply query_lift
    | apply query_fmap | apply query_try_except | apply query_attempt
    | apply query_bind; [|intros ?]
    | match goal with
      | Hq : ∀ _, query _ |- _ => apply Hq
      | |- query (match ?x with _ => _ end) => destruct x
      end ].

Context `{JsonCodec}.

Lemma query_get_pointer name : query (pointer.get_pointer name).
Proof. unfold pointer.get_pointer, MSelectionList_getDependNode. solve_query. Qed.

Lemma query_get_name h : query (pointer.get_name h).
Proof. unfold pointer.get_name, MFnDependencyNode_name. solve_query. Qed.

Lemma query_get_metanode host : query (Metadata.get_metanode host).
Proof. intros s. apply get_metanode_scene. Qed.

Lemma query_init name : query (Metadata.__init__ name).
Proof.
  unfold Metadata.__init__.
  pose proof query_get_pointer. pose proof query_get_metanode. solve_query.
Qed.

Lemma query_find self tag_name : query (Metadata.find self tag_name).
Proof.
  unfold Metadata.find, objExists, listConnections_source.
  pose proof query_get_name. solve_query.
Qed.

(** X10: What reads never writes: [get], [find], [find_first], [node], [host],
    [get_metanode], [has_meta], the module's [get], the constructor and the
    two functions of [pointer] leave the scene as it is, whether they return
    or raise. *)
Theorem queries_leave_scene (self : Metadata.t) (label tag_name name : string)
    (h : MObject) :
  query (Metadata.get self label) ∧
  query (Metadata.find self tag_name) ∧
  query (Metadata.find_first self tag_name) ∧
  query (Metadata.node self) ∧
  query (Metadata.host self) ∧
  query (Metadata.get_metanode name) ∧
  query (Metadata.__init__ name) ∧
  query (has_meta name) ∧
  query (get name) ∧
  query (pointer.get_pointer name) ∧
  query (pointer.get_name h).
Proof.
  pose proof query_get_name as Hname. pose proof query_get_pointer as Hpointer.
  pose proof query_get_metanode as Hmeta. pose proof query_init as Hinit.
  pose proof query_find as Hfind.
  assert (∀ name, query (has_meta name)) as Hhas.
  { intros name'. unfold has_meta. solve_query. }
  split_and!.
  - unfold Metadata.get, Metadata.update_from_transient, json_load_attr, getAttr.
    solve_query.
  - apply Hfind.
  - unfold Metadata.find_first. solve_query.
  - apply Hname.
  - apply Hname.
  - apply Hmeta.
  - apply Hinit.
  - apply Hhas.
  - unfold get. solve_query.
  - apply Hpointer.
  - apply Hname.
Qed.

End queries.

(** ** Storing and reading values *)

Section values.
Context `{JsonCodec}.
Import Maya meta.

Implicit Types (s : scene) (self : Metadata.t) (n : node).

(** What [get] returns depends on the scene through the two data attributes
    of the storage node alone, and on the transient one through its kind. *)
Lemma get_ext s s' self n n' label :
  scene_wf s → scene_wf s' →
  nodes s !! Metadata._meta_pointer self = Some n →
  nodes s' !! Metadata._meta_pointer self = Some n' →
  node_attrs n' !! _Attributes.PERSISTENT_DATA
  = node_attrs n !! _Attributes.PERSISTENT_DATA →
  node_attrs n' !! _Attributes.TRANSIENT_DATA
  = node_attrs n !! _Attributes.TRANSIENT_DATA ∨
  (∃ text text',
     node_attrs n !! _Attributes.TRANSIENT_DATA = Some (StringAttr text) ∧
     node_attrs n' !! _Attributes.TRANSIENT_DATA = Some (StringAttr text')) →
  (Metadata.get self label s').1 = (Metadata.get self label s).1.
Proof.
  intros (Hnodup & _) (Hnodup' & _) Hn Hn' Hp Ht.
  pose proof (lookup_node_unique _ _ _ Hnodup Hn) as Hlook.
  pose proof (lookup_node_unique _ _ _ Hnodup' Hn') as Hlook'.
  unfold Metadata.get.
  rewrite (bind_Ok _ _ s' (node_name n') s') by (by apply get_name_Some).
  rewrite (bind_Ok _ _ s (node_name n) s) by (by apply get_name_Some).
  unfold Metadata.update_from_transient, attempt, try_except, getAttr, lift,
    mbind, M_bind, json_load_attr, mret, M_ret, raise. simpl.
  rewrite Hlook, Hlook'. simpl. rewrite Hp.
  destruct (node_attrs n !! _Attributes.PERSISTENT_DATA) as [[b|p|multi]|];
    simpl; try done.
  destruct (json_loads p) as [[| | | | |d]|]; simpl; try done.
  all: rewrite Hlook, Hlook'; simpl.
  all: destruct Ht as [->|(text & text' & -> & ->)]; simpl;
    [|by destruct text, text'].
  all: destruct (node_attrs n !! _Attributes.TRANSIENT_DATA) as [[b|text|multi]|];
    simpl; try done.
  all: by destruct text.
Qed.


(** X12: On a referenced storage node a [set] that returns has stored the value
    in the transient tier, and is not seen by [get]: for every label, [get]
    returns what it returned before. *)
Theorem set_referenced_unseen s self n (label text : string) (value : json)
    (dt : dict) :
  scene_wf s →
  nodes s !! Metadata._meta_pointer self = Some n →
  node_referenced n = true →
  node_attrs n !! _Attributes.TRANSIENT_DATA = Some (StringAttr text) →
  decoded text = Some dt →
  ∃ s',
    Metadata.set self label value s = (Ok (), s') ∧
    tier s' (Metadata._meta_pointer self) _Attributes.TRANSIENT_DATA
    = Some (StringAttr (json_dumps (JDict (PyDict.setitem dt label value)))) ∧
    ∀ other, (Metadata.get self other s').1 = (Metadata.get self other s).1.
Proof.
  intros Hwf Hn Href Htext Hdt.
  pose proof (set_run s self n label value text dt Hwf Hn) as Hset.
  rewrite Href in Hset. specialize (Hset Htext Hdt). simpl in Hset.
  eexists. split; [exact Hset|]. split.
  - rewrite tier_with_attrs by done. by rewrite lookup_insert_eq.
  - intros other. eapply get_ext.
    + done.
    + by apply with_attrs_wf.
    + done.
    + by apply with_attrs_lookup.
    + simpl. by rewrite lookup_insert_ne.
    + right. eexists _, _. split; [done|]. simpl. by rewrite lookup_insert_eq.
Qed.

(** X13: A persistent tier that holds JSON other than an object: [get] raises
    [AttributeError], for every label. *)
Theorem get_persistent_not_dict s self n (label p : string) (v : json) :
  scene_wf s →
  nodes s !! Metadata._meta_pointer self = Some n →
  node_attrs n !! _Attributes.PERSISTENT_DATA = Some (StringAttr p) →
  json_loads p = Some v →
  (∀ d, v ≠ JDict d) →
  Metadata.get self label s = (Raise AttributeError, s).
Proof.
  intros Hwf Hn Hp Hv Hnot. unfold Metadata.get.
  erewrite bind_Ok by (by apply get_name_Some).
  erewrite (bind_Ok _ _ s v s).
  - erewrite bind_Raise; [done|].
    destruct v; try done. by destruct (Hnot d).
  - rewrite (read_tier_run s _ n) by done. by rewrite Hp, Hv.
Qed.

(** X14: An active tier that holds JSON other than an object: [set] raises
    [TypeError] and writes nothing. *)
Theorem set_tier_not_dict s self n (label text : string) (value v : json) :
  scene_wf s →
  nodes s !! Metadata._meta_pointer self = Some n →
  node_attrs n !! active_tier (node_referenced n) = Some (StringAttr text) →
  json_loads text = Some v →
  (∀ d, v ≠ JDict d) →
  Metadata.set self label value s = (Raise TypeError, s).
Proof.
  intros Hwf Hn Htext Hv Hnot.
  rewrite (set_after_queries s self n) by done. cbv zeta.
  erewrite (bind_Ok _ _ s v s).
  - erewrite bind_Raise; [done|].
    destruct v; try done. by destruct (Hnot d).
  - rewrite (read_tier_run s _ n) by done. by rewrite Htext, Hv.
Qed.

End values.

(** ** Values and tags do not disturb each other *)

Section frames.
Context `{JsonCodec}.
Import Maya meta.

Implicit Types (s : scene) (self : Metadata.t) (n : node) (c : connection).

Lemma tag_attr_ne_tier tag_name b :
  active_tier b ≠ Metadata._TAG_PREFIX +:+ tag_name.
Proof. rewrite tag_attr_first. by destruct b. Qed.


(** What [find] returns when the storage node has other attributes. *)
Lemma find_with_attrs s self n attrs tag_name :
  scene_wf s → nodes s !! Metadata._meta_pointer self = Some n →
  attrs !! (Metadata._TAG_PREFIX +:+ tag_name)
  = node_attrs n !! (Metadata._TAG_PREFIX +:+ tag_name) →
  (Metadata.find self tag_name (with_attrs s (Metadata._meta_pointer self) n attrs)).1
  = (Metadata.find self tag_name s).1.
Proof.
  intros Hwf Hn Hattr.
  rewrite (find_run _ self (set_attrs n attrs) tag_name);
    [|by apply with_attrs_wf|by apply with_attrs_lookup].
  rewrite (find_run s self n tag_name) by done. simpl.
  unfold has_attr. simpl. rewrite Hattr.
  case_bool_decide; [|done]. do 2 f_equal.
  apply list_fmap_ext. intros i c _.
  by apply (name_of_with_attrs s _ n).
Qed.

(** X15: [set], whatever it does, changes the result of [find] for no tag, and
    the name of no node. *)
Theorem set_leaves_tags s self n (label : string) (value : json) :
  scene_wf s →
  nodes s !! Metadata._meta_pointer self = Some n →
  let s' := (Metadata.set self label value s).2 in
  (∀ tag_name,
     (Metadata.find self tag_name s').1 = (Metadata.find self tag_name s).1) ∧
  (∀ h, name_of s' h = name_of s h) ∧
  connections s' = connections s.
Proof.
  intros Hwf Hn s'. subst s'.
  destruct (set_cases s self n label value Hwf Hn) as [[e ->]|[d ->]]; [done|].
  simpl. split; [|split; [|done]].
  - intros tag_name. apply find_with_attrs; [done..|].
    apply lookup_insert_ne, tag_attr_ne_tier.
  - intros h. by apply (name_of_with_attrs s _ n).
Qed.

(** X16: Neither [tag] nor [untag] changes what [get] returns, for any label. *)
Theorem tags_leave_data s self n (tag_name target : string) :
  scene_wf s →
  nodes s !! Metadata._meta_pointer self = Some n →
  (∀ ht nt,
     lookup_node s target = Some (ht, nt) →
     node_attrs n !! (Metadata._TAG_PREFIX +:+ tag_name) = None ∨
     node_attrs n !! (Metadata._TAG_PREFIX +:+ tag_name) = Some (MessageAttr true) →
     ∃ s', Metadata.tag self tag_name target s = (Ok (), s') ∧
           ∀ label, (Metadata.get self label s').1 = (Metadata.get self label s).1) ∧
  (∃ s', Metadata.untag self tag_name target s = (Ok (), s') ∧
         ∀ label, (Metadata.get self label s').1 = (Metadata.get self label s).1).
Proof.
  intros Hwf Hn. split.
  - intros ht nt Htarget Hattr. eexists. split; [by eapply tag_run|].
    intros label.
    apply lookup_node_Some in Htarget as [Hht _].
    eapply get_ext.
    + done.
    + apply tagged_scene_wf; eauto.
    + done.
    + by apply tagged_scene_lookup.
    + simpl. rewrite tag_attr_first. by rewrite lookup_insert_ne.
    + left. simpl. rewrite tag_attr_first. by rewrite lookup_insert_ne.
  - eexists. split; [by eapply untag_run|].
    intros label. destruct (has_attr n _); [|done].
    eapply get_ext; [done|by apply untagged_scene_wf|done|done|done|by left].
Qed.

End frames.

(** ** Tags *)

Section more_tags.
Import Maya meta.

Implicit Types (s : scene) (self : Metadata.t) (n : node) (c : connection).




(** X18: [untag] of one name leaves every other name [find] listed under the tag
    listed, and adds none. *)
Theorem untag_keeps_others s self n (tag_name target : string) :
  scene_wf s →
  nodes s !! Metadata._meta_pointer self = Some n →
  ∃ s' before after,
    Metadata.find self tag_name s = (Ok before, s) ∧
    Metadata.untag self tag_name target s = (Ok (), s') ∧
    Metadata.find self tag_name s' = (Ok after, s') ∧
    ∀ name, name ∈ after ↔ name ∈ before ∧ name ≠ target.
Proof.
  intros Hwf Hn.
  destruct (untag_then_find s self n tag_name target Hwf Hn)
    as (s' & after & Huntag & Hfind' & Hgone & Hlinks & Hsame).
  destruct (has_attr n (Metadata._TAG_PREFIX +:+ tag_name)) eqn:Hattr.
  - destruct (Hlinks eq_refl) as [_ Hlinks'].
    assert (scene_wf s' ∧ nodes s' !! Metadata._meta_pointer self = Some n
            ∧ ∀ h, name_of s' h = name_of s h)
      as (Hwf' & Hn' & Hnames).
    { rewrite (untag_run s self n) in Huntag by done. rewrite Hattr in Huntag.
      injection Huntag as <-. split; [by apply untagged_scene_wf|done]. }
    exists s', (list_of_set ((λ c, name_of s (conn_src c)) <$> links s self tag_name)),
      after.
    split; [by rewrite (find_run s self n), Hattr|]. split; [done|].
    split; [done|]. intros name.
    rewrite (find_run s' self n tag_name Hwf' Hn'), Hattr in Hfind'.
    injection Hfind' as <-.
    unfold list_of_set. rewrite !elem_of_elements, !elem_of_list_to_set.
    rewrite !list_elem_of_fmap, Hlinks'. split.
    + intros (c & -> & [Hne Hc]%list_elem_of_filter). rewrite Hnames.
      split; [by exists c|done].
    + intros [(c & -> & Hc) Hne]. exists c. rewrite Hnames. split; [done|].
      by apply list_elem_of_filter.
  - rewrite (Hsame (or_introl eq_refl)) in *.
    exists s, [], after. rewrite (find_run s self n), Hattr in Hfind' |- * by done.
    injection Hfind' as <-. split; [done|]. split; [done|]. split; [done|].
    intros name. split; [by intros ?%elem_of_nil|by intros [?%elem_of_nil _]].
Qed.

(** X19: A second [untag] of the same name changes nothing. *)
Theorem untag_twice s self n (tag_name target : string) :
  scene_wf s →
  nodes s !! Metadata._meta_pointer self = Some n →
  ∃ s', Metadata.untag self tag_name target s = (Ok (), s') ∧
        Metadata.untag self tag_name target s' = (Ok (), s').
Proof.
  intros Hwf Hn.
  destruct (untag_then_find s self n tag_name target Hwf Hn)
    as (s' & after & Huntag & _ & _ & Hlinks & Hsame).
  exists s'. split; [done|].
  destruct (has_attr n (Metadata._TAG_PREFIX +:+ tag_name)) eqn:Hattr.
  - destruct (Hlinks eq_refl) as [_ Hlinks'].
    assert (scene_wf s' ∧ nodes s' !! Metadata._meta_pointer self = Some n
            ∧ ∀ h, name_of s' h = name_of s h)
      as (Hwf' & Hn' & Hnames).
    { rewrite (untag_run s self n) in Huntag by done. rewrite Hattr in Huntag.
      injection Huntag as <-. split; [by apply untagged_scene_wf|done]. }
    destruct (untag_then_find s' self n tag_name target Hwf' Hn')
      as (s'' & after' & Huntag' & _ & _ & _ & Hsame').
    rewrite Huntag'. f_equal. apply Hsame'. right.
    rewrite Hlinks'. apply Forall_forall.
    intros c [Hne _]%list_elem_of_filter. by rewrite Hnames.
  - by rewrite (Hsame (or_introl eq_refl)) in *.
Qed.

(** X20: On a tag without links, [find_first] returns [None]; after [tag] it
    returns the target and [find] the target alone. *)
Theorem find_first_after_tag s self n (tag_name target : string)
    (ht : MObject) (nt : node) :
  scene_wf s →
  nodes s !! Metadata._meta_pointer self = Some n →
  lookup_node s target = Some (ht, nt) →
  node_attrs n !! (Metadata._TAG_PREFIX +:+ tag_name) = None ∨
  node_attrs n !! (Metadata._TAG_PREFIX +:+ tag_name) = Some (MessageAttr true) →
  links s self tag_name = [] →
  ∃ s',
    Metadata.find_first self tag_name s = (Ok None, s) ∧
    Metadata.tag self tag_name target s = (Ok (), s') ∧
    Metadata.find self tag_name s' = (Ok [target], s') ∧
    Metadata.find_first self tag_name s' = (Ok (Some target), s').
Proof.
  intros Hwf Hn Htarget Hattr Hlinks.
  eexists. split; [|split; [by eapply tag_run|]].
  { unfold Metadata.find_first.
    erewrite bind_Ok by (by eapply find_without_links). done. }
  pose proof Htarget as [Hht Hname]%lookup_node_Some.
  assert (Metadata.find self tag_name
            (tagged_scene s (Metadata._meta_pointer self) n
               (Metadata._TAG_PREFIX +:+ tag_name) ht)
          = (Ok [target],
             tagged_scene s (Metadata._meta_pointer self) n
               (Metadata._TAG_PREFIX +:+ tag_name) ht)) as Hfind.
  { rewrite (find_run _ self _ tag_name
               (tagged_scene_wf s _ n _ ht Hwf Hn (mk_is_Some _ _ Hht))
               (tagged_scene_lookup s _ n _ ht Hn)).
    rewrite has_attr_tagged. unfold links. rewrite incoming_tagged.
    unfold links in Hlinks. rewrite Hlinks. simpl.
    rewrite (name_of_tagged _ _ _ _ _ _ Hn), (name_of_lookup _ _ _ Hht), Hname.
    unfold list_of_set. simpl.
    by rewrite (right_id_L ∅ (∪)), elements_singleton. }
  split; [done|].
  unfold Metadata.find_first. erewrite bind_Ok by exact Hfind. done.
Qed.

End more_tags.

(** ** Which node is the storage node of a host *)

Section metanodes.
Import Maya meta.

Implicit Types (s : scene) (self : Metadata.t) (n : node) (c : connection).

Lemma first_host_app_passed plugs plugs' :
  Forall no_host_plug plugs' →
  Metadata.first_host (plugs ++ plugs') = Metadata.first_host plugs.
Proof.
  intros Hpassed. induction plugs as [|p plugs IH]; simpl.
  - rewrite <-(app_nil_r plugs'). by rewrite first_host_app.
  - by rewrite IH.
Qed.

Lemma has_meta_result s name :
  (has_meta name s).1
  = match (Metadata.get_metanode name s).1 with
    | Ok pre => Ok (if decide (pre = "") then false else true)
    | Raise e => Raise e
    end.
Proof.
  unfold has_meta, mbind, M_bind.
  by destruct (Metadata.get_metanode name s) as [[pre|e] s'].
Qed.

Lemma get_metanode_missing s name :
  lookup_node s name = None →
  Metadata.get_metanode name s = (Raise ValueError, s).
Proof.
  intros Hname.
  unfold Metadata.get_metanode, listConnections_destination_plugs.
  unfold mbind, M_bind, lift. simpl. by rewrite Hname.
Qed.

(** X22: Being tagged gives a node no storage node: after [tag], [get_metanode]
    and [has_meta] return for every name what they returned before. *)
Theorem tag_leaves_metanodes s self n (tag_name target : string)
    (ht : MObject) (nt : node) :
  scene_wf s →
  nodes s !! Metadata._meta_pointer self = Some n →
  lookup_node s target = Some (ht, nt) →
  node_attrs n !! (Metadata._TAG_PREFIX +:+ tag_name) = None ∨
  node_attrs n !! (Metadata._TAG_PREFIX +:+ tag_name) = Some (MessageAttr true) →
  ∃ s',
    Metadata.tag self tag_name target s = (Ok (), s') ∧
    ∀ name,
      (Metadata.get_metanode name s').1 = (Metadata.get_metanode name s).1 ∧
      (has_meta name s').1 = (has_meta name s).1.
Proof.
  intros Hwf Hn Htarget Hattr.
  set (h := Metadata._meta_pointer self) in *.
  set (a := Metadata._TAG_PREFIX +:+ tag_name) in *.
  exists (tagged_scene s h n a ht). split; [by eapply tag_run|].
  intros name.
  assert ((Metadata.get_metanode name (tagged_scene s h n a ht)).1
          = (Metadata.get_metanode name s).1) as Hsame.
  { destruct (lookup_node s name) as [[hx nx]|] eqn:Hname.
    - destruct (lookup_node_tagged s h n a ht name hx nx Hwf Hn Hname)
        as (nx' & Hname').
      rewrite (get_metanode_run _ _ _ _ Hname), (get_metanode_run _ _ _ _ Hname').
      simpl. f_equal.
      unfold outgoing at 1. simpl connections. rewrite filter_app, fmap_app.
      rewrite first_host_app_passed.
      + f_equal. apply list_fmap_ext. intros i c _.
        unfold dst_plug. by rewrite (name_of_tagged _ _ _ _ _ _ Hn).
      + rewrite filter_cons. case_decide; [|constructor].
        rewrite filter_nil. repeat constructor.
        apply endswith_element_plug.
    - rewrite (get_metanode_missing s name Hname).
      rewrite (get_metanode_missing (tagged_scene s h n a ht) name); [done|].
      apply lookup_node_None. rewrite (node_names_tagged _ _ _ _ _ Hn).
      by apply lookup_node_None. }
  split; [done|]. by rewrite !has_meta_result, Hsame.
Qed.

(** X23: [has_meta] asks for one thing alone: a connection from the [message]
    plug of the host into a plug called [host].  The node at the other end
    may be of any type and need not carry the marker attribute; when the
    connection is the first that leaves the host, that node is the one
    [get_metanode] names. *)
Theorem has_meta_any_host_plug s (host : string) (h : MObject) (nh : node)
    (c : connection) :
  scene_wf s →
  lookup_node s host = Some (h, nh) →
  c ∈ connections s →
  conn_src c = h →
  conn_attr c = _Attributes.HOST →
  conn_index c = None →
  has_meta host s = (Ok true, s) ∧
  (∀ rest, outgoing s h = c :: rest →
     Metadata.get_metanode host s = (Ok (name_of s (conn_dst c)), s)).
Proof.
  intros Hwf Hhost Hc Hsrc Hattr Hindex.
  pose proof (get_metanode_run s host h nh Hhost) as Hmeta.
  assert (dst_plug s c = Plug (name_of s (conn_dst c)) "host" None) as Hplug.
  { unfold dst_plug. by rewrite Hattr, Hindex. }
  split.
  - rewrite (has_meta_run s host _) by by rewrite Hmeta.
    rewrite decide_False; [done|]. intros Hempty.
    apply first_host_empty in Hempty.
    + rewrite Forall_forall in Hempty.
      specialize (Hempty (dst_plug s c)). unfold no_host_plug in Hempty.
      rewrite Hplug, endswith_host_plug in Hempty.
      assert (true = false); [|done]. apply Hempty.
      rewrite <-Hplug. apply list_elem_of_fmap. exists c. split; [done|].
      by apply list_elem_of_filter.
    + apply Forall_fmap, Forall_forall. intros c' [_ Hc']%list_elem_of_filter.
      by apply dst_plug_node_nonempty.
  - intros rest Hfirst. rewrite Hmeta, Hfirst. csimpl.
    by rewrite Hplug, endswith_host_plug, rsplit_host_plug.
Qed.

(** X9: [Metadata(host)] for a host whose storage node is in the scene returns,
    without a change, a record whose [host()] is the host and whose [node()]
    is the name [get_metanode] gave. *)
Theorem init_with_metanode s (host pre : string) (h hm : MObject) (nh nm : node) :
  scene_wf s →
  lookup_node s host = Some (h, nh) →
  (Metadata.get_metanode host s).1 = Ok pre →
  lookup_node s pre = Some (hm, nm) →
  ∃ self,
    Metadata.__init__ host s = (Ok self, s) ∧
    Metadata.host self s = (Ok host, s) ∧
    Metadata.node self s = (Ok pre, s) ∧
    get host s = (Ok (Some self), s).
Proof.
  intros (_ & Hnonempty & _) Hhost Hpre Hmeta. exists (Metadata.Build h hm).
  pose proof (init_run s host h nh pre hm nm Hhost Hpre Hmeta) as Hinit.
  split; [done|].
  pose proof Hhost as [Hh <-]%lookup_node_Some.
  pose proof Hmeta as [Hhm Hname]%lookup_node_Some.
  split; [by apply get_name_Some|]. split.
  - unfold Metadata.node. simpl. rewrite <-Hname. by apply get_name_Some.
  - unfold get. erewrite bind_Ok by (by apply has_meta_run).
    rewrite decide_False; [by apply fmap_Ok|].
    intros ->. apply Hnonempty. rewrite <-Hname.
    apply list_elem_of_fmap. exists nm. split; [done|].
    by eapply list_elem_of_lookup_2.
Qed.

End metanodes.

(** ** A tag for a node that does not exist *)

Section partial.
Import Maya meta.

Implicit Types (s : scene) (self : Metadata.t) (n : node) (c : connection).

(** X21: [tag] for a name that matches no node raises at [mc.connectAttr], after
    the tag attribute has been added: the storage node keeps the new, empty
    tag attribute, and no connection is made. *)
Theorem tag_missing_target s self n (tag_name target : string) :
  scene_wf s →
  nodes s !! Metadata._meta_pointer self = Some n →
  target ∉ node_names s →
  node_attrs n !! (Metadata._TAG_PREFIX +:+ tag_name) = None →
  ∃ msg s',
    Metadata.tag self tag_name target s = (Raise (RuntimeError msg), s') ∧
    tier s' (Metadata._meta_pointer self) (Metadata._TAG_PREFIX +:+ tag_name)
    = Some (MessageAttr true) ∧
    connections s' = connections s.
Proof.
  intros Hwf Hn Htarget Hnone.
  set (h := Metadata._meta_pointer self) in *.
  set (a := Metadata._TAG_PREFIX +:+ tag_name) in *.
  set (attrs := <[a := MessageAttr true]> (node_attrs n)).
  pose proof Hwf as (Hnodup & _).
  pose proof (lookup_node_unique _ _ _ Hnodup Hn) as Hlook.
  pose proof (with_attrs_wf s h n attrs Hwf Hn) as Hwf1.
  pose proof Hwf1 as (Hnodup1 & _).
  pose proof (with_attrs_lookup s h n attrs Hn) as Hn1.
  pose proof (lookup_node_unique _ _ _ Hnodup1 Hn1) as Hlook1.
  assert (has_attr n a = false) as Hhas.
  { unfold a. rewrite has_attr_tag. fold a. rewrite Hnone.
    by rewrite bool_decide_eq_false_2 by (by intros [? ?]). }
  assert (has_attr (set_attrs n attrs) a = true) as Hhas1.
  { unfold a. rewrite has_attr_tag. fold a. apply bool_decide_eq_true_2.
    unfold attrs. simpl. rewrite lookup_insert_eq. by eexists. }
  exists "No object matches name", (with_attrs s h n attrs).
  split; [|split; [|done]].
  - unfold Metadata.tag. fold a.
    erewrite bind_Ok by (by apply get_name_Some).
    erewrite (bind_Ok _ _ s false s)
      by (unfold objExists, gets; simpl; by rewrite Hlook, Hhas).
    erewrite (bind_Ok _ _ s () (with_attrs s h n attrs))
      by (unfold addAttr; by rewrite Hlook, Hhas).
    erewrite bind_Ok
      by (by apply (after_last_index_run (with_attrs s h n attrs) h
                      (set_attrs n attrs) a)).
    unfold connectAttr. simpl plug_node.
    assert (lookup_node (with_attrs s h n attrs) target = None) as ->; [|done].
    apply lookup_node_None. by rewrite (node_names_with_attrs _ _ _ _ Hn).
  - rewrite tier_with_attrs by done. unfold attrs. by rewrite lookup_insert_eq.
Qed.

End partial.

(** ** The further properties on the example scenes *)

Section more_examples.
Import Maya meta.
#[local] Existing Instance RefJsonFacts.codec.

Ltac decided :=
  match goal with
  | |- ?P => apply (bool_decide_eq_true_1 P); vm_compute; reflexivity
  end.

Lemma hosted_scene_wf : scene_wf hosted_scene.
Proof. decided. Defined.

Lemma pointer_name_round_trip_witness :
  ∃ h, pointer.get_pointer "pCube1_ctrl" cube_scene = (Ok h, cube_scene) ∧
       pointer.get_name h cube_scene = (Ok "pCube1_ctrl", cube_scene).
Proof. apply (pointer_name_round_trip cube_scene "pCube1_ctrl"). decided. Defined.

Lemma pointer_handle_round_trip_witness :
  pointer.get_name 1 cube_scene = (Ok "pCube1_ctrl", cube_scene) ∧
  pointer.get_pointer "pCube1_ctrl" cube_scene = (Ok 1, cube_scene).
Proof.
  apply (pointer_handle_round_trip cube_scene 1
           (Node "pCube1_ctrl" "transform" false ∅)).
  - decided.
  - reflexivity.
Defined.

Lemma get_pointer_missing_witness :
  pointer.get_pointer "ghost" cube_scene
  = (Raise (RuntimeError ("Could not find node " +:+ "ghost")), cube_scene) ∧
  Metadata.__init__ "ghost" cube_scene
  = (Raise (RuntimeError ("Could not find node " +:+ "ghost")), cube_scene).
Proof. apply (get_pointer_missing cube_scene "ghost"). decided. Defined.

Lemma get_after_create_witness :
  ∃ self s',
    create "pCube1" cube_scene = (Ok (Some self), s') ∧
    get "pCube1" s' = (Ok (Some self), s') ∧
    get "pCube1" cube_scene = (Ok None, cube_scene) ∧
    has_meta "pCube1" cube_scene = (Ok false, cube_scene) ∧
    has_meta "pCube1" s' = (Ok true, s').
Proof.
  apply (get_after_create cube_scene "pCube1" 0 (Node "pCube1" "transform" false ∅)).
  - apply cube_scene_wf.
  - reflexivity.
  - vm_compute. reflexivity.
Defined.

Lemma node_after_create_witness :
  ∃ self s' name,
    create "pCube1" cube_scene = (Ok (Some self), s') ∧
    Metadata.node self s' = (Ok name, s') ∧
    Metadata.get_metanode "pCube1" s' = (Ok name, s') ∧
    (name ∉ node_names cube_scene) ∧
    Metadata.host self s' = (Ok "pCube1", s').
Proof.
  apply (node_after_create cube_scene "pCube1" 0 (Node "pCube1" "transform" false ∅)).
  - apply cube_scene_wf.
  - reflexivity.
  - vm_compute. reflexivity.
Defined.

Lemma Metadata_create_again_witness :
  ∃ s',
    Metadata.create "pCube1" described_scene = (Ok cube_record, s') ∧
    length (nodes s') = S (length (nodes described_scene)) ∧
    2 < length (nodes described_scene) ∧
    Metadata.node cube_record s' = (Ok "SYNAPTIC_METANODE1", s').
Proof.
  apply (Metadata_create_again described_scene "pCube1" "SYNAPTIC_METANODE1" 0 2
           (Node "pCube1" "transform" false ∅) (storage_node false "{}" "{}")).
  - apply stored_scene_wf.
  - reflexivity.
  - vm_compute. reflexivity.
  - discriminate.
  - reflexivity.
Defined.

Lemma create_missing_host_witness :
  has_meta "ghost" cube_scene = (Raise ValueError, cube_scene) ∧
  get "ghost" cube_scene = (Raise ValueError, cube_scene) ∧
  create "ghost" cube_scene = (Raise ValueError, cube_scene).
Proof. apply (create_missing_host cube_scene "ghost"). decided. Defined.



Lemma set_referenced_unseen_witness :
  ∃ s',
    Metadata.set cube_record "owner" (JStr "rigTeam")
      (stored_scene true (owned_by "baseTeam") "{}") = (Ok (), s') ∧
    tier s' 2 _Attributes.TRANSIENT_DATA
    = Some (StringAttr (json_dumps (JDict [("owner", JStr "rigTeam")]))) ∧
    ∀ other,
      (Metadata.get cube_record other s').1
      = (Metadata.get cube_record other
           (stored_scene true (owned_by "baseTeam") "{}")).1.
Proof.
  set (base := owned_by "baseTeam").
  apply (set_referenced_unseen (stored_scene true base "{}") cube_record
           (storage_node true base "{}") "owner" "{}" (JStr "rigTeam") []).
  - apply stored_scene_wf.
  - reflexivity.
  - reflexivity.
  - reflexivity.
  - vm_compute. reflexivity.
Defined.

Lemma get_persistent_not_dict_witness :
  Metadata.get cube_record "owner" (stored_scene false listed "{}")
  = (Raise AttributeError, stored_scene false listed "{}").
Proof.
  apply (get_persistent_not_dict (stored_scene false listed "{}") cube_record
           (storage_node false listed "{}") "owner" listed (JList [JInt 1])).
  - apply stored_scene_wf.
  - reflexivity.
  - reflexivity.
  - vm_compute. reflexivity.
  - discriminate.
Defined.

Lemma set_tier_not_dict_witness :
  Metadata.set cube_record "owner" (JStr "rigTeam") (stored_scene false listed "{}")
  = (Raise TypeError, stored_scene false listed "{}").
Proof.
  apply (set_tier_not_dict (stored_scene false listed "{}") cube_record
           (storage_node false listed "{}") "owner" listed (JStr "rigTeam")
           (JList [JInt 1])).
  - apply stored_scene_wf.
  - reflexivity.
  - reflexivity.
  - vm_compute. reflexivity.
  - discriminate.
Defined.

Lemma set_leaves_tags_witness :
  (∀ tag_name,
     (Metadata.find cube_record tag_name
        (Metadata.set cube_record "owner" (JStr "rigTeam") sparse_scene).2).1
     = (Metadata.find cube_record tag_name sparse_scene).1) ∧
  (∀ h, name_of (Metadata.set cube_record "owner" (JStr "rigTeam") sparse_scene).2 h
        = name_of sparse_scene h) ∧
  connections (Metadata.set cube_record "owner" (JStr "rigTeam") sparse_scene).2
  = connections sparse_scene.
Proof.
  apply (set_leaves_tags sparse_scene cube_record
           (set_attrs (storage_node false "{}" "{}")
              (<["usertaggrp" := MessageAttr true]> fresh_attrs))
           "owner" (JStr "rigTeam")).
  - decided.
  - reflexivity.
Defined.

Lemma tags_leave_data_witness :
  ∃ s', Metadata.tag cube_record "grp" "pCube1_ctrl"
          (stored_scene false (owned_by "baseTeam") "{}") = (Ok (), s') ∧
        ∀ label,
          (Metadata.get cube_record label s').1
          = (Metadata.get cube_record label
               (stored_scene false (owned_by "baseTeam") "{}")).1.
Proof.
  set (base := owned_by "baseTeam").
  destruct (tags_leave_data (stored_scene false base "{}") cube_record
              (storage_node false base "{}") "grp" "pCube1_ctrl") as [Htag _].
  - apply stored_scene_wf.
  - reflexivity.
  - apply (Htag 1 (Node "pCube1_ctrl" "transform" false ∅)).
    + reflexivity.
    + left. reflexivity.
Defined.


Lemma untag_keeps_others_witness :
  ∃ s' before after,
    Metadata.find cube_record "grp" sparse_scene = (Ok before, sparse_scene) ∧
    Metadata.untag cube_record "grp" "pCube1_ctrl" sparse_scene = (Ok (), s') ∧
    Metadata.find cube_record "grp" s' = (Ok after, s') ∧
    ∀ name, name ∈ after ↔ name ∈ before ∧ name ≠ "pCube1_ctrl".
Proof.
  apply (untag_keeps_others sparse_scene cube_record
           (set_attrs (storage_node false "{}" "{}")
              (<["usertaggrp" := MessageAttr true]> fresh_attrs))
           "grp" "pCube1_ctrl").
  - decided.
  - reflexivity.
Defined.

Lemma untag_twice_witness :
  ∃ s', Metadata.untag cube_record "grp" "pCube1_ctrl" sparse_scene = (Ok (), s') ∧
        Metadata.untag cube_record "grp" "pCube1_ctrl" s' = (Ok (), s').
Proof.
  apply (untag_twice sparse_scene cube_record
           (set_attrs (storage_node false "{}" "{}")
              (<["usertaggrp" := MessageAttr true]> fresh_attrs))
           "grp" "pCube1_ctrl").
  - decided.
  - reflexivity.
Defined.

Lemma find_first_after_tag_witness :
  ∃ s',
    Metadata.find_first cube_record "grp" described_scene = (Ok None, described_scene) ∧
    Metadata.tag cube_record "grp" "pCube1_ctrl" described_scene = (Ok (), s') ∧
    Metadata.find cube_record "grp" s' = (Ok ["pCube1_ctrl"], s') ∧
    Metadata.find_first cube_record "grp" s' = (Ok (Some "pCube1_ctrl"), s').
Proof.
  apply (find_first_after_tag described_scene cube_record
           (storage_node false "{}" "{}") "grp" "pCube1_ctrl" 1
           (Node "pCube1_ctrl" "transform" false ∅)).
  - apply stored_scene_wf.
  - reflexivity.
  - reflexivity.
  - left. reflexivity.
  - reflexivity.
Defined.

Lemma tag_leaves_metanodes_witness :
  ∃ s',
    Metadata.tag cube_record "grp" "pCube1_ctrl" described_scene = (Ok (), s') ∧
    ∀ name,
      (Metadata.get_metanode name s').1
      = (Metadata.get_metanode name described_scene).1 ∧
      (has_meta name s').1 = (has_meta name described_scene).1.
Proof.
  apply (tag_leaves_metanodes described_scene cube_record
           (storage_node false "{}" "{}") "grp" "pCube1_ctrl" 1
           (Node "pCube1_ctrl" "transform" false ∅)).
  - apply stored_scene_wf.
  - reflexivity.
  - reflexivity.
  - left. reflexivity.
Defined.

Lemma has_meta_any_host_plug_witness :
  has_meta "pCube1" hosted_scene = (Ok true, hosted_scene) ∧
  (∀ rest,
     outgoing hosted_scene 0 = Connection 0 1 _Attributes.HOST None :: rest →
     Metadata.get_metanode "pCube1" hosted_scene
     = (Ok (name_of hosted_scene 1), hosted_scene)).
Proof.
  apply (has_meta_any_host_plug hosted_scene "pCube1" 0
           (Node "pCube1" "transform" false ∅)
           (Connection 0 1 _Attributes.HOST None)).
  - apply hosted_scene_wf.
  - reflexivity.
  - decided.
  - reflexivity.
  - reflexivity.
  - reflexivity.
Defined.

Lemma init_with_metanode_witness :
  ∃ self,
    Metadata.__init__ "pCube1" described_scene = (Ok self, described_scene) ∧
    Metadata.host self described_scene = (Ok "pCube1", described_scene) ∧
    Metadata.node self described_scene = (Ok "SYNAPTIC_METANODE1", described_scene) ∧
    get "pCube1" described_scene = (Ok (Some self), described_scene).
Proof.
  apply (init_with_metanode described_scene "pCube1" "SYNAPTIC_METANODE1" 0 2
           (Node "pCube1" "transform" false ∅) (storage_node false "{}" "{}")).
  - apply stored_scene_wf.
  - reflexivity.
  - vm_compute. reflexivity.
  - reflexivity.
Defined.

Lemma tag_missing_target_witness :
  ∃ msg s',
    Metadata.tag cube_record "grp" "ghost" described_scene
    = (Raise (RuntimeError msg), s') ∧
    tier s' 2 (Metadata._TAG_PREFIX +:+ "grp") = Some (MessageAttr true) ∧
    connections s' = connections described_scene.
Proof.
  apply (tag_missing_target described_scene cube_record
           (storage_node false "{}" "{}") "grp" "ghost").
  - apply stored_scene_wf.
  - reflexivity.
  - decided.
  - reflexivity.
Defined.

End more_examples.
